(** * AI-OSI-ONE: the update pipeline of the agent, embedded in Rocq

    The development follows the three source files that hold the decision
    logic of the repository:

    - [src/core/nlp/processor.py]   (module [Nlp]): keyword classification and
      entity extraction;
    - [src/tools/azure_devops.py]   (module [Ado]): [update_work_item], status
      legalization and date normalization;
    - [src/core/agent/orchestrator.py] (module [Orch]): tool selection, the
      safety gate, single and batch dispatch, the result envelope.

    Python text is modelled as [string]: ASCII text, any other character being
    carried as opaque bytes (case folding and the classes of white space,
    digits and word characters act on ASCII only).  On the texts delimited by
    [Py.is_ascii] these are the classes and mappings of Python; a statement
    that could fail on a text with other digits, letters or white space
    carries this hypothesis.  The regular expressions of
    the source are written in a small regex syntax ([Re.regex]) and run by a
    backtracking matcher with Python's leftmost, greedy semantics.  Everything
    outside the process (the OpenAI classifier, the Azure DevOps REST
    endpoints) is an oracle of the environment [Env]; calls to it are logged
    in the [World]. *)

From Stdlib Require Import String Ascii List ZArith Bool Lia QArith.
From Stdlib Require Import DecimalString Permutation.
From Stdlib Require DecimalNat DecimalFacts.
Import ListNotations.
Local Open Scope string_scope.
Local Open Scope Z_scope.

(* ================================================================== *)
(** ** Python string primitives                                         *)
(* ================================================================== *)
Module Py.

Definition code (c : ascii) : nat := nat_of_ascii c.

Definition is_upper (c : ascii) : bool := (65 <=? code c)%nat && (code c <=? 90)%nat.
Definition is_lower (c : ascii) : bool := (97 <=? code c)%nat && (code c <=? 122)%nat.
Definition is_digit (c : ascii) : bool := (48 <=? code c)%nat && (code c <=? 57)%nat.
Definition is_alpha (c : ascii) : bool := is_upper c || is_lower c.

(** [str.isspace] and the regex class [\s] on ASCII: TAB..CR, FS..US, SPACE. *)
Definition is_space (c : ascii) : bool :=
  ((9 <=? code c)%nat && (code c <=? 13)%nat)
  || ((28 <=? code c)%nat && (code c <=? 32)%nat).

(** The regex class [\w] on ASCII. *)
Definition is_word (c : ascii) : bool :=
  is_alpha c || is_digit c || Ascii.eqb c "_"%char.

Definition lower_char (c : ascii) : ascii :=
  if is_upper c then ascii_of_nat (code c + 32) else c.
Definition upper_char (c : ascii) : ascii :=
  if is_lower c then ascii_of_nat (code c - 32) else c.

Fixpoint map_chars (f : ascii -> ascii) (s : string) : string :=
  match s with
  | EmptyString => EmptyString
  | String c r => String (f c) (map_chars f r)
  end.

(** [s.lower()] and [s.upper()]. *)
Definition lower (s : string) : string := map_chars lower_char s.
Definition upper (s : string) : string := map_chars upper_char s.

(** [sub in s]. *)
Fixpoint contains (sub s : string) : bool :=
  String.prefix sub s ||
  match s with
  | EmptyString => false
  | String _ r => contains sub r
  end.

(** [any(k in s for k in ks)]. *)
Definition any_in (ks : list string) (s : string) : bool :=
  existsb (fun k => contains k s) ks.

Fixpoint forall_chars (p : ascii -> bool) (s : string) : bool :=
  match s with
  | EmptyString => true
  | String c r => p c && forall_chars p r
  end.

Fixpoint exists_chars (p : ascii -> bool) (s : string) : bool :=
  match s with
  | EmptyString => false
  | String c r => p c || exists_chars p r
  end.

(** [s.isdigit()]: at least one character, all of them digits. *)
Definition isdigit (s : string) : bool :=
  match s with
  | EmptyString => false
  | _ => forall_chars is_digit s
  end.

(** Truthiness of a string: [bool(s)]. *)
Definition truthy (s : string) : bool :=
  match s with EmptyString => false | _ => true end.

Fixpoint lstrip (s : string) : string :=
  match s with
  | String c r => if is_space c then lstrip r else s
  | EmptyString => EmptyString
  end.

Fixpoint rstrip (s : string) : string :=
  match s with
  | EmptyString => EmptyString
  | String c r =>
      match rstrip r with
      | EmptyString => if is_space c then EmptyString else String c EmptyString
      | r' => String c r'
      end
  end.

(** [s.strip()]. *)
Definition strip (s : string) : string := rstrip (lstrip s).

(** [s.split(sep)] for a one-character separator: never the empty list. *)
Fixpoint split (sep : ascii) (s : string) : list string :=
  match s with
  | EmptyString => [EmptyString]
  | String c r =>
      if Ascii.eqb c sep then EmptyString :: split sep r
      else match split sep r with
           | [] => [String c EmptyString]
           | h :: t => String c h :: t
           end
  end.

Definition newline : ascii := ascii_of_nat 10.
Definition nl : string := String newline EmptyString.

(** [sep.join(parts)]. *)
Fixpoint join (sep : string) (parts : list string) : string :=
  match parts with
  | [] => EmptyString
  | [p] => p
  | p :: rest => p ++ sep ++ join sep rest
  end.

(** [str(n)] for integers. *)
Definition str_of_nat (n : nat) : string := NilZero.string_of_uint (Nat.to_uint n).
Definition str_of_Z (z : Z) : string := NilZero.string_of_int (Z.to_int z).

Definition digit_value (c : ascii) : Z := Z.of_nat (code c - 48).

Fixpoint digits_value (acc : Z) (s : string) : Z :=
  match s with
  | EmptyString => acc
  | String c r => digits_value (10 * acc + digit_value c) r
  end.

(** The digits of an integer literal: decimal digits, single underscores
    allowed between two digits. *)
Fixpoint strip_underscores (prev_digit : bool) (s : string) : option string :=
  match s with
  | EmptyString => if prev_digit then Some EmptyString else None
  | String c r =>
      if is_digit c then option_map (String c) (strip_underscores true r)
      else if Ascii.eqb c "_"%char then
             (if prev_digit then strip_underscores false r else None)
      else None
  end.

(** The digits that an integer conversion accepts in one text:
    [sys.int_info.default_max_str_digits] of Python 3.11 and later, the
    version the repository asks for ([scripts/setup_dev.py]); nothing in the
    repository changes the default. *)
Definition max_str_digits : Z := 4300.

Definition too_long (digits : string) : bool :=
  max_str_digits <? Z.of_nat (String.length digits).

(** The sign and the digits of the literal read by [int(s)]: surrounding
    white space, one optional sign, digits with single underscores between
    them.  [None]: the text is no integer literal. *)
Definition int_literal (s : string) : option (bool * string) :=
  let body := strip s in
  let '(neg, ds) :=
    match body with
    | String "-"%char r => (true, r)
    | String "+"%char r => (false, r)
    | _ => (false, body)
    end in
  match ds with
  | EmptyString => None
  | _ => option_map (pair neg) (strip_underscores false ds)
  end.

(** [int(s)].  [None] is the [ValueError] of Python: the text is no integer
    literal, or it has more than [max_str_digits] digits (leading zeros
    count, the sign and the underscores do not). *)
Definition int (s : string) : option Z :=
  match int_literal s with
  | Some (neg, d) =>
      if too_long d then None
      else Some (if neg then - digits_value 0 d else digits_value 0 d)
  | None => None
  end.

(** [str(e)] for the [ValueError] raised by [int(s)]. *)
Definition int_error (s : string) : string :=
  match int_literal s with
  | Some (_, d) =>
      "Exceeds the limit (4300 digits) for integer string conversion: value has "
      ++ str_of_nat (String.length d)
      ++ " digits; use sys.set_int_max_str_digits() to increase the limit"
  | None => "invalid literal for int() with base 10: '" ++ s ++ "'"
  end.

(** [s.isascii()]: every character is an ASCII character.  On such texts the
    classes and the case mappings above are those of Python. *)
Definition is_ascii (s : string) : bool :=
  forall_chars (fun c => (code c <? 128)%nat) s.

End Py.

(* ================================================================== *)
(** ** Regular expressions with Python's search semantics               *)
(* ================================================================== *)
Module Re.

(** The fragment of [re] syntax used by the source.  Every repetition of the
    source is over a character class; every pattern has at most one capturing
    group. *)
Inductive regex : Type :=
| Lit (s : string)                                  (* literal text *)
| Cls (p : ascii -> bool)                           (* one character of a class *)
| Rep (p : ascii -> bool) (lo : nat) (hi : option nat)  (* greedy {lo,hi} *)
| Seq (r1 r2 : regex)
| Alt (r1 r2 : regex)
| Grp (r : regex).                                  (* capturing group 1 *)

Declare Scope re_scope.
Delimit Scope re_scope with re.
Bind Scope re_scope with regex.
Infix "·" := Seq (at level 41, right associativity) : re_scope.

Definition digit : ascii -> bool := Py.is_digit.
Definition space : ascii -> bool := Py.is_space.
Definition word : ascii -> bool := Py.is_word.
Definition plus (p : ascii -> bool) : regex := Rep p 1 None.      (* p+ *)
Definition star (p : ascii -> bool) : regex := Rep p 0 None.      (* p* *)
Definition between (p : ascii -> bool) (lo hi : nat) : regex := Rep p lo (Some hi).
Definition exactly (p : ascii -> bool) (n : nat) : regex := Rep p n (Some n).

(** A match result: the captured text of group 1 (if the group took part) and
    the text left after the match. *)
Record result : Type := mkResult { group1 : option string; rest : string }.

Section Matcher.
(** [icase] is the flag [re.IGNORECASE]. *)
Variable icase : bool.

Definition char_eq (a b : ascii) : bool :=
  if icase then Ascii.eqb (Py.lower_char a) (Py.lower_char b) else Ascii.eqb a b.

Definition in_class (p : ascii -> bool) (c : ascii) : bool :=
  if icase then p c || p (Py.lower_char c) || p (Py.upper_char c) else p c.

(** Consume the literal [l] at the head of [s]. *)
Fixpoint eat (l s : string) : option string :=
  match l, s with
  | EmptyString, _ => Some s
  | String a l', String b s' => if char_eq a b then eat l' s' else None
  | String _ _, EmptyString => None
  end.

(** Length of the longest run of class characters at the head of [s], at
    most [cap] when a bound is given. *)
Fixpoint run (p : ascii -> bool) (cap : option nat) (s : string) : nat :=
  match s with
  | EmptyString => 0%nat
  | String c s' =>
      match cap with
      | Some O => 0%nat
      | Some (S n) => if in_class p c then S (run p (Some n) s') else 0%nat
      | None => if in_class p c then S (run p None s') else 0%nat
      end
  end.

Fixpoint drop (n : nat) (s : string) : string :=
  match n, s with
  | O, _ => s
  | S n', String _ s' => drop n' s'
  | S _, EmptyString => EmptyString
  end.

Fixpoint take (n : nat) (s : string) : string :=
  match n, s with
  | O, _ => EmptyString
  | S n', String c s' => String c (take n' s')
  | S _, EmptyString => EmptyString
  end.

(** Greedy repetition: try the longest run first, then give characters back
    one at a time, never below [lo]. *)
Fixpoint give_back {A} (n lo : nat) (s : string) (k : string -> option A) : option A :=
  if (n <? lo)%nat then None
  else match k (drop n s) with
       | Some a => Some a
       | None => match n with
                 | O => None
                 | S n' => give_back n' lo s k
                 end
       end.

(** Backtracking matcher in continuation style: [m r g s k] matches [r] at
    the head of [s] and hands the current capture and the remaining text to
    [k]; alternatives are tried left to right. *)
Fixpoint m {A} (r : regex) (g : option string) (s : string)
         (k : option string -> string -> option A) : option A :=
  match r with
  | Lit l => match eat l s with Some s' => k g s' | None => None end
  | Cls p => match s with
             | String c s' => if in_class p c then k g s' else None
             | EmptyString => None
             end
  | Rep p lo hi => give_back (run p hi s) lo s (k g)
  | Seq r1 r2 => m r1 g s (fun g' s' => m r2 g' s' k)
  | Alt r1 r2 => match m r1 g s k with
                 | Some a => Some a
                 | None => m r2 g s k
                 end
  | Grp r1 =>
      m r1 g s (fun _ s' => k (Some (take (String.length s - String.length s') s)) s')
  end.

(** [re.match(r, s)]: a match at the start of [s]. *)
Definition match_here (r : regex) (s : string) : option result :=
  m r None s (fun g s' => Some (mkResult g s')).

(** [re.search(r, s)]: the leftmost match. *)
Fixpoint search (r : regex) (s : string) : option result :=
  match match_here r s with
  | Some res => Some res
  | None => match s with
            | EmptyString => None
            | String _ s' => search r s'
            end
  end.

(** [re.findall(r, s)] for a pattern with one group: the captures of the
    successive non-overlapping matches.  [fuel] bounds the number of
    restarts; the length of the text plus one is enough. *)
Fixpoint findall_fuel (fuel : nat) (r : regex) (s : string) : list string :=
  match fuel with
  | O => []
  | S fuel' =>
      match match_here r s with
      | Some res =>
          let cap := match group1 res with Some c => c | None => EmptyString end in
          if (String.length (rest res) <? String.length s)%nat
          then cap :: findall_fuel fuel' r (rest res)
          else (* an empty match: step over one character *)
            cap :: match s with
                   | EmptyString => []
                   | String _ s' => findall_fuel fuel' r s'
                   end
      | None => match s with
                | EmptyString => []
                | String _ s' => findall_fuel fuel' r s'
                end
      end
  end.

Definition findall (r : regex) (s : string) : list string :=
  findall_fuel (S (String.length s)) r s.

End Matcher.

(** [bool(re.search(r, s))]. *)
Definition found (icase : bool) (r : regex) (s : string) : bool :=
  match search icase r s with Some _ => true | None => false end.

(** [re.search(r, s).group(1)] when there is a match. *)
Definition search_group (icase : bool) (r : regex) (s : string) : option string :=
  match search icase r s with
  | Some res => Some (match group1 res with Some c => c | None => EmptyString end)
  | None => None
  end.

End Re.

(* ================================================================== *)
(** ** Values, the outside world and the effect monad                  *)
(* ================================================================== *)

(** A Python value stored in a field update: text or an integer. *)
Inductive PyVal : Type :=
| VStr (s : string)
| VInt (z : Z).

(** [str(v)]. *)
Definition str_of_val (v : PyVal) : string :=
  match v with VStr s => s | VInt z => Py.str_of_Z z end.

(** [field_updates]: a Python dict from field name to value, in insertion
    order.  The key is optional because the single-item planner can insert
    the key [None] (see [Orch.plan_field_names]). *)
Definition FieldUpdates : Type := list (option string * PyVal).

Definition key_eqb (a b : option string) : bool :=
  match a, b with
  | Some x, Some y => String.eqb x y
  | None, None => true
  | _, _ => false
  end.

(** [d[k] = v]: overwrite in place, or append a new key. *)
Fixpoint dict_set (d : FieldUpdates) (k : option string) (v : PyVal) : FieldUpdates :=
  match d with
  | [] => [(k, v)]
  | (k', v') :: d' => if key_eqb k' k then (k', v) :: d' else (k', v') :: dict_set d' k v
  end.

Fixpoint dict_get (d : FieldUpdates) (k : option string) : option PyVal :=
  match d with
  | [] => None
  | (k', v') :: d' => if key_eqb k' k then Some v' else dict_get d' k
  end.

(** [k in d]. *)
Definition dict_mem (d : FieldUpdates) (k : option string) : bool :=
  match dict_get d k with Some _ => true | None => false end.

(** One item of a batch: [{"task_id": ..., "field_updates": ...}]. *)
Record BatchUpdate : Type := mkBatchUpdate {
  bu_task_id : string;
  bu_field_updates : FieldUpdates
}.

(** One JSON-patch operation sent to the backend: [op] is always ["add"]. *)
Record Operation : Type := mkOperation {
  op_path : string;
  op_value : PyVal
}.

(** The entity dict of [_extract_entities]; an absent key is [None] (or
    [false] for the flag [batch_update_error]). *)
Record Entities : Type := mkEntities {
  time_period : option string;
  status : option string;
  batch_updates : option (list BatchUpdate);
  batch_update_error : bool;
  task_id : option string;
  field_names : option (list string);
  field_name : option string;
  date_values : option (list string);
  remaining_values : option (list string);
  completed_values : option (list string);
  original_estimate_values : option (list string);
  assignee_values : option (list string);
  status_values : option (list string);
  sprint : option string;
  person : option string;
  context : option string;
  priority : option string;
  task_type : option string
}.

(** The empty dict [{}]. *)
Definition no_entities : Entities :=
  mkEntities None None None false None None None None None None None None None
             None None None None None.

(** [class Intent(BaseModel)]; the confidences of the source are the decimal
    constants 0.8, 0.6, 0.5 and 0.3, kept as exact fractions. *)
Record Intent : Type := mkIntent {
  name : string;
  confidence : Q;
  entities : Entities
}.

(** What the process does to the outside, in order. *)
Inductive Event : Type :=
| EvOpenAI (user_input : string)          (* [_call_openai] on the prompt built from the text *)
| EvSetup                                (* [ado_tool.setup()] *)
| EvGetMyTasks (sprint status : option string)
| EvGetMyPullRequests (status : string)
| EvUpdateWorkItem (id : Z) (updates : FieldUpdates)   (* entry of [update_work_item] *)
| EvGetWorkItem (id : Z)                 (* GET  .../workitems/{id} *)
| EvPatchWorkItem (id : Z) (ops : list Operation).     (* PATCH .../workitems/{id} *)

(** The answer of an external call: a value or a raised exception with its
    [str(e)]. *)
Inductive Reply (A : Type) : Type :=
| Ok (a : A)
| Raised (msg : string).
Arguments Ok {A} a.
Arguments Raised {A} msg.

Inductive SetupReply : Type :=
| SetupDone                       (* the session is created *)
| SetupValueError (msg : string)  (* missing configuration *)
| SetupFailed (msg : string).     (* any other exception *)

(** Answer of the GET used to look up the work-item type: a 200 response with
    the field [System.WorkItemType] when present, or another status code. *)
Inductive GetReply : Type :=
| Get200 (work_item_type : option string)
| GetStatus (code : Z).

(** Answer of the PATCH: the status code with the response body. *)
Record PatchReply : Type := mkPatchReply { patch_status : Z; patch_body : string }.

(** The environment: every oracle sees the events so far, so an answer may
    depend on the history of the session. *)
Record Env : Type := mkEnv {
  tool_available : bool;      (* [self.tools] holds the Azure DevOps tool *)
  call_openai : list Event -> string -> Reply string;
  setup : list Event -> SetupReply;
  get_my_tasks : list Event -> option string -> option string -> Reply string;
  get_my_pull_requests : list Event -> string -> Reply string;
  get_work_item : list Event -> Z -> Reply GetReply;
  patch_work_item : list Event -> Z -> list Operation -> Reply PatchReply
}.

(** One entry of the conversation history (the time stamp of the event loop
    is left out). *)
Record HistoryEntry : Type := mkHistoryEntry {
  h_user_input : string;
  h_intent : string;
  h_confidence : Q;
  h_entities : Entities;
  h_response : string
}.

(** The mutable state of the agent. *)
Record World : Type := mkWorld {
  log : list Event;                      (* oldest first *)
  session : bool;                        (* [ado_tool.session] is set *)
  conversation_history : list HistoryEntry
}.

Definition emit (e : Event) (w : World) : World :=
  mkWorld (log w ++ [e]) (session w) (conversation_history w).

(** State-and-exception monad of the async methods. *)
Definition M (A : Type) : Type := World -> Reply A * World.

Definition ret {A} (a : A) : M A := fun w => (Ok a, w).
Definition raise {A} (msg : string) : M A := fun w => (Raised msg, w).
Definition bind {A B} (c : M A) (f : A -> M B) : M B :=
  fun w => match c w with
           | (Ok a, w') => f a w'
           | (Raised msg, w') => (Raised msg, w')
           end.
(** [try: c  except Exception as e: h(str(e))]. *)
Definition catch {A} (c : M A) (h : string -> M A) : M A :=
  fun w => match c w with
           | (Ok a, w') => (Ok a, w')
           | (Raised msg, w') => h msg w'
           end.

Declare Scope monad_scope.
Delimit Scope monad_scope with monad.
Notation "x <- c ;; k" := (bind c (fun x => k))
  (at level 61, c at next level, right associativity) : monad_scope.
Notation "c ;;; k" := (bind c (fun _ => k))
  (at level 61, right associativity) : monad_scope.

(** Number of calls of [update_work_item] recorded in a log. *)
Definition is_update (e : Event) : bool :=
  match e with EvUpdateWorkItem _ _ => true | _ => false end.
Definition is_patch (e : Event) : bool :=
  match e with EvPatchWorkItem _ _ => true | _ => false end.
Definition update_calls (l : list Event) : list Event := filter is_update l.
Definition patch_calls (l : list Event) : list Event := filter is_patch l.

(* ================================================================== *)
(** ** src/core/nlp/processor.py                                        *)
(* ================================================================== *)
Module Nlp.
Import Re.
Local Open Scope re_scope.

Definition conf_0_8 : Q := 8 # 10.
Definition conf_0_6 : Q := 6 # 10.
Definition conf_0_5 : Q := 5 # 10.
Definition conf_0_3 : Q := 3 # 10.

Definition update_keywords : list string :=
  ["update"; "modify"; "change"; "edit"; "set"].

(** [r"task-\d+"] and [r"\[task-\d+\]"] for the five type words: the id
    patterns of the classifier (hyphenated forms only). *)
Definition type_words : list string := ["task"; "story"; "bug"; "epic"; "requirement"].

Definition classifier_id_patterns : list regex :=
  map (fun t => Lit (t ++ "-") · plus digit) type_words
  ++ map (fun t => Lit ("[" ++ t ++ "-") · plus digit · Lit "]") type_words.

Definition has_update_keyword (user_input : string) : bool :=
  Py.any_in update_keywords (Py.lower user_input).

Definition has_task_id (user_input : string) : bool :=
  existsb (fun p => found false p (Py.lower user_input)) classifier_id_patterns.

(** *** [_extract_batch_updates] *)

Definition batch_task_pattern : regex :=
  Lit "task" · plus space · Grp (plus digit) · star space · Lit "->".

Definition slash_date : regex :=
  between digit 1 2 · Lit "/" · between digit 1 2 · Lit "/" · exactly digit 4.

Definition batch_start_date_pattern : regex :=
  Lit "start date" · star space · Lit "->" · star space · Grp slash_date.
Definition batch_finish_date_pattern : regex :=
  Lit "finish date" · star space · Lit "->" · star space · Grp slash_date.
Definition batch_status_pattern : regex :=
  Lit "status" · star space · Lit "->" · star space · Grp (plus word).

(** The field updates read from one line, in the order the source inserts
    them: start date, finish date, status. *)
Definition batch_line_fields (line : string) : FieldUpdates :=
  let fu0 : FieldUpdates := [] in
  let fu1 := match search_group true batch_start_date_pattern line with
             | Some d => dict_set fu0 (Some "start_date") (VStr d)
             | None => fu0
             end in
  let fu2 := match search_group true batch_finish_date_pattern line with
             | Some d => dict_set fu1 (Some "finish_date") (VStr d)
             | None => fu1
             end in
  match search_group true batch_status_pattern line with
  | Some s => dict_set fu2 (Some "status") (VStr (Py.lower s))
  | None => fu2
  end.

(** What the body of the loop does with one line: skip it ([continue] on a
    blank line), record it as invalid, or append an update. *)
Inductive LineVerdict : Type :=
| Blank
| Invalid (entry : string)          (* the text appended to [invalid_lines] *)
| Update (u : BatchUpdate).

(** The body of [for i, line in enumerate(lines[1:], 1)]. *)
Definition batch_line (i : nat) (raw : string) : LineVerdict :=
  let line := Py.strip raw in
  if negb (Py.truthy line) then Blank
  else
    match search_group true batch_task_pattern line with
    | None => Invalid ("Line " ++ Py.str_of_nat i ++ ": " ++ line)
    | Some tid =>
        if negb (Py.isdigit tid) then
          Invalid ("Line " ++ Py.str_of_nat i ++ ": Invalid task ID '"
                     ++ tid ++ "' in '" ++ line ++ "'")
        else
          match batch_line_fields line with
          | [] => Invalid ("Line " ++ Py.str_of_nat i
                             ++ ": No valid field updates found in '" ++ line ++ "'")
          | field_updates => Update (mkBatchUpdate tid field_updates)
          end
    end.

(** The loop, threading the two local lists [updates] and [invalid_lines]. *)
Fixpoint batch_loop (i : nat) (lines : list string)
         (updates : list BatchUpdate) (invalid_lines : list string)
  : list BatchUpdate * list string :=
  match lines with
  | [] => (updates, invalid_lines)
  | raw :: more =>
      match batch_line i raw with
      | Blank => batch_loop (S i) more updates invalid_lines
      | Invalid entry => batch_loop (S i) more updates (invalid_lines ++ [entry])
      | Update u => batch_loop (S i) more (updates ++ [u]) invalid_lines
      end
  end.

(** [None] is the Python [None] returned when some line is invalid. *)
Definition _extract_batch_updates (user_input : string) : option (list BatchUpdate) :=
  let lines := Py.split Py.newline user_input in
  let '(updates, invalid_lines) := batch_loop 1 (tl lines) [] [] in
  match invalid_lines with
  | _ :: _ => None
  | [] => Some updates
  end.

(** *** [_extract_entities] *)

(** [for k in ks: if k in s: ... = k; break]. *)
Definition first_contained (ks : list string) (s : string) : option string :=
  find (fun k => Py.contains k s) ks.

(** [for key, ks in table.items(): if any(k in s for k in ks): ... = key; break]. *)
Definition first_key (table : list (string * list string)) (s : string) : option string :=
  option_map fst (find (fun kv => Py.any_in (snd kv) s) table).

(** [Some l] when the list is non-empty: [if l: entities[...] = l]. *)
Definition nonempty {A} (l : list A) : option (list A) :=
  match l with [] => None | _ => Some l end.

Definition time_keywords : list string :=
  ["today"; "tomorrow"; "yesterday"; "this week"; "last week"; "next week";
   "this sprint"; "current sprint"].

Definition status_keywords : list (string * list string) :=
  [("active", ["active"; "in progress"; "in-progress"; "working"; "started"]);
   ("new", ["new"; "created"; "assigned"]);
   ("resolved", ["resolved"; "completed"; "done"; "finished"]);
   ("closed", ["closed"; "closed"; "finished"]);
   ("blocked", ["blocked"; "waiting"; "on hold"; "stuck"])].

Definition task_id_patterns : list regex :=
  map (fun t => Lit (t ++ "-") · Grp (plus digit)) type_words
  ++ map (fun t => Lit ("[" ++ t ++ "-") · Grp (plus digit) · Lit "]") type_words
  ++ [Lit "task" · plus space · Grp (plus digit);
      Lit "user" · plus space · Lit "story" · plus space · Grp (plus digit);
      Lit "story" · plus space · Grp (plus digit);
      Lit "bug" · plus space · Grp (plus digit);
      Lit "epic" · plus space · Grp (plus digit);
      Lit "requirement" · plus space · Grp (plus digit)].

Definition batch_update_pattern : regex := Lit "update following individual tasks:".

(** [for p in ps: m = re.search(p, s, flags); if m: ... = m.group(1); break]. *)
Fixpoint first_search (icase : bool) (ps : list regex) (s : string) : option string :=
  match ps with
  | [] => None
  | p :: ps' => match search_group icase p s with
                | Some g => Some g
                | None => first_search icase ps' s
                end
  end.

Definition field_patterns : list (string * list string) :=
  [("start_date", ["start date"; "startdate"; "start"]);
   ("finish_date", ["finish date"; "finishdate"; "finish"; "end date"; "enddate"]);
   ("status", ["status"; "state"]);
   ("priority", ["priority"]);
   ("title", ["title"; "name"]);
   ("description", ["description"; "desc"]);
   ("assigned_to", ["assigned to"; "assigned"; "assignee"]);
   ("remaining", ["remaining"]);
   ("completed", ["completed"]);
   ("original_estimate", ["original estimate"; "originalestimate"; "estimate"])].

Definition extract_field_names (user_input_lower : string) : list string :=
  map fst (filter (fun kv => existsb (fun p => found false (Lit p) user_input_lower) (snd kv))
                  field_patterns).

Definition date_patterns : list regex :=
  [Grp slash_date;
   Grp (exactly digit 4 · Lit "-" · between digit 1 2 · Lit "-" · between digit 1 2);
   Grp (between digit 1 2 · Lit "-" · between digit 1 2 · Lit "-" · exactly digit 4)].

(** [for p in ps: ms = re.findall(p, s); if ms: ... = ms; break]. *)
Fixpoint first_findall (ps : list regex) (s : string) : option (list string) :=
  match ps with
  | [] => None
  | p :: ps' => match findall false p s with
                | [] => first_findall ps' s
                | ms => Some ms
                end
  end.

(** [for p in ps: l.extend(re.findall(p, s, re.IGNORECASE))]. *)
Definition all_findall (ps : list regex) (s : string) : list string :=
  flat_map (fun p => findall true p s) ps.

(** [<field>\s+to\s+(\d+)], [<field>\s+(\d+)] and [<field>\s*->\s*(\d+)]. *)
Definition to_number (field : string) : regex :=
  Lit field · plus space · Lit "to" · plus space · Grp (plus digit).
Definition then_number (field : string) : regex :=
  Lit field · plus space · Grp (plus digit).
Definition arrow_number (field : string) : regex :=
  Lit field · star space · Lit "->" · star space · Grp (plus digit).

Definition remaining_patterns : list regex :=
  [to_number "remaining"; then_number "remaining"].
Definition completed_patterns : list regex :=
  [to_number "completed"; then_number "completed"].
Definition original_estimate_patterns : list regex :=
  [to_number "original estimate"; then_number "original estimate";
   arrow_number "original estimate";
   to_number "estimate"; then_number "estimate"; arrow_number "estimate";
   to_number "for original estimate"; then_number "for original estimate";
   arrow_number "for original estimate"].

Definition dquote : ascii := ascii_of_nat 34.
Definition is_quote (c : ascii) : bool := Ascii.eqb c "'"%char || Ascii.eqb c dquote.
Definition not_quote (c : ascii) : bool := negb (is_quote c).
Definition quoted : regex := Cls is_quote · Grp (plus not_quote) · Cls is_quote.

Definition assignee_patterns : list regex :=
  [Lit "assignee" · star space · Lit "->" · star space · quoted;
   Lit "assignee" · plus space · Lit "to" · plus space · quoted;
   Lit "assigned" · plus space · Lit "to" · plus space · quoted;
   Lit "assign" · plus space · Lit "to" · plus space · quoted].

Definition extract_status_values (user_input_lower : string) : list string :=
  map fst (filter (fun kv => Py.any_in (snd kv) user_input_lower) status_keywords).

(** The four sprint patterns; the last two have no group, so the value is
    ["current"]. *)
Definition extract_sprint (user_input_lower : string) : option string :=
  match search_group false (Lit "sprint" · plus space · Grp (plus digit)) user_input_lower with
  | Some g => Some g
  | None =>
  match search_group false (Lit "sprint" · plus space · Grp (plus word)) user_input_lower with
  | Some g => Some g
  | None =>
      if found false (Lit "current" · plus space · Lit "sprint") user_input_lower
      then Some "current"
      else if found false (Lit "this" · plus space · Lit "sprint") user_input_lower
      then Some "current"
      else None
  end end.

Definition person_pattern : regex :=
  Alt (Lit "with") (Alt (Lit "meeting with") (Lit "call with"))
  · plus space · Grp (Cls Py.is_upper · plus Py.is_lower).

Definition project_keywords : list string :=
  ["sprint"; "project"; "feature"; "bug"; "story"; "task"].

Definition priority_keywords : list (string * list string) :=
  [("high", ["high priority"; "urgent"; "critical"]);
   ("medium", ["medium priority"; "normal"]);
   ("low", ["low priority"; "low"])].

Definition task_types : list (string * list string) :=
  [("user_story", ["user story"; "story"; "feature"]);
   ("bug", ["bug"; "defect"; "issue"]);
   ("task", ["task"; "work item"]);
   ("epic", ["epic"; "large feature"])].

(** The argument [intent] is not read by the source either. *)
Definition _extract_entities (user_input intent : string) : Entities :=
  let user_input_lower := Py.lower user_input in
  let e_time_period := first_contained time_keywords user_input_lower in
  let e_status := first_key status_keywords user_input_lower in
  if found false batch_update_pattern user_input_lower then
    match _extract_batch_updates user_input with
    | Some batch =>
        mkEntities e_time_period e_status (Some batch) false None None None None None
                   None None None None None None None None None
    | None =>
        mkEntities e_time_period e_status None true None None None None None
                   None None None None None None None None None
    end
  else
    let names := extract_field_names user_input_lower in
    {| time_period := e_time_period;
       status := e_status;
       batch_updates := None;
       batch_update_error := false;
       task_id := first_search true task_id_patterns user_input;
       field_names := nonempty names;
       field_name := hd_error names;
       date_values := first_findall date_patterns user_input;
       remaining_values := nonempty (all_findall remaining_patterns user_input);
       completed_values := nonempty (all_findall completed_patterns user_input);
       original_estimate_values :=
         nonempty (all_findall original_estimate_patterns user_input);
       assignee_values := nonempty (all_findall assignee_patterns user_input);
       status_values := nonempty (extract_status_values user_input_lower);
       sprint := extract_sprint user_input_lower;
       person := search_group true person_pattern user_input;
       context := first_contained project_keywords user_input_lower;
       priority := first_key priority_keywords user_input_lower;
       task_type := first_key task_types user_input_lower |}.

(** *** [_fallback_intent_classification] *)
Definition _fallback_intent_classification (user_input : string) : Intent :=
  let user_input_lower := Py.lower user_input in
  if has_update_keyword user_input then
    if has_task_id user_input then
      mkIntent "task_update" conf_0_8 (_extract_entities user_input "task_update")
    else
      mkIntent "task_update" conf_0_6 (_extract_entities user_input "task_update")
  else if Py.any_in ["timesheet"; "time"; "fill"; "submit"] user_input_lower then
    mkIntent "timesheet" conf_0_6 no_entities
  else if Py.any_in ["task"; "work"; "item"; "sprint"] user_input_lower then
    mkIntent "tasks" conf_0_6 no_entities
  else if Py.any_in ["meeting"; "calendar"; "schedule"; "call"] user_input_lower then
    mkIntent "meetings" conf_0_6 no_entities
  else if Py.any_in ["pull request"; "pr"; "review"; "code"] user_input_lower then
    mkIntent "pull_requests" conf_0_6 no_entities
  else if Py.any_in ["summary"; "report"; "activity"] user_input_lower then
    mkIntent "summary" conf_0_6 no_entities
  else
    mkIntent "tasks" conf_0_3 no_entities.

(** *** [_parse_intent_response] *)
Definition intent_mapping : list (string * string) :=
  [("timesheet", "timesheet"); ("task", "tasks"); ("task update", "task_update");
   ("update", "task_update"); ("modify", "task_update"); ("change", "task_update");
   ("meeting", "meetings"); ("calendar", "meetings");
   ("pull request", "pull_requests"); ("pr", "pull_requests");
   ("summary", "summary"); ("report", "summary")].

Definition _parse_intent_response (response user_input : string) : Intent :=
  let intent_name := Py.strip (Py.lower response) in
  match find (fun kv => Py.contains (fst kv) intent_name) intent_mapping with
  | Some (_, intent) => mkIntent intent conf_0_8 (_extract_entities user_input intent)
  | None => mkIntent "tasks" conf_0_5 (_extract_entities user_input "tasks")
  end.

(** *** [_call_openai]: the prompt is a fixed function of the text
    ([_create_intent_prompt]), so the oracle is asked with the text. *)
Definition _call_openai (env : Env) (user_input : string) : M string :=
  fun w => (call_openai env (log w) user_input, emit (EvOpenAI user_input) w).

(** *** [classify_intent] *)
Definition classify_intent (env : Env) (user_input : string) : M Intent :=
  catch
    (if has_update_keyword user_input then
       ret (_fallback_intent_classification user_input)
     else
       (response <- _call_openai env user_input ;;
        ret (_parse_intent_response response user_input))%monad)
    (fun _ => ret (_fallback_intent_classification user_input)).

(** The dict returned by [NLPProcessor.process_query]. *)
Record NlpResult : Type := mkNlpResult {
  nlp_intent : string;
  nlp_confidence : Q;
  nlp_entities : Entities;
  original_input : string;
  processed : bool
}.

Definition process_query (env : Env) (user_input : string) : M NlpResult :=
  (intent <- classify_intent env user_input ;;
   ret (mkNlpResult (name intent) (confidence intent) (entities intent) user_input true))%monad.

End Nlp.

(* ================================================================== *)
(** ** src/tools/azure_devops.py: [update_work_item]                    *)
(* ================================================================== *)
Module Ado.
Import Re.
Local Open Scope re_scope.

Fixpoint lookup {V} (k : string) (table : list (string * V)) : option V :=
  match table with
  | [] => None
  | (k', v) :: t => if String.eqb k' k then Some v else lookup k t
  end.

(** [table.get(k, default)]. *)
Definition get_default (k : string) (table : list (string * string)) (default : string)
  : string :=
  match lookup k table with Some v => v | None => default end.

Definition mem (x : string) (l : list string) : bool := existsb (String.eqb x) l.

Definition field_mapping : list (string * string) :=
  [("start_date", "Microsoft.VSTS.Scheduling.StartDate");
   ("finish_date", "Microsoft.VSTS.Scheduling.FinishDate");
   ("status", "System.State");
   ("priority", "Microsoft.VSTS.Common.Priority");
   ("title", "System.Title");
   ("description", "System.Description");
   ("assigned_to", "System.AssignedTo");
   ("remaining", "Microsoft.VSTS.Scheduling.RemainingWork");
   ("completed", "Microsoft.VSTS.Scheduling.CompletedWork");
   ("original_estimate", "Microsoft.VSTS.Scheduling.OriginalEstimate")].

(** [field_mapping.get(field_name, field_name)] as it is printed in the path;
    the key [None] prints as ["None"]. *)
Definition azure_field (field_name : option string) : string :=
  match field_name with
  | Some f => get_default f field_mapping f
  | None => "None"
  end.

(** *** Status legalization *)

Definition valid_states_by_type : list (string * list string) :=
  [("TASK", ["New"; "Active"; "Closed"; "Removed"]);
   ("USER STORY", ["New"; "Approved"; "Active"; "Resolved"; "Closed"; "Removed"])].

Definition status_mapping : list (string * string) :=
  [("active", "Active"); ("new", "New"); ("approved", "Approved");
   ("resolved", "Resolved"); ("closed", "Closed"); ("removed", "Removed");
   ("blocked", "Active")].

(** The context-free synonym mapping: [status_mapping.get(v.lower(), v)]. *)
Definition map_status (new_value : string) : string :=
  get_default (Py.lower new_value) status_mapping new_value.

Definition task_fallback_mapping : list (string * string) :=
  [("resolved", "Active"); ("approved", "Active"); ("closed", "Active");
   ("removed", "Active")].
Definition user_story_fallback_mapping : list (string * string) :=
  [("removed", "Active")].

(** The value sent for a status update, given the looked-up type. *)
Definition legalize_status (work_item_type : option string) (new_value : string) : string :=
  match work_item_type with
  | Some t =>
      if Py.truthy t then
        match lookup t valid_states_by_type with
        | Some valid_states =>
            let mapped_value := map_status new_value in
            if negb (mem mapped_value valid_states) then
              if String.eqb t "TASK" then
                get_default (Py.lower mapped_value) task_fallback_mapping "Active"
              else if String.eqb t "USER STORY" then
                get_default (Py.lower mapped_value) user_story_fallback_mapping "Active"
              else mapped_value
            else mapped_value
        | None => map_status new_value
        end
      else map_status new_value
  | None => map_status new_value
  end.

(** *** Date normalization *)

(** The directives of [datetime.strptime]: [%m], [%d] and [%Y]. *)
Definition range (lo hi : nat) (c : ascii) : bool :=
  (lo <=? Py.code c)%nat && (Py.code c <=? hi)%nat.
Definition one (ch : string) : regex := Lit ch.

Definition month_directive : regex :=
  Alt (one "1" · Cls (range 48 50))
      (Alt (one "0" · Cls (range 49 57)) (Cls (range 49 57))).
Definition day_directive : regex :=
  Alt (one "3" · Cls (range 48 49))
      (Alt (Cls (range 49 50) · Cls digit)
           (Alt (one "0" · Cls (range 49 57))
                (Alt (Cls (range 49 57)) (one " " · Cls (range 49 57))))).
Definition year_directive : regex := exactly digit 4.

Definition is_leap (y : Z) : bool :=
  ((y mod 4 =? 0) && negb (y mod 100 =? 0)) || (y mod 400 =? 0).

Definition days_in_month (y m : Z) : Z :=
  if m =? 2 then (if is_leap y then 29 else 28)
  else if (m =? 4) || (m =? 6) || (m =? 9) || (m =? 11) then 30
  else 31.

Record date : Type := mkDate { year : Z; month : Z; day : Z }.

(** [datetime.strptime(s, "%m/%d/%Y")]; [None] is its [ValueError].  Each
    directive is followed by a literal it cannot itself match, so matching the
    three pieces one after the other is the match of the whole format; text
    left over after the year is "unconverted data", and the date must exist
    (year at least 1, day within the month). *)
Definition strptime_mdY (s : string) : option date :=
  match match_here true (Grp month_directive · one "/") s with
  | Some (mkResult (Some ms) s1) =>
      match match_here true (Grp day_directive · one "/") s1 with
      | Some (mkResult (Some ds) s2) =>
          match match_here true (Grp year_directive) s2 with
          | Some (mkResult (Some ys) EmptyString) =>
              match Py.int ms, Py.int ds, Py.int ys with
              | Some mo, Some d, Some y =>
                  if (1 <=? y) && (d <=? days_in_month y mo)
                  then Some (mkDate y mo d) else None
              | _, _, _ => None
              end
          | _ => None
          end
      | _ => None
      end
  | _ => None
  end.

(** Zero padding to [width] digits. *)
Fixpoint zeros (n : nat) : string :=
  match n with O => EmptyString | S n' => String "0"%char (zeros n') end.
Definition pad (width : nat) (z : Z) : string :=
  let s := Py.str_of_Z z in zeros (width - String.length s) ++ s.

(** [d.strftime("%Y-%m-%d")].  The year is written with four digits (the C
    library of some platforms drops leading zeros of years below 1000). *)
Definition strftime_Ymd (d : date) : string :=
  pad 4 (year d) ++ "-" ++ pad 2 (month d) ++ "-" ++ pad 2 (day d).

Definition val_truthy (v : PyVal) : bool :=
  match v with VStr s => Py.truthy s | VInt z => negb (z =? 0) end.

(** The block "Format date values" for a start or finish date. *)
Definition format_date (new_value : PyVal) : PyVal :=
  if val_truthy new_value && Py.contains "/" (str_of_val new_value) then
    match new_value with
    | VStr s => match strptime_mdY s with
                | Some d => VStr (strftime_Ymd d)
                | None => new_value          (* except ValueError: pass *)
                end
    | VInt _ => new_value
    end
  else new_value.

Definition is_date_field (field_name : option string) : bool :=
  key_eqb field_name (Some "start_date") || key_eqb field_name (Some "finish_date").

(** One turn of the loop over [field_updates.items()]: the value sent for a
    field.  A status that is not text has no [.lower()]: the call raises. *)
Definition field_value (work_item_type : option string)
           (field_name : option string) (new_value : PyVal) : Reply PyVal :=
  if key_eqb field_name (Some "status") then
    match new_value with
    | VStr s => Ok (VStr (legalize_status work_item_type s))
    | VInt _ => Raised "'int' object has no attribute 'lower'"
    end
  else if is_date_field field_name then Ok (format_date new_value)
  else Ok new_value.

Fixpoint build_operations (work_item_type : option string) (field_updates : FieldUpdates)
  : Reply (list Operation) :=
  match field_updates with
  | [] => Ok []
  | (field_name, new_value) :: more =>
      match field_value work_item_type field_name new_value with
      | Raised msg => Raised msg
      | Ok v =>
          match build_operations work_item_type more with
          | Raised msg => Raised msg
          | Ok ops => Ok (mkOperation ("/fields/" ++ azure_field field_name) v :: ops)
          end
      end
  end.

(** The type lookup made only when a status is updated: the upper-cased
    [System.WorkItemType] of a 200 answer (missing field: the empty text);
    any other answer or an exception leaves the type unknown. *)
Definition lookup_work_item_type (env : Env) (work_item_id : Z) (field_updates : FieldUpdates)
  : M (option string) :=
  if dict_mem field_updates (Some "status") then
    fun w =>
      if session w then
        let w' := emit (EvGetWorkItem work_item_id) w in
        match get_work_item env (log w) work_item_id with
        | Ok (Get200 (Some t)) => (Ok (Some (Py.upper t)), w')
        | Ok (Get200 None) => (Ok (Some EmptyString), w')
        | Ok (GetStatus _) => (Ok None, w')
        | Raised _ => (Ok None, w')
        end
      else (Ok None, w)            (* no session: the attribute error is caught *)
  else ret None.

Definition is_success_status (code : Z) : bool := (code =? 200) || (code =? 201).

(** The PATCH request and the check of its status code. *)
Definition send_patch (env : Env) (work_item_id : Z) (operations : list Operation)
  : M string :=
  fun w =>
    if session w then
      let w' := emit (EvPatchWorkItem work_item_id operations) w in
      match patch_work_item env (log w) work_item_id operations with
      | Ok r =>
          if is_success_status (patch_status r) then (Ok (patch_body r), w')
          else (Raised ("Work item update failed: " ++ Py.str_of_Z (patch_status r)
                          ++ " - " ++ patch_body r), w')
      | Raised msg => (Raised msg, w')
      end
    else (Raised "'NoneType' object has no attribute 'patch'", w).

(** [update_work_item]: every exception is logged and raised again. *)
Definition update_work_item (env : Env) (work_item_id : Z) (field_updates : FieldUpdates)
  : M string :=
  ((fun w => ret tt (emit (EvUpdateWorkItem work_item_id field_updates) w)) ;;;
   work_item_type <- lookup_work_item_type env work_item_id field_updates ;;
   match build_operations work_item_type field_updates with
   | Raised msg => raise msg
   | Ok operations => send_patch env work_item_id operations
   end)%monad.

End Ado.

(* ================================================================== *)
(** ** src/core/agent/orchestrator.py                                   *)
(* ================================================================== *)
Module Orch.
Import Py.

(** *** The texts of the tool results *)

(** [repr] of a list of texts, as printed inside an f-string (texts without
    quotes or escapes). *)
Definition repr_list (l : list string) : string :=
  "[" ++ Py.join ", " (map (fun s => "'" ++ s ++ "'") l) ++ "]".

Definition missing_id_message : string :=
  "‚ùå **Please provide the missing Work Item ID!**" ++ nl ++ nl ++
  "I need a specific TASK, USER STORY, or REQUIREMENT number to update individual work items." ++
  nl ++ nl ++ "**Examples:**" ++ nl ++
  "‚Ä¢ Update TASK-12345 Start Date -> 08/11/2025" ++ nl ++
  "‚Ä¢ Update USER STORY-67890 Status -> Active" ++ nl ++
  "‚Ä¢ Update REQUIREMENT-11111 Finish Date -> 08/12/2025" ++ nl ++ nl ++
  "Please provide the specific work item ID and try again.".

Definition invalid_batch_format_message : string :=
  "‚ùå **Invalid Batch Update Format!**" ++ nl ++ nl ++
  "Some tasks in your batch update have invalid or missing task IDs." ++
  nl ++ nl ++ "**Please ensure all tasks have valid ID numbers:**" ++ nl ++
  "‚Ä¢ TASK 51311 -> Start Date -> 08/08/2025" ++ nl ++
  "‚Ä¢ TASK 51312 -> Start Date -> 08/11/2025" ++ nl ++
  "‚Ä¢ TASK 51310 -> Start Date -> 08/11/2025" ++ nl ++ nl ++
  "Please correct the task IDs and try again.".

Definition invalid_id_format_message (task_id : string) : string :=
  "‚ùå **Invalid Work Item ID Format**" ++ nl ++ nl ++
  "The work item ID must be a valid number." ++ nl ++ nl ++
  "**Examples:**" ++ nl ++ "‚Ä¢ TASK-12345 (ID: 12345)" ++ nl ++
  "‚Ä¢ USER STORY-67890 (ID: 67890)" ++ nl ++
  "‚Ä¢ REQUIREMENT-11111 (ID: 11111)" ++ nl ++ nl ++ "Received: " ++
  task_id ++ nl ++ nl ++ "Please provide a valid work item ID and try again.".

Definition invalid_task_ids_message (invalid_tasks : list string) : string :=
  "‚ùå **Invalid Task IDs Found!**" ++ nl ++ nl ++
  "Some tasks are missing valid ID numbers:" ++ nl ++ "Invalid IDs: " ++
  repr_list invalid_tasks ++ nl ++ nl ++
  "**Please ensure all tasks have valid ID numbers:**" ++ nl ++
  "‚Ä¢ TASK 51311 -> Start Date -> 08/08/2025" ++ nl ++
  "‚Ä¢ TASK 51312 -> Start Date -> 08/11/2025" ++ nl ++
  "‚Ä¢ TASK 51310 -> Start Date -> 08/11/2025" ++ nl ++ nl ++
  "Please correct the task IDs and try again.".

Definition missing_field_updates_message (task_id : string) : string :=
  "Missing field updates for task " ++ task_id ++
  ". Please specify what fields to update.".

Definition updated_header (task_id : string) : string :=
  "‚úÖ Task " ++ task_id ++ " updated successfully!" ++ nl ++ nl ++
  "Updated fields:" ++ nl.

Definition bullet : string :=
  "‚Ä¢ ".

Definition task_bullet (task_id : string) : string :=
  "‚Ä¢ TASK-" ++ task_id ++ nl.

Definition failed_bullet (task_id error : string) : string :=
  "‚Ä¢ TASK-" ++ task_id ++ ": " ++ error ++ nl.

Definition partial_header : string :=
  "‚ö†Ô∏è **Batch Update Partially Completed**" ++ nl ++ nl.

Definition partial_success_line (success_count : nat) : string :=
  "‚úÖ Successfully updated " ++ Py.str_of_nat success_count ++ " tasks" ++
  nl.

Definition partial_failed_line (failed_count : nat) : string :=
  "‚ùå Failed to update " ++ Py.str_of_nat failed_count ++ " tasks" ++ nl ++
  nl.

Definition successfully_updated_title : string :=
  "**Successfully Updated:**" ++ nl.

Definition failed_updates_title : string :=
  nl ++ "**Failed Updates:**" ++ nl.

Definition completed_header : string :=
  "‚úÖ **Batch Update Completed Successfully!**" ++ nl ++ nl.

Definition updated_count_line (n : nat) : string :=
  "Updated " ++ Py.str_of_nat n ++ " tasks:" ++ nl.

Definition batch_failed_message (e : string) : string :=
  "‚ùå **Batch Update Failed**" ++ nl ++ nl ++ "Error: " ++ e.

Definition filtered_by (filter_info : list string) (response : string) : string :=
  "üìã Filtered by: " ++ Py.join ", " filter_info ++ nl ++ nl ++ response.

Definition apology_prefix : string :=
  "I'm sorry, I couldn't complete your request. ".

Definition generic_apology : string :=
  "I'm sorry, I encountered an error processing your request. Please try again.".

Definition not_available_message : string :=
  "Azure DevOps tool is not available.".

(** *** Tool results and the envelope *)

Record BatchSuccess : Type := mkBatchSuccess {
  bs_task_id : string;
  bs_result : string            (* the body answered by the backend *)
}.

Record BatchFailure : Type := mkBatchFailure {
  bf_task_id : string;
  bf_error : string
}.

(** The entry ["data"] of a tool result. *)
Inductive ToolData : Type :=
| NoData                                    (* the key is absent *)
| EmptyData                                 (* [{}] *)
| MockData
| TasksData
| PullRequestsData
| UpdatedTask (result : string)
| BatchData (successful_updates : list BatchSuccess) (failed_updates : list BatchFailure).

Record ToolResult : Type := mkToolResult {
  success : bool;
  message : string;
  data : ToolData
}.

Definition fail (msg : string) : ToolResult := mkToolResult false msg NoData.

(** The dict returned by [AgentOrchestrator.process_query]; the keys that a
    branch does not set are [None]. *)
Record Envelope : Type := mkEnvelope {
  env_success : bool;
  env_response : string;
  env_error : option string;
  env_intent : option string;
  env_confidence : option Q;
  env_tool_used : option string;
  env_entities : option Entities
}.

(** *** [_select_tool] *)
Definition tool_mapping : list (string * string) :=
  [("timesheet", "osi_one"); ("tasks", "azure_devops"); ("task_update", "azure_devops");
   ("pull_requests", "azure_devops"); ("meetings", "teams"); ("summary", "aggregator")].

Definition _select_tool (nlp_result : Nlp.NlpResult) : string :=
  Ado.get_default (Nlp.nlp_intent nlp_result) tool_mapping "azure_devops".

(** *** The single-item planner: the block "Prepare field updates" *)

(** [entities.get("field_names", [entities.get("field_name")])]. *)
Definition plan_field_names (entities : Entities) : list (option string) :=
  match field_names entities with
  | Some l => map Some l
  | None => [field_name entities]
  end.

(** [entities.get(key, [])]. *)
Definition or_empty (l : option (list string)) : list string :=
  match l with Some x => x | None => [] end.

(** ["name" in field_names]. *)
Definition names_mem (n : string) (names : list (option string)) : bool :=
  existsb (key_eqb (Some n)) names.

(** [for i, field_name in enumerate(field_names): if i < len(date_values):
    field_updates[field_name] = date_values[i]]. *)
Fixpoint zip_dates (fu : FieldUpdates) (names : list (option string)) (dates : list string)
  : FieldUpdates :=
  match names, dates with
  | n :: names', d :: dates' => zip_dates (dict_set fu n (VStr d)) names' dates'
  | _, _ => fu
  end.

(** [if name in field_names and values: field_updates[name] = int(values[0])];
    [Raised] is the [ValueError] of [int]. *)
Definition set_int_field (n : string) (names : list (option string)) (values : list string)
           (fu : FieldUpdates) : Reply FieldUpdates :=
  match values with
  | v :: _ =>
      if names_mem n names then
        match Py.int v with
        | Some z => Ok (dict_set fu (Some n) (VInt z))
        | None => Raised (Py.int_error v)
        end
      else Ok fu
  | [] => Ok fu
  end.

(** [if field_names and date_values:] the positional zip of names and dates. *)
Definition dates_step (entities : Entities) : FieldUpdates :=
  let names := plan_field_names entities in
  let dates := or_empty (date_values entities) in
  match names, dates with
  | _ :: _, _ :: _ => zip_dates [] names dates
  | _, _ => []
  end.

(** [if "status" in field_names and status_values: ... elif status: ...]. *)
Definition status_step (entities : Entities) (fu : FieldUpdates) : FieldUpdates :=
  match names_mem "status" (plan_field_names entities),
        or_empty (status_values entities) with
  | true, s :: _ => dict_set fu (Some "status") (VStr s)
  | _, _ =>
      match status entities with                       (* elif status: *)
      | Some st => if Py.truthy st then dict_set fu (Some "status") (VStr st) else fu
      | None => fu
      end
  end.

(** [if "assigned_to" in field_names and assignee_values: ...]. *)
Definition assignee_step (entities : Entities) (fu : FieldUpdates) : FieldUpdates :=
  match or_empty (assignee_values entities) with
  | a :: _ =>
      if names_mem "assigned_to" (plan_field_names entities)
      then dict_set fu (Some "assigned_to") (VStr a) else fu
  | [] => fu
  end.

Definition plan_field_updates (entities : Entities) : Reply FieldUpdates :=
  let names := plan_field_names entities in
  let fu1 := status_step entities (dates_step entities) in
  match set_int_field "remaining" names (or_empty (remaining_values entities)) fu1 with
  | Raised e => Raised e
  | Ok fu2 =>
  match set_int_field "completed" names (or_empty (completed_values entities)) fu2 with
  | Raised e => Raised e
  | Ok fu3 =>
  match set_int_field "original_estimate" names
                      (or_empty (original_estimate_values entities)) fu3 with
  | Raised e => Raised e
  | Ok fu4 => Ok (assignee_step entities fu4)
  end end end.

(** [f"{field}: {value}"] for every updated field. *)
Definition update_summary (fu : FieldUpdates) : list string :=
  map (fun kv => match fst kv with Some f => f | None => "None" end
                 ++ ": " ++ str_of_val (snd kv)) fu.

(** *** [_handle_batch_updates] *)

(** A task id is rejected when it is empty or not made of digits. *)
Definition invalid_task_id (task_id : string) : bool :=
  negb (Py.truthy task_id) || negb (Py.isdigit task_id).

(** The loop "Process all updates": one attempt per item, the two local
    lists [results] and [failed_updates] threaded through. *)
Fixpoint batch_dispatch (env : Env) (batch : list BatchUpdate)
         (results : list BatchSuccess) (failed_updates : list BatchFailure)
  : M (list BatchSuccess * list BatchFailure) :=
  match batch with
  | [] => ret (results, failed_updates)
  | update :: more =>
      let task_id := bu_task_id update in
      fun w =>
        let attempt : M string :=
          match Py.int task_id with
          | Some id => Ado.update_work_item env id (bu_field_updates update)
          | None => raise (Py.int_error task_id)
          end in
        match attempt w with
        | (Ok result, w') =>
            batch_dispatch env more (List.app results [mkBatchSuccess task_id result])
                           failed_updates w'
        | (Raised e, w') =>
            batch_dispatch env more results
                           (List.app failed_updates [mkBatchFailure task_id e]) w'
        end
  end.

(** The report of a batch with at least one failure. *)
Definition partial_report (results : list BatchSuccess) (failed_updates : list BatchFailure)
  : string :=
  partial_header
  ++ partial_success_line (List.length results)
  ++ partial_failed_line (List.length failed_updates)
  ++ match results with
     | [] => EmptyString
     | _ => successfully_updated_title
            ++ String.concat EmptyString (map (fun r => task_bullet (bs_task_id r)) results)
     end
  ++ match failed_updates with
     | [] => EmptyString
     | _ => failed_updates_title
            ++ String.concat EmptyString
                 (map (fun f => failed_bullet (bf_task_id f) (bf_error f)) failed_updates)
     end.

(** The report of a batch without failure. *)
Definition completed_report (results : list BatchSuccess) : string :=
  completed_header
  ++ updated_count_line (List.length results)
  ++ String.concat EmptyString (map (fun r => task_bullet (bs_task_id r)) results).

Definition batch_result (results : list BatchSuccess) (failed_updates : list BatchFailure)
  : ToolResult :=
  match failed_updates with
  | _ :: _ =>
      mkToolResult false (partial_report results failed_updates)
                   (BatchData results failed_updates)
  | [] => mkToolResult true (completed_report results) (BatchData results [])
  end.

Definition _handle_batch_updates (env : Env) (batch_updates : list BatchUpdate)
  : M ToolResult :=
  let invalid_tasks := filter invalid_task_id (map bu_task_id batch_updates) in
  match invalid_tasks with
  | _ :: _ => ret (fail (invalid_task_ids_message invalid_tasks))
  | [] =>
      (rf <- batch_dispatch env batch_updates [] [] ;;
       ret (batch_result (fst rf) (snd rf)))%monad
  end.

(** *** [_execute_azure_devops] *)

(** [if not ado_tool.session: await ado_tool.setup()]: [Some r] is the early
    return of a failed set-up. *)
Definition ensure_session (env : Env) : M (option ToolResult) :=
  fun w =>
    if session w then (Ok None, w)
    else
      let w' := emit EvSetup w in
      match setup env (log w) with
      | SetupDone => (Ok None, mkWorld (log w') true (conversation_history w'))
      | SetupValueError msg => (Ok (Some (fail msg)), w')
      | SetupFailed msg => (Ok (Some (fail ("Failed to configure Azure DevOps: " ++ msg))), w')
      end.

Definition tasks_branch (env : Env) (entities : Entities) : M ToolResult :=
  fun w =>
    let e_sprint := sprint entities in
    let e_status := status entities in
    let w' := emit (EvGetMyTasks e_sprint e_status) w in
    match get_my_tasks env (log w) e_sprint e_status with
    | Raised e => (Raised e, w')
    | Ok response =>
        let filter_info :=
          List.app
            (match e_status with
             | Some s => if Py.truthy s then ["status: " ++ s] else []
             | None => []
             end)
            (match e_sprint with
             | Some s => if Py.truthy s then ["sprint: " ++ s] else []
             | None => []
             end) in
        let response' := match filter_info with
                         | [] => response
                         | _ => filtered_by filter_info response
                         end in
        (Ok (mkToolResult true response' TasksData), w')
    end.

Definition pull_requests_branch (env : Env) (entities : Entities) : M ToolResult :=
  fun w =>
    let e_status := match status entities with Some s => s | None => "active" end in
    let w' := emit (EvGetMyPullRequests e_status) w in
    match get_my_pull_requests env (log w) e_status with
    | Raised e => (Raised e, w')
    | Ok response => (Ok (mkToolResult true response PullRequestsData), w')
    end.

(** The branch [intent == "task_update"]: the batch checks, the safety gate
    on the work-item id, the planner and the single dispatch. *)
Definition task_update_branch (env : Env) (entities : Entities) : M ToolResult :=
  if batch_update_error entities then ret (fail invalid_batch_format_message)
  else
    match batch_updates entities with
    | Some (u :: us) => _handle_batch_updates env (u :: us)
    | _ =>
        match task_id entities with
        | None => ret (fail missing_id_message)
        | Some tid =>
            if negb (Py.truthy tid) then ret (fail missing_id_message)
            else if negb (Py.isdigit tid) then ret (fail (invalid_id_format_message tid))
            else
              match plan_field_updates entities with
              | Raised e => raise e
              | Ok [] => ret (fail (missing_field_updates_message tid))
              | Ok field_updates =>
                  catch
                    (match Py.int tid with
                     | Some id =>
                         (result <- Ado.update_work_item env id field_updates ;;
                          ret (mkToolResult true
                                 (updated_header tid
                                  ++ Py.join Py.nl
                                       (map (fun summary => bullet ++ summary)
                                            (update_summary field_updates)))
                                 (UpdatedTask result)))%monad
                     | None =>
                         raise (Py.int_error tid)
                     end)
                    (fun e => ret (fail ("Failed to update task " ++ tid ++ ": " ++ e)))
              end
        end
    end.

Definition _execute_azure_devops (env : Env) (intent : string) (entities : Entities)
  : M ToolResult :=
  catch
    (if negb (tool_available env) then ret (fail not_available_message)
     else
       (early <- ensure_session env ;;
        match early with
        | Some r => ret r
        | None =>
            if String.eqb intent "tasks" then tasks_branch env entities
            else if String.eqb intent "pull_requests" then pull_requests_branch env entities
            else if String.eqb intent "task_update" then task_update_branch env entities
            else ret (fail ("I don't know how to handle '" ++ intent
                              ++ "' with Azure DevOps."))
        end)%monad)
    (fun e => ret (fail ("I encountered an error while accessing Azure DevOps: " ++ e))).

(** *** [_execute_tool] *)
Definition _execute_tool (env : Env) (tool_name : string) (nlp_result : Nlp.NlpResult)
  : M ToolResult :=
  let intent := Nlp.nlp_intent nlp_result in
  let entities := Nlp.nlp_entities nlp_result in
  catch
    (if String.eqb tool_name "azure_devops" then _execute_azure_devops env intent entities
     else if String.eqb tool_name "teams" then
       ret (mkToolResult true ("Mock Teams tool execution for intent: " ++ intent) MockData)
     else if String.eqb tool_name "osi_one" then
       ret (mkToolResult true ("Mock OSI One tool execution for intent: " ++ intent) MockData)
     else if String.eqb tool_name "aggregator" then
       ret (mkToolResult true ("Mock data aggregation for intent: " ++ intent) MockData)
     else
       ret (mkToolResult false ("Tool " ++ tool_name ++ " not implemented yet") EmptyData))
    (fun e => ret (mkToolResult false e EmptyData)).

(** *** [_generate_response] *)
Definition _generate_response (nlp_result : Nlp.NlpResult) (tool_result : ToolResult)
  : string :=
  if negb (success tool_result) then apology_prefix ++ message tool_result
  else message tool_result.

(** *** [_update_conversation_history]: append, keep the last ten. *)
Definition last_n {A} (n : nat) (l : list A) : list A := skipn (List.length l - n) l.

Definition _update_conversation_history (user_input : string) (nlp_result : Nlp.NlpResult)
           (response : string) : M unit :=
  fun w =>
    let entry := mkHistoryEntry user_input (Nlp.nlp_intent nlp_result)
                                (Nlp.nlp_confidence nlp_result)
                                (Nlp.nlp_entities nlp_result) response in
    let h := List.app (conversation_history w) [entry] in
    (Ok tt, mkWorld (log w) (session w)
                    (if (10 <? List.length h)%nat then last_n 10 h else h)).

(** *** [process_query] *)

(** The dict returned at the end of the [try] block. *)
Definition envelope_of (selected_tool : string) (nlp_result : Nlp.NlpResult)
           (response : string) : Envelope :=
  mkEnvelope true response None
             (Some (Nlp.nlp_intent nlp_result))
             (Some (Nlp.nlp_confidence nlp_result))
             (Some selected_tool)
             (Some (Nlp.nlp_entities nlp_result)).

Definition process_query (env : Env) (user_input : string) : M Envelope :=
  catch
    (nlp_result <- Nlp.process_query env user_input ;;
     let selected_tool := _select_tool nlp_result in
     tool_result <- _execute_tool env selected_tool nlp_result ;;
     let response := _generate_response nlp_result tool_result in
     _update_conversation_history user_input nlp_result response ;;;
     ret (envelope_of selected_tool nlp_result response))%monad
    (fun e => ret (mkEnvelope false generic_apology (Some e) None None None None)).

End Orch.

(** A fresh agent: nothing logged, no session, empty history. *)
Definition initial_world : World := mkWorld [] false [].

(* ================================================================== *)
(** ** src/utils/config.py: the getters used by the tools              *)
(* ================================================================== *)
Module Config.

(** What a [ConfigManager] reads: the process environment and the two
    dictionaries [openai] and [azure_devops] of the loaded [AppConfig]. *)
Record Source : Type := mkSource {
  getenv : string -> option string;              (* [os.getenv(name)] *)
  app_openai : list (string * string);
  app_azure_devops : list (string * string)
}.

(** [token = os.getenv(name); if token: return token;
    return section.get(key, "")]. *)
Definition env_or_config (src : Source) (name : string)
           (section : list (string * string)) (key : string) : string :=
  match getenv src name with
  | Some v => if Py.truthy v then v else Ado.get_default key section EmptyString
  | None => Ado.get_default key section EmptyString
  end.

Definition get_openai_api_key (src : Source) : string :=
  env_or_config src "OPENAI_API_KEY" (app_openai src) "api_key".
Definition get_azure_devops_token (src : Source) : string :=
  env_or_config src "AZURE_DEVOPS_TOKEN" (app_azure_devops src) "token".
Definition get_azure_devops_organization (src : Source) : string :=
  env_or_config src "AZURE_DEVOPS_ORGANIZATION" (app_azure_devops src) "organization".
Definition get_azure_devops_project (src : Source) : string :=
  env_or_config src "AZURE_DEVOPS_PROJECT" (app_azure_devops src) "project".

(** [check_required_config]: for each name, whether it is missing. *)
Definition check_required_config (src : Source) : list (string * bool) :=
  [("openai_api_key", negb (Py.truthy (get_openai_api_key src)));
   ("azure_devops_token", negb (Py.truthy (get_azure_devops_token src)));
   ("azure_devops_organization", negb (Py.truthy (get_azure_devops_organization src)));
   ("azure_devops_project", negb (Py.truthy (get_azure_devops_project src)))].

End Config.

(* ================================================================== *)
(** ** src/tools/azure_devops.py: set-up, chunks and the task query    *)
(* ================================================================== *)
Module AdoConn.

Definition bullet : string :=
  "• ".

Definition configuration_required_message (missing_configs : list string) : string :=
  "🔧 **Azure DevOps Configuration Required**" ++ Py.nl ++ Py.nl ++
  "I need the following configuration to connect to Azure DevOps:" ++
  Py.nl ++ Py.nl ++ "**Missing Environment Variables:**" ++ Py.nl ++
  Py.join Py.nl (map (fun config => bullet ++ config) missing_configs) ++
  Py.nl ++ Py.nl ++ "**Setup Instructions:**" ++ Py.nl ++
  "1. Set these environment variables in your system:" ++ Py.nl ++
  "   - `AZURE_DEVOPS_TOKEN`: Your Personal Access Token" ++ Py.nl ++
  "   - `AZURE_DEVOPS_ORGANIZATION`: Your Azure DevOps organization name" ++
  Py.nl ++ "   - `AZURE_DEVOPS_PROJECT`: Your Azure DevOps project name" ++
  Py.nl ++ Py.nl ++
  "2. Or add them to your config file: `config/app/app.yaml`" ++ Py.nl ++
  Py.nl ++ "**Example:**" ++ Py.nl ++ "```bash" ++ Py.nl ++
  "# Set environment variables" ++ Py.nl ++
  "export AZURE_DEVOPS_TOKEN=your_pat_token_here" ++ Py.nl ++
  "export AZURE_DEVOPS_ORGANIZATION=your_organization" ++ Py.nl ++
  "export AZURE_DEVOPS_PROJECT=your_project" ++ Py.nl ++ "```" ++ Py.nl ++
  Py.nl ++
  "Once configured, I'll be able to fetch your tasks and pull requests!".

Definition wiql_head : string :=
  Py.nl ++
  "                SELECT [System.Id], [System.Title], [System.State], [System.AssignedTo], " ++
  Py.nl ++
  "                       [System.CreatedDate], [System.ChangedDate], [System.AreaPath], " ++
  Py.nl ++
  "                       [System.IterationPath], [Microsoft.VSTS.Common.Priority], " ++
  Py.nl ++
  "                       [Microsoft.VSTS.Scheduling.Effort], [System.Description]" ++
  Py.nl ++ "                FROM WorkItems " ++ Py.nl ++
  "                WHERE [System.AssignedTo] = @me " ++ Py.nl ++
  "                ".

Definition wiql_between : string :=
  Py.nl ++ "                ".

Definition wiql_tail : string :=
  Py.nl ++ "                ORDER BY [System.ChangedDate] DESC" ++ Py.nl ++
  "                ".

(** The fields set by a successful [setup]. *)
Record Connection : Type := mkConnection {
  pat_token : string;
  organization : string;
  project : string;
  base_url : string
}.

(** [if not arg: arg = <getter>()]. *)
Definition arg_or (arg : option string) (configured : string) : string :=
  match arg with
  | Some a => if Py.truthy a then a else configured
  | None => configured
  end.

(** The list [missing_configs], in the order of the three checks. *)
Definition missing_configs (pat org proj : string) : list string :=
  ((if Py.truthy pat then [] else ["AZURE_DEVOPS_TOKEN"])
   ++ (if Py.truthy org then [] else ["AZURE_DEVOPS_ORGANIZATION"])
   ++ (if Py.truthy proj then [] else ["AZURE_DEVOPS_PROJECT"]))%list.

(** [setup]: [Raised] is the [ValueError] of a missing configuration. *)
Definition setup (src : Config.Source) (pat_arg org_arg proj_arg : option string)
  : Reply Connection :=
  let pat := arg_or pat_arg (Config.get_azure_devops_token src) in
  let org := arg_or org_arg (Config.get_azure_devops_organization src) in
  let proj := arg_or proj_arg (Config.get_azure_devops_project src) in
  match missing_configs pat org proj with
  | [] => Ok (mkConnection pat org proj ("https://dev.azure.com/" ++ org ++ "/" ++ proj))
  | missing => Raised (configuration_required_message missing)
  end.

(** [range(0, stop, step)] for a positive step. *)
Definition range_step (stop step : nat) : list nat :=
  map (fun j => (j * step)%nat) (seq 0 ((stop + step - 1) / step)).

(** [lst[i:j]]. *)
Definition slice {A} (lst : list A) (i j : nat) : list A := firstn (j - i) (skipn i lst).

(** [_chunk_list]: [None] is the [ValueError] of [range] for a zero step. *)
Definition _chunk_list {A} (lst : list A) (chunk_size : nat) : option (list (list A)) :=
  match chunk_size with
  | O => None
  | _ => Some (map (fun i => slice lst i (i + chunk_size))
                   (range_step (List.length lst) chunk_size))
  end.

(** The WIQL text of [get_my_tasks]. *)
Definition tasks_status_mapping : list (string * string) :=
  [("active", "('Active', 'In Progress')");
   ("new", "('New', 'Assigned')");
   ("resolved", "('Resolved', 'Completed')");
   ("closed", "('Closed', 'Done')");
   ("blocked", "('Blocked', 'On Hold')")].

Definition default_status_filter : string :=
  "AND [System.State] NOT IN ('Closed', 'Removed')".

Definition status_filter (status : option string) : string :=
  match status with
  | Some s =>
      if Py.truthy s then
        match Ado.lookup s tasks_status_mapping with
        | Some states => "AND [System.State] IN " ++ states
        | None => "AND [System.State] = '" ++ s ++ "'"
        end
      else default_status_filter
  | None => default_status_filter
  end.

Definition sprint_filter (sprint : option string) : string :=
  match sprint with
  | Some s => if Py.truthy s then "AND [System.IterationPath] = '" ++ s ++ "'"
              else EmptyString
  | None => EmptyString
  end.

Definition wiql_query (sprint status : option string) : string :=
  wiql_head ++ status_filter status ++ wiql_between ++ sprint_filter sprint ++ wiql_tail.

End AdoConn.

(* ================================================================== *)
(** ** src/core/agent/orchestrator.py: the small accessors             *)
(* ================================================================== *)
Module OrchState.

Definition get_tools : list string := ["azure_devops"; "osi_one"; "teams"; "aggregator"].

(** [get_conversation_history]: a copy of the list. *)
Definition get_conversation_history (w : World) : list HistoryEntry :=
  conversation_history w.

(** [clear_history]. *)
Definition clear_history (w : World) : World := mkWorld (log w) (session w) [].

(** A sequence of queries, each answered by [process_query]. *)
Fixpoint run_queries (env : Env) (texts : list string) (w : World) : World :=
  match texts with
  | [] => w
  | t :: more => run_queries env more (snd (Orch.process_query env t w))
  end.

End OrchState.

(* ================================================================== *)
(** ** src/ui/desktop/main_window.py: [AgentWorker.process_message]    *)
(* ================================================================== *)
Module Desktop.

(** The values stored in the dict returned by [process_query]. *)
Inductive Value : Type :=
| VBool (b : bool)
| VText (s : string)
| VConfidence (q : Q)
| VMetadata (entities : Entities).

(** The dict itself, with the keys each branch of [process_query] sets. *)
Definition result_dict (e : Orch.Envelope) : list (string * Value) :=
  ([("success", VBool (Orch.env_success e))]
   ++ match Orch.env_error e with Some x => [("error", VText x)] | None => [] end
   ++ [("response", VText (Orch.env_response e))]
   ++ match Orch.env_intent e with Some x => [("intent", VText x)] | None => [] end
   ++ match Orch.env_confidence e with Some x => [("confidence", VConfidence x)] | None => [] end
   ++ match Orch.env_tool_used e with Some x => [("tool_used", VText x)] | None => [] end
   ++ match Orch.env_entities e with Some x => [("metadata", VMetadata x)] | None => [] end)%list.

(** [result.get(key, default)]. *)
Fixpoint get (d : list (string * Value)) (key : string) (default : Value) : Value :=
  match d with
  | [] => default
  | (k, v) :: d' => if String.eqb k key then v else get d' key default
  end.

Definition value_truthy (v : Value) : bool :=
  match v with
  | VBool b => b
  | VText s => Py.truthy s
  | VConfidence q => negb (Qeq_bool q 0)
  | VMetadata _ => true
  end.

(** The Qt signals of the worker. *)
Inductive Signal : Type :=
| processing_started
| response_received (response : Value)
| error_occurred (error : Value)
| processing_finished.

(** [process_message]: the signals emitted, in order. *)
Definition process_message (env : Env) (message : string) (w : World)
  : list Signal * World :=
  match Orch.process_query env message w with
  | (Ok e, w') =>
      let result := result_dict e in
      if value_truthy (get result "success" (VBool false)) then
        ([processing_started;
          response_received (get result "message" (VText "No response received"));
          processing_finished], w')
      else
        ([processing_started;
          error_occurred (get result "message" (VText "Unknown error occurred"));
          processing_finished], w')
  | (Raised ex, w') =>
      ([processing_started;
        error_occurred (VText ("Error processing message: " ++ ex));
        processing_finished], w')
  end.

End Desktop.

(* ================================================================== *)
(** ** Stub environments                                               *)
(* ================================================================== *)

(** A configured backend without OpenAI key: the classifier call raises, the
    set-up succeeds, every work item is a Task, and the PATCH of the work
    items selected by [fails] is answered with status 400. *)
Definition stub_env (fails : Z -> bool) : Env :=
  {| tool_available := true;
     call_openai := fun _ _ => Raised "OpenAI Configuration Required";
     setup := fun _ => SetupDone;
     get_my_tasks := fun _ _ _ => Ok "No tasks found.";
     get_my_pull_requests := fun _ _ => Ok "No pull requests found.";
     get_work_item := fun _ _ => Ok (Get200 (Some "Task"));
     patch_work_item := fun _ id _ =>
       if fails id then Ok (mkPatchReply 400 "Bad Request") else Ok (mkPatchReply 200 "{}") |}.

(** The same backend with a classifier whose answer changes from one call to
    the next: "timesheet" on the first call of a session, "summary" after. *)
Definition fickle_env : Env :=
  {| tool_available := true;
     call_openai := fun events _ =>
       match events with [] => Ok "timesheet" | _ => Ok "summary" end;
     setup := fun _ => SetupDone;
     get_my_tasks := fun _ _ _ => Ok "No tasks found.";
     get_my_pull_requests := fun _ _ => Ok "No pull requests found.";
     get_work_item := fun _ _ => Ok (Get200 (Some "Task"));
     patch_work_item := fun _ _ _ => Ok (mkPatchReply 200 "{}") |}.

(** A backend without configuration and without OpenAI key: the set-up of
    the Azure DevOps tool raises the [ValueError] of [setup], with the notice
    that names the three missing settings. *)
Definition unconfigured_env : Env :=
  {| tool_available := true;
     call_openai := fun _ _ => Raised "OpenAI Configuration Required";
     setup := fun _ =>
       SetupValueError
         (AdoConn.configuration_required_message
            ["AZURE_DEVOPS_TOKEN"; "AZURE_DEVOPS_ORGANIZATION"; "AZURE_DEVOPS_PROJECT"]);
     get_my_tasks := fun _ _ _ => Raised "'NoneType' object has no attribute 'post'";
     get_my_pull_requests := fun _ _ => Raised "'NoneType' object has no attribute 'get'";
     get_work_item := fun _ _ => Raised "'NoneType' object has no attribute 'get'";
     patch_work_item := fun _ _ _ => Raised "'NoneType' object has no attribute 'patch'" |}.

(** Classifying the same text twice in a row. *)
Definition classify_twice (env : Env) (user_input : string) : M (Intent * Intent) :=
  (i1 <- Nlp.classify_intent env user_input ;;
   i2 <- Nlp.classify_intent env user_input ;;
   ret (i1, i2))%monad.

(* ================================================================== *)
(** ** Notions used in the statements                                  *)
(* ================================================================== *)

(** The Azure DevOps tool can be used: it was created, and it has a session
    or its set-up succeeds now. *)
Definition backend_ready (env : Env) (w : World) : Prop :=
  tool_available env = true /\ (session w = true \/ setup env (log w) = SetupDone).

(** The extractor found neither a single work-item id nor a batch item. *)
Definition no_work_item_id (ents : Entities) : Prop :=
  task_id ents = None /\ (forall u us, batch_updates ents <> Some (u :: us)).

(** The rejection text of the safety gate for such an entity bag: the
    batch-format instructions for a malformed batch, the missing-id
    instructions otherwise. *)
Definition gate_message (ents : Entities) : string :=
  if batch_update_error ents then Orch.invalid_batch_format_message
  else Orch.missing_id_message.

(** The call of [update_work_item] made for one batch item. *)
Definition batch_call (u : BatchUpdate) : list Event :=
  match Py.int (bu_task_id u) with
  | Some id => [EvUpdateWorkItem id (bu_field_updates u)]
  | None => []
  end.

(** An item whose id has at most 4300 digits: [int] reads such an id. *)
Definition short_id (u : BatchUpdate) : bool :=
  (String.length (bu_task_id u) <=? 4300)%nat.

(** The attempt on one batch item, the body of the [try] of the loop:
    [update_work_item(int(task_id), field_updates)]. *)
Definition batch_attempt (env : Env) (u : BatchUpdate) : M string :=
  match Py.int (bu_task_id u) with
  | Some id => Ado.update_work_item env id (bu_field_updates u)
  | None => raise (Py.int_error (bu_task_id u))
  end.

(** The run of a batch from a world: every item is attempted, from the world
    that the attempts before it left; a returned result is recorded under the
    id of its item in the first list, a raised error under the id of its item
    in the second. *)
Inductive batch_run (env : Env)
  : list BatchUpdate -> World -> list Orch.BatchSuccess -> list Orch.BatchFailure
    -> World -> Prop :=
| run_done w : batch_run env [] w [] [] w
| run_success u more w result w1 rs fs w' :
    batch_attempt env u w = (Ok result, w1) ->
    batch_run env more w1 rs fs w' ->
    batch_run env (u :: more) w (Orch.mkBatchSuccess (bu_task_id u) result :: rs) fs w'
| run_failure u more w e w1 rs fs w' :
    batch_attempt env u w = (Raised e, w1) ->
    batch_run env more w1 rs fs w' ->
    batch_run env (u :: more) w rs (Orch.mkBatchFailure (bu_task_id u) e :: fs) w'.

(** A text with a work-item id in the form the classifier knows: one of the
    five type words, a hyphen and a digit (as in "task-12" and "[bug-7]"). *)
Definition hyphenated_id (s : string) : Prop :=
  exists t pre d post,
    In t ["task"; "story"; "bug"; "epic"; "requirement"]
    /\ s = pre ++ t ++ "-" ++ String d post
    /\ Py.is_digit d = true.

(** A non-blank batch line that the extractor records in [invalid_lines]:
    the pattern [task\s+(\d+)\s*->] finds nothing in it, or the id it
    captures is not numeric, or no field update is recognized on it. *)
Definition invalid_line (raw : string) : Prop :=
  Py.truthy (Py.strip raw) = true
  /\ (Re.search_group true Nlp.batch_task_pattern (Py.strip raw) = None
      \/ (exists tid, Re.search_group true Nlp.batch_task_pattern (Py.strip raw) = Some tid
                      /\ Py.isdigit tid = false)
      \/ Nlp.batch_line_fields (Py.strip raw) = []).

(** The keys a batch line can update. *)
Definition batch_key (k : option string) : Prop :=
  k = Some "start_date" \/ k = Some "finish_date" \/ k = Some "status".

(** A batch item as the extractor builds it: a numeric id, at least one field
    update, recognized fields only. *)
Definition well_formed_update (u : BatchUpdate) : Prop :=
  Py.isdigit (bu_task_id u) = true
  /\ bu_field_updates u <> []
  /\ (forall k v, In (k, v) (bu_field_updates u) -> batch_key k).

(** A stage that makes no call of [update_work_item] and leaves the session
    and the history alone. *)
Definition same_calls (w w' : World) : Prop :=
  update_calls (log w') = update_calls (log w)
  /\ session w' = session w
  /\ conversation_history w' = conversation_history w.

(** A text without any digit. *)
Definition no_digit (s : string) : Prop := Py.exists_chars Py.is_digit s = false.

(** Patterns that cannot match without consuming a digit: they contain a
    repetition [\d+] (or [\d{n,m}] with [n] at least 1) on every path. *)
Inductive needs_digit : Re.regex -> Prop :=
| nd_rep lo hi : needs_digit (Re.Rep Re.digit (S lo) hi)
| nd_grp r : needs_digit r -> needs_digit (Re.Grp r)
| nd_seq_l r1 r2 : needs_digit r1 -> needs_digit (Re.Seq r1 r2)
| nd_seq_r r1 r2 : needs_digit r2 -> needs_digit (Re.Seq r1 r2)
| nd_alt r1 r2 : needs_digit r1 -> needs_digit r2 -> needs_digit (Re.Alt r1 r2).

(** Patterns without capturing group, and patterns with exactly one group
    on every path, the group being a repetition [p+] (or [p{n,m}] with [n] at
    least 1) of one character class. *)
Inductive no_group : Re.regex -> Prop :=
| ng_lit l : no_group (Re.Lit l)
| ng_cls p : no_group (Re.Cls p)
| ng_rep p lo hi : no_group (Re.Rep p lo hi)
| ng_seq r1 r2 : no_group r1 -> no_group r2 -> no_group (Re.Seq r1 r2)
| ng_alt r1 r2 : no_group r1 -> no_group r2 -> no_group (Re.Alt r1 r2).

Inductive one_group (p : ascii -> bool) : Re.regex -> Prop :=
| og_grp lo hi : one_group p (Re.Grp (Re.Rep p (S lo) hi))
| og_seq_l r1 r2 : one_group p r1 -> no_group r2 -> one_group p (Re.Seq r1 r2)
| og_seq_r r1 r2 : no_group r1 -> one_group p r2 -> one_group p (Re.Seq r1 r2)
| og_alt r1 r2 : one_group p r1 -> one_group p r2 -> one_group p (Re.Alt r1 r2).

(** A captured text: not empty, made of characters of the class. *)
Definition captured (icase : bool) (p : ascii -> bool) (c : string) : Prop :=
  c <> EmptyString /\ Py.forall_chars (Re.in_class icase p) c = true.

(** A stage that leaves the conversation history alone, whether it returns
    or raises. *)
Definition keeps_history {A} (c : M A) : Prop :=
  forall w, conversation_history (snd (c w)) = conversation_history w.

(** A call of [update_work_item] as the orchestrator may make it: the id is
    the value of a text made of digits, and there is a field to update. *)
Definition safe_update_call (e : Event) : Prop :=
  exists tid fu,
    e = EvUpdateWorkItem (Py.digits_value 0 tid) fu
    /\ Py.isdigit tid = true
    /\ fu <> [].

(** The set-ups of the Azure DevOps tool recorded in a log. *)
Definition is_setup (e : Event) : bool :=
  match e with EvSetup => true | _ => false end.
Definition setup_calls (l : list Event) : list Event := filter is_setup l.

(* ================================================================== *)
(** * Properties                                                        *)
(* ================================================================== *)

(** ** Status legalization and date normalization ([update_work_item]) *)
Section Legalization.
Import Ado.

Lemma get_default_const (k d : string) (table : list (string * string)) :
  Forall (fun kv => snd kv = d) table -> get_default k table d = d.
Proof.
  unfold get_default. induction 1 as [|[k' v] t Hv _ IH]; simpl; [reflexivity|].
  destruct (String.eqb k' k); [exact Hv | exact IH].
Qed.

Lemma task_fallback_is_active (k : string) :
  get_default k task_fallback_mapping "Active" = "Active".
Proof. apply get_default_const. repeat constructor. Qed.

Lemma user_story_fallback_is_active (k : string) :
  get_default k user_story_fallback_mapping "Active" = "Active".
Proof. apply get_default_const. repeat constructor. Qed.

(** The types of the table are exactly TASK and USER STORY. *)
Lemma known_type (t : string) (states : list string) :
  lookup t valid_states_by_type = Some states ->
  (t = "TASK" /\ states = ["New"; "Active"; "Closed"; "Removed"])
  \/ (t = "USER STORY"
      /\ states = ["New"; "Approved"; "Active"; "Resolved"; "Closed"; "Removed"]).
Proof.
  unfold valid_states_by_type, lookup.
  destruct (String.eqb "TASK" t) eqn:E1.
  - apply String.eqb_eq in E1. intros [= <-]. left. split; [now symmetry | reflexivity].
  - destruct (String.eqb "USER STORY" t) eqn:E2; [|discriminate].
    apply String.eqb_eq in E2. intros [= <-]. right. split; [now symmetry | reflexivity].
Qed.

(** What [legalize_status] does for a type of the table. *)
Lemma legalize_known (t : string) (states : list string) (v : string) :
  lookup t valid_states_by_type = Some states ->
  legalize_status (Some t) v =
    if mem (map_status v) states then map_status v else "Active".
Proof.
  intros H. destruct (known_type _ _ H) as [[-> ->] | [-> ->]];
    unfold legalize_status; cbn [Py.truthy];
    change (lookup "TASK" valid_states_by_type)
      with (Some ["New"; "Active"; "Closed"; "Removed"]);
    change (lookup "USER STORY" valid_states_by_type)
      with (Some ["New"; "Approved"; "Active"; "Resolved"; "Closed"; "Removed"]);
    cbv iota beta;
    match goal with |- context [mem ?a ?b] => destruct (mem a b) end;
    cbn [negb]; cbv iota; try reflexivity.
  - change (String.eqb "TASK" "TASK") with true. cbv iota.
    apply task_fallback_is_active.
  - change (String.eqb "USER STORY" "TASK") with false.
    change (String.eqb "USER STORY" "USER STORY") with true. cbv iota.
    apply user_story_fallback_is_active.
Qed.

(** The type found by the lookup, as [update_work_item] sees it. *)
Lemma lookup_type_unavailable (env : Env) (id : Z) (fu : FieldUpdates) (w : World) :
  (session w = false
   \/ (exists code, get_work_item env (log w) id = Ok (GetStatus code))
   \/ (exists e, get_work_item env (log w) id = Raised e)) ->
  fst (lookup_work_item_type env id fu w) = Ok None.
Proof.
  unfold lookup_work_item_type, ret.
  destruct (dict_mem fu (Some "status")); [|reflexivity].
  intros [Hs | [[code Hc] | [e He]]].
  - rewrite Hs. reflexivity.
  - destruct (session w); [rewrite Hc|]; reflexivity.
  - destruct (session w); [rewrite He|]; reflexivity.
Qed.

End Legalization.

(** C5 — Status legalization before dispatch.  With the type TASK the token
    "resolved" is sent as the TASK fallback "Active"; with the type USER STORY
    it is sent as "Resolved"; for a type of the table a mapped value outside
    the legal set of the type is replaced by the fallback designated for the
    type ("Active" for both), a legal one is kept; and when the type lookup
    gives nothing (no type, a non-200 answer or an exception) the value sent is
    the context-free synonym mapping of the token, with no legalization. *)
Theorem status_legalization_before_dispatch :
  Ado.build_operations (Some "TASK") [(Some "status", VStr "resolved")]
    = Ok [mkOperation "/fields/System.State" (VStr "Active")]
  /\ Ado.build_operations (Some "USER STORY") [(Some "status", VStr "resolved")]
    = Ok [mkOperation "/fields/System.State" (VStr "Resolved")]
  /\ (forall t states v,
        Ado.lookup t Ado.valid_states_by_type = Some states ->
        Ado.mem (Ado.map_status v) states = false ->
        Ado.field_value (Some t) (Some "status") (VStr v) = Ok (VStr "Active"))
  /\ (forall t states v,
        Ado.lookup t Ado.valid_states_by_type = Some states ->
        Ado.mem (Ado.map_status v) states = true ->
        Ado.field_value (Some t) (Some "status") (VStr v) = Ok (VStr (Ado.map_status v)))
  /\ (forall v, Ado.field_value None (Some "status") (VStr v)
                = Ok (VStr (Ado.map_status v)))
  /\ (forall env id fu w,
        (session w = false
         \/ (exists code, get_work_item env (log w) id = Ok (GetStatus code))
         \/ (exists e, get_work_item env (log w) id = Raised e)) ->
        fst (Ado.lookup_work_item_type env id fu w) = Ok None).
Proof.
  split; [reflexivity|]. split; [reflexivity|].
  split; [|split; [|split]].
  - intros t states v Hl Hm. unfold Ado.field_value.
    change (key_eqb (Some "status") (Some "status")) with true. cbv iota.
    rewrite (legalize_known _ _ _ Hl), Hm. reflexivity.
  - intros t states v Hl Hm. unfold Ado.field_value.
    change (key_eqb (Some "status") (Some "status")) with true. cbv iota.
    rewrite (legalize_known _ _ _ Hl), Hm. reflexivity.
  - intros v. reflexivity.
  - intros env id fu w H. now apply lookup_type_unavailable.
Qed.

(** Witness of C5: the TASK row at the illegal token "resolved" and the USER
    STORY row at the legal token "closed". *)
Lemma status_legalization_before_dispatch_witness :
  Ado.field_value (Some "TASK") (Some "status") (VStr "resolved") = Ok (VStr "Active")
  /\ Ado.field_value (Some "USER STORY") (Some "status") (VStr "closed")
     = Ok (VStr "Closed").
Proof.
  destruct status_legalization_before_dispatch as (_ & _ & Hillegal & Hlegal & _).
  split.
  - apply (Hillegal "TASK" ["New"; "Active"; "Closed"; "Removed"] "resolved");
      reflexivity.
  - apply (Hlegal "USER STORY"
                  ["New"; "Approved"; "Active"; "Resolved"; "Closed"; "Removed"] "closed");
      reflexivity.
Defined.

(** ** Date normalization *)
Section Dates.
Import Ado.

Lemma date_field_value (wt : option string) (f : string) (v : PyVal) :
  f = "start_date" \/ f = "finish_date" ->
  field_value wt (Some f) v = Ok (format_date v).
Proof. intros [-> | ->]; reflexivity. Qed.

Lemma format_date_no_slash (s : string) :
  Py.contains "/" s = false -> format_date (VStr s) = VStr s.
Proof.
  intros H. unfold format_date. cbn [str_of_val]. rewrite H, andb_false_r. reflexivity.
Qed.

Lemma format_date_unparsable (s : string) :
  strptime_mdY s = None -> format_date (VStr s) = VStr s.
Proof.
  intros H. unfold format_date. rewrite H.
  destruct (val_truthy (VStr s) && Py.contains "/" (str_of_val (VStr s))); reflexivity.
Qed.

(** A parsed date is written back as [YYYY-MM-DD]. *)
Lemma format_date_parsed (s : string) (d : date) :
  Py.contains "/" s = true -> strptime_mdY s = Some d ->
  format_date (VStr s) = VStr (strftime_Ymd d).
Proof.
  intros Hc Hp. unfold format_date. cbn [str_of_val]. rewrite Hc, Hp.
  destruct s; [discriminate Hc | reflexivity].
Qed.

(** The operation built for one of the field updates. *)
Lemma build_operations_in (wt : option string) :
  forall (fu : FieldUpdates) (ops : list Operation) (k : option string) (v : PyVal),
    build_operations wt fu = Ok ops ->
    In (k, v) fu ->
    exists v', field_value wt k v = Ok v'
               /\ In (mkOperation ("/fields/" ++ azure_field k) v') ops.
Proof.
  induction fu as [|[k0 v0] fu IH]; intros ops k v; cbn [build_operations]; [intros _ []|].
  destruct (field_value wt k0 v0) as [v0'|e] eqn:E0; [|discriminate].
  destruct (build_operations wt fu) as [ops'|e]; [|discriminate].
  intros [= <-] [[= -> ->] | Hin].
  - exists v0'. split; [exact E0 | now left].
  - destruct (IH ops' k v eq_refl Hin) as (v' & Hv & Hop). exists v'. split; [exact Hv|].
    now right.
Qed.

(** Without a status among the updates the operations are always built, and
    the only request of [update_work_item] is the PATCH of these operations. *)
Lemma build_operations_without_status (wt : option string) :
  forall fu, dict_mem fu (Some "status") = false ->
             exists ops, build_operations wt fu = Ok ops
                         /\ build_operations None fu = Ok ops.
Proof.
  induction fu as [|[k v] fu IH]; [exists []; now split|].
  unfold dict_mem. cbn [dict_get build_operations]. unfold field_value.
  destruct (key_eqb k (Some "status")); [discriminate|].
  intros H. destruct (IH H) as (ops & -> & ->).
  destruct (is_date_field k); eexists; split; reflexivity.
Qed.

Lemma update_without_status_requests (env : Env) (id : Z) (fu : FieldUpdates) (w : World) :
  session w = true ->
  dict_mem fu (Some "status") = false ->
  exists ops res w',
    build_operations None fu = Ok ops
    /\ update_work_item env id fu w = (res, w')
    /\ log w' = (log w ++ [EvUpdateWorkItem id fu; EvPatchWorkItem id ops])%list.
Proof.
  intros Hs Hm. destruct (build_operations_without_status None fu Hm) as (ops & Hb & _).
  exists ops. unfold update_work_item, bind, ret, lookup_work_item_type.
  rewrite Hm. unfold ret. rewrite Hb. unfold send_patch, emit.
  cbn [session log conversation_history]. rewrite Hs, <- app_assoc. cbn [app].
  destruct (patch_work_item env _ id ops) as [r|e];
    [destruct (is_success_status (patch_status r))|];
    eexists _, _; (split; [reflexivity|]); split; reflexivity.
Qed.

End Dates.

(** C7 — Date normalization.  In a start-date or finish-date update the value
    "08/11/2025" is sent to the backend as "2025-08-11"; a value without a
    slash (so every value already in the form YYYY-MM-DD) is sent unchanged;
    and a value that [strptime] cannot parse is sent unchanged, the field
    computation returning normally ([Ok]) in every case.  The value so
    computed is the one of the operation that [update_work_item] builds for
    the field, on the path of the start or finish date, and the one of the
    PATCH request it sends. *)
Theorem date_normalization_round_trip :
  forall (wt : option string) (f : string),
    f = "start_date" \/ f = "finish_date" ->
    Ado.field_value wt (Some f) (VStr "08/11/2025") = Ok (VStr "2025-08-11")
    /\ Ado.field_value wt (Some f) (VStr "2025-08-11") = Ok (VStr "2025-08-11")
    /\ (forall s, Py.contains "/" s = false ->
                  Ado.field_value wt (Some f) (VStr s) = Ok (VStr s))
    /\ (forall s, Ado.strptime_mdY s = None ->
                  Ado.field_value wt (Some f) (VStr s) = Ok (VStr s))
    /\ (forall v, exists v', Ado.field_value wt (Some f) v = Ok v')
    /\ (forall fu ops v,
           Ado.build_operations wt fu = Ok ops ->
           In (Some f, v) fu ->
           exists v',
             Ado.field_value wt (Some f) v = Ok v'
             /\ In (mkOperation
                      ("/fields/Microsoft.VSTS.Scheduling."
                         ++ (if String.eqb f "start_date" then "StartDate" else "FinishDate"))
                      v') ops)
    /\ Ado.build_operations wt [(Some f, VStr "08/11/2025")]
       = Ok [mkOperation
               ("/fields/Microsoft.VSTS.Scheduling."
                  ++ (if String.eqb f "start_date" then "StartDate" else "FinishDate"))
               (VStr "2025-08-11")]
    /\ (forall (env : Env) (id : Z) (fu : FieldUpdates) (w : World),
           session w = true ->
           dict_mem fu (Some "status") = false ->
           exists ops res w',
             Ado.build_operations wt fu = Ok ops
             /\ Ado.update_work_item env id fu w = (res, w')
             /\ log w' = (log w ++ [EvUpdateWorkItem id fu; EvPatchWorkItem id ops])%list)
    /\ (forall (env : Env) (id : Z) (w : World),
           session w = true ->
           exists res w',
             Ado.update_work_item env id [(Some f, VStr "08/11/2025")] w = (res, w')
             /\ log w'
                = (log w
                   ++ [EvUpdateWorkItem id [(Some f, VStr "08/11/2025")];
                       EvPatchWorkItem id
                         [mkOperation
                            ("/fields/Microsoft.VSTS.Scheduling."
                               ++ (if String.eqb f "start_date"
                                   then "StartDate" else "FinishDate"))
                            (VStr "2025-08-11")]])%list).
Proof.
  intros wt f Hf. rewrite !(date_field_value wt f _ Hf).
  assert (Hpath : "/fields/" ++ Ado.azure_field (Some f)
                  = "/fields/Microsoft.VSTS.Scheduling."
                    ++ (if String.eqb f "start_date" then "StartDate" else "FinishDate"))
    by (destruct Hf as [-> | ->]; reflexivity).
  assert (Hone : forall wt', Ado.build_operations wt' [(Some f, VStr "08/11/2025")]
                 = Ok [mkOperation
                         ("/fields/Microsoft.VSTS.Scheduling."
                            ++ (if String.eqb f "start_date" then "StartDate"
                                else "FinishDate"))
                         (VStr "2025-08-11")])
    by (intros wt'; destruct Hf as [-> | ->]; reflexivity).
  split; [reflexivity|]. split; [reflexivity|].
  split; [|split; [|split; [|split; [|split; [|split]]]]].
  - intros s Hs. rewrite (date_field_value wt f _ Hf), format_date_no_slash; auto.
  - intros s Hs. rewrite (date_field_value wt f _ Hf), format_date_unparsable; auto.
  - intros v. rewrite (date_field_value wt f _ Hf). eauto.
  - intros fu ops v Hb Hin. rewrite <- Hpath. exact (build_operations_in wt fu ops _ v Hb Hin).
  - apply Hone.
  - intros env id fu w Hs Hm.
    destruct (update_without_status_requests env id fu w Hs Hm) as (ops & res & w' & Hb & H).
    destruct (build_operations_without_status wt fu Hm) as (ops' & Hb1 & Hb2).
    assert (ops' = ops) by congruence. subst ops'. exists ops, res, w'. split; assumption.
  - intros env id w Hs.
    destruct (update_without_status_requests env id [(Some f, VStr "08/11/2025")] w Hs)
      as (ops & res & w' & Hb & Hq & Hl).
    { destruct Hf as [-> | ->]; reflexivity. }
    rewrite (Hone None) in Hb. injection Hb as <-. exists res, w'. split; assumption.
Qed.

(** Witness of C7: the start date of a TASK; "13/45/2025" has a slash and is
    not a date. *)
Lemma date_normalization_round_trip_witness :
  Ado.field_value (Some "TASK") (Some "start_date") (VStr "08/11/2025")
    = Ok (VStr "2025-08-11")
  /\ Ado.field_value (Some "TASK") (Some "start_date") (VStr "13/45/2025")
    = Ok (VStr "13/45/2025")
  /\ exists res w',
      Ado.update_work_item (stub_env (fun _ => false)) 51311
                           [(Some "start_date", VStr "08/11/2025")] (mkWorld [] true [])
      = (res, w')
      /\ log w'
         = [EvUpdateWorkItem 51311 [(Some "start_date", VStr "08/11/2025")];
            EvPatchWorkItem 51311
              [mkOperation "/fields/Microsoft.VSTS.Scheduling.StartDate"
                           (VStr "2025-08-11")]].
Proof.
  destruct (date_normalization_round_trip (Some "TASK") "start_date" (or_introl eq_refl))
    as (H1 & _ & _ & Hbad & _ & _ & _ & _ & Hpatch).
  split; [exact H1|]. split; [apply Hbad; reflexivity|].
  exact (Hpatch (stub_env (fun _ => false)) 51311 (mkWorld [] true []) eq_refl).
Defined.

(** More dates through the same block: a day and a month of one digit, the
    29th of February of a leap year and of a common year, a month 13. *)
Example date_normalization_more_dates :
  Ado.format_date (VStr "2/9/2025") = VStr "2025-02-09"
  /\ Ado.format_date (VStr "02/29/2024") = VStr "2024-02-29"
  /\ Ado.format_date (VStr "02/29/2025") = VStr "02/29/2025"
  /\ Ado.format_date (VStr "13/01/2025") = VStr "13/01/2025"
  /\ Ado.format_date (VStr "12/31/1999") = VStr "1999-12-31".
Proof. vm_compute. repeat split. Qed.

(** The operations sent for a two-date update: both dates are rewritten. *)
Example two_dates_operations :
  Ado.build_operations None
    [(Some "start_date", VStr "08/06/2025"); (Some "finish_date", VStr "08/07/2025")]
  = Ok [mkOperation "/fields/Microsoft.VSTS.Scheduling.StartDate" (VStr "2025-08-06");
        mkOperation "/fields/Microsoft.VSTS.Scheduling.FinishDate" (VStr "2025-08-07")].
Proof. reflexivity. Qed.

(** ** The single-item planner *)
Section Planner.
Import Orch.

Lemma key_eqb_eq (a b : option string) : key_eqb a b = true <-> a = b.
Proof.
  destruct a as [a|], b as [b|]; simpl; try (split; congruence).
  rewrite String.eqb_eq. split; congruence.
Qed.

Lemma key_eqb_refl (a : option string) : key_eqb a a = true.
Proof. now apply key_eqb_eq. Qed.

Lemma dict_get_set_same (d : FieldUpdates) (k : option string) (v : PyVal) :
  dict_get (dict_set d k v) k = Some v.
Proof.
  induction d as [|[k' v'] d IH]; simpl.
  - now rewrite key_eqb_refl.
  - destruct (key_eqb k' k) eqn:E; simpl; rewrite E; [reflexivity | exact IH].
Qed.

Lemma dict_get_set_other (d : FieldUpdates) (k k' : option string) (v : PyVal) :
  key_eqb k k' = false -> dict_get (dict_set d k v) k' = dict_get d k'.
Proof.
  intros Hk. induction d as [|[k0 v0] d IH]; simpl.
  - now rewrite Hk.
  - destruct (key_eqb k0 k) eqn:E; simpl.
    + apply key_eqb_eq in E. subst k0. now rewrite Hk.
    + now rewrite IH.
Qed.

(** [set_int_field] touches its own key only, and writes the integer read
    from the first value. *)
Lemma set_int_field_other n names values fu fu' k :
  set_int_field n names values fu = Ok fu' ->
  key_eqb (Some n) k = false -> dict_get fu' k = dict_get fu k.
Proof.
  unfold set_int_field. destruct values as [|v rest]; [now intros [= <-]|].
  destruct (names_mem n names); [|now intros [= <-]].
  destruct (Py.int v); [|discriminate].
  intros [= <-] Hk. now apply dict_get_set_other.
Qed.

Lemma set_int_field_first n names v rest fu fu' :
  set_int_field n names (v :: rest) fu = Ok fu' ->
  names_mem n names = true ->
  exists z, Py.int v = Some z /\ dict_get fu' (Some n) = Some (VInt z).
Proof.
  unfold set_int_field. intros H Hn. rewrite Hn in H.
  destruct (Py.int v) as [z|]; [|discriminate].
  injection H as <-. exists z. split; [reflexivity | apply dict_get_set_same].
Qed.

(** The planner, one field family after the other. *)
Lemma plan_field_updates_steps (entities : Entities) (fu : FieldUpdates) :
  plan_field_updates entities = Ok fu ->
  exists fu2 fu3 fu4,
    set_int_field "remaining" (plan_field_names entities)
                  (or_empty (remaining_values entities))
                  (status_step entities (dates_step entities)) = Ok fu2
    /\ set_int_field "completed" (plan_field_names entities)
                     (or_empty (completed_values entities)) fu2 = Ok fu3
    /\ set_int_field "original_estimate" (plan_field_names entities)
                     (or_empty (original_estimate_values entities)) fu3 = Ok fu4
    /\ fu = assignee_step entities fu4.
Proof.
  unfold plan_field_updates.
  destruct (set_int_field "remaining" _ _ _) as [fu2|] eqn:E2; [|discriminate].
  destruct (set_int_field "completed" _ _ _) as [fu3|] eqn:E3; [|discriminate].
  destruct (set_int_field "original_estimate" _ _ _) as [fu4|] eqn:E4; [|discriminate].
  intros [= <-]. exists fu2, fu3, fu4. repeat split; auto.
Qed.

Lemma assignee_step_other entities fu k :
  key_eqb (Some "assigned_to") k = false ->
  dict_get (assignee_step entities fu) k = dict_get fu k.
Proof.
  intros Hk. unfold assignee_step.
  destruct (or_empty (assignee_values entities)); [reflexivity|].
  destruct (names_mem "assigned_to" _); [now apply dict_get_set_other | reflexivity].
Qed.

(** A key written before the numeric families survives to the plan when it
    is none of their keys. *)
Lemma plan_keeps entities fu k :
  plan_field_updates entities = Ok fu ->
  key_eqb (Some "remaining") k = false ->
  key_eqb (Some "completed") k = false ->
  key_eqb (Some "original_estimate") k = false ->
  key_eqb (Some "assigned_to") k = false ->
  dict_get fu k = dict_get (status_step entities (dates_step entities)) k.
Proof.
  intros H K1 K2 K3 K4.
  destruct (plan_field_updates_steps _ _ H) as (fu2 & fu3 & fu4 & E2 & E3 & E4 & ->).
  rewrite assignee_step_other by assumption.
  rewrite (set_int_field_other _ _ _ _ _ _ E4 K3).
  rewrite (set_int_field_other _ _ _ _ _ _ E3 K2).
  now rewrite (set_int_field_other _ _ _ _ _ _ E2 K1).
Qed.

End Planner.

(** C6 (as stated) fails — the generic [status] scalar is not only a fallback
    for "[field_names] contains status and no status family": for the text
    below [field_names] is [start_date] alone and the status family is
    populated, yet the plan carries the scalar as a status update for the
    work item. *)
Lemma status_scalar_used_without_status_field :
  let entities :=
    Nlp._extract_entities "Update TASK-2 Start Date -> 08/11/2025 done" "task_update" in
  field_names entities = Some ["start_date"]
  /\ Orch.names_mem "status" (Orch.plan_field_names entities) = false
  /\ status_values entities = Some ["resolved"]
  /\ status entities = Some "resolved"
  /\ Orch.plan_field_updates entities
     = Ok [(Some "start_date", VStr "08/11/2025"); (Some "status", VStr "resolved")].
Proof. vm_compute. repeat split. Qed.

(** C6 (amended) — In the single-item planning path each of the families
    status, remaining, completed, original_estimate and assigned_to uses the
    first extracted value only, when its field is named and its family is
    populated; the generic [status] scalar becomes the status update whenever
    it is present and that explicit status rule did not fire, that is when
    [field_names] does not contain status or when no status family was
    populated. *)
Theorem single_item_planning_first_values :
  forall (entities : Entities) (fu : FieldUpdates),
    Orch.plan_field_updates entities = Ok fu ->
    (Orch.names_mem "status" (Orch.plan_field_names entities) = true ->
     forall s rest, status_values entities = Some (s :: rest) ->
                    dict_get fu (Some "status") = Some (VStr s))
    /\ (forall st, status entities = Some st -> Py.truthy st = true ->
          Orch.names_mem "status" (Orch.plan_field_names entities) = false
          \/ Orch.or_empty (status_values entities) = [] ->
          dict_get fu (Some "status") = Some (VStr st))
    /\ (Orch.names_mem "remaining" (Orch.plan_field_names entities) = true ->
        forall v rest, remaining_values entities = Some (v :: rest) ->
        exists z, Py.int v = Some z /\ dict_get fu (Some "remaining") = Some (VInt z))
    /\ (Orch.names_mem "completed" (Orch.plan_field_names entities) = true ->
        forall v rest, completed_values entities = Some (v :: rest) ->
        exists z, Py.int v = Some z /\ dict_get fu (Some "completed") = Some (VInt z))
    /\ (Orch.names_mem "original_estimate" (Orch.plan_field_names entities) = true ->
        forall v rest, original_estimate_values entities = Some (v :: rest) ->
        exists z, Py.int v = Some z
                  /\ dict_get fu (Some "original_estimate") = Some (VInt z))
    /\ (Orch.names_mem "assigned_to" (Orch.plan_field_names entities) = true ->
        forall a rest, assignee_values entities = Some (a :: rest) ->
        dict_get fu (Some "assigned_to") = Some (VStr a)).
Proof.
  intros entities fu H.
  pose proof (plan_keeps entities fu (Some "status") H eq_refl eq_refl eq_refl eq_refl)
    as Hstatus.
  destruct (plan_field_updates_steps _ _ H) as (fu2 & fu3 & fu4 & E2 & E3 & E4 & Hfu).
  repeat split.
  - intros Hn s rest Hv. rewrite Hstatus. unfold Orch.status_step.
    rewrite Hn, Hv. cbn [Orch.or_empty]. apply dict_get_set_same.
  - intros st Hst Ht Hno. rewrite Hstatus. unfold Orch.status_step.
    rewrite Hst, Ht.
    destruct Hno as [Hn | Hv]; [rewrite Hn | rewrite Hv].
    + apply dict_get_set_same.
    + destruct (Orch.names_mem "status" _); apply dict_get_set_same.
  - intros Hn v rest Hv. rewrite Hv in E2. cbn [Orch.or_empty] in E2.
    destruct (set_int_field_first _ _ _ _ _ _ E2 Hn) as (z & Hz & Hg).
    exists z. split; [exact Hz|]. subst fu.
    rewrite assignee_step_other by reflexivity.
    rewrite (set_int_field_other _ _ _ _ _ _ E4) by reflexivity.
    now rewrite (set_int_field_other _ _ _ _ _ _ E3) by reflexivity.
  - intros Hn v rest Hv. rewrite Hv in E3. cbn [Orch.or_empty] in E3.
    destruct (set_int_field_first _ _ _ _ _ _ E3 Hn) as (z & Hz & Hg).
    exists z. split; [exact Hz|]. subst fu.
    rewrite assignee_step_other by reflexivity.
    now rewrite (set_int_field_other _ _ _ _ _ _ E4) by reflexivity.
  - intros Hn v rest Hv. rewrite Hv in E4. cbn [Orch.or_empty] in E4.
    destruct (set_int_field_first _ _ _ _ _ _ E4 Hn) as (z & Hz & Hg).
    exists z. split; [exact Hz|]. subst fu.
    now rewrite assignee_step_other by reflexivity.
  - intros Hn a rest Hv. subst fu. unfold Orch.assignee_step.
    rewrite Hv, Hn. cbn [Orch.or_empty]. apply dict_get_set_same.
Qed.

(** Witness of C6 (amended): a text naming the status, remaining and assignee
    families, with two values for "remaining"; and a text whose status scalar
    is used although the status field is not named. *)
Lemma single_item_planning_first_values_witness :
  (exists fu,
      Orch.plan_field_updates
        (Nlp._extract_entities
           "update task-9 status -> closed, remaining to 5 remaining 7, assignee -> 'Bob'"
           "task_update") = Ok fu
      /\ dict_get fu (Some "status") = Some (VStr "closed")
      /\ dict_get fu (Some "assigned_to") = Some (VStr "Bob"))
  /\ (exists fu,
         Orch.plan_field_updates
           (Nlp._extract_entities "Update TASK-2 Start Date -> 08/11/2025 done"
                                  "task_update") = Ok fu
         /\ dict_get fu (Some "status") = Some (VStr "resolved")).
Proof.
  split.
  - eexists. split; [vm_compute; reflexivity|].
    pose proof (single_item_planning_first_values
                  (Nlp._extract_entities
                     "update task-9 status -> closed, remaining to 5 remaining 7, assignee -> 'Bob'"
                     "task_update") _ ltac:(vm_compute; reflexivity))
      as (Hs & _ & _ & _ & _ & Ha).
    split.
    + apply (Hs ltac:(vm_compute; reflexivity) "closed" []). vm_compute. reflexivity.
    + apply (Ha ltac:(vm_compute; reflexivity) "Bob" []). vm_compute. reflexivity.
  - eexists. split; [vm_compute; reflexivity|].
    pose proof (single_item_planning_first_values
                  (Nlp._extract_entities "Update TASK-2 Start Date -> 08/11/2025 done"
                                         "task_update") _ ltac:(vm_compute; reflexivity))
      as (_ & Hscalar & _).
    apply (Hscalar "resolved"); [vm_compute; reflexivity | reflexivity |].
    left. vm_compute. reflexivity.
Defined.

(** ** Intent classification *)
Section Classification.
Import Nlp.

Lemma lower_upper_char (c : ascii) : Py.lower_char (Py.upper_char c) = Py.lower_char c.
Proof.
  destruct c as [[] [] [] [] [] [] [] []]; reflexivity.
Qed.

Lemma lower_lower_char (c : ascii) : Py.lower_char (Py.lower_char c) = Py.lower_char c.
Proof.
  destruct c as [[] [] [] [] [] [] [] []]; reflexivity.
Qed.

Lemma lower_upper (s : string) : Py.lower (Py.upper s) = Py.lower s.
Proof.
  induction s as [|c s IH]; [reflexivity|].
  unfold Py.lower, Py.upper in *. simpl. now rewrite lower_upper_char, IH.
Qed.

Lemma lower_lower (s : string) : Py.lower (Py.lower s) = Py.lower s.
Proof.
  induction s as [|c s IH]; [reflexivity|].
  unfold Py.lower in *. simpl. now rewrite lower_lower_char, IH.
Qed.

(** The keyword test does not see the case of the text. *)
Lemma has_update_keyword_case (text : string) :
  has_update_keyword (Py.upper text) = has_update_keyword text
  /\ has_update_keyword (Py.lower text) = has_update_keyword text.
Proof. unfold has_update_keyword. now rewrite lower_upper, lower_lower. Qed.

Lemma fallback_with_update_keyword (text : string) :
  has_update_keyword text = true ->
  _fallback_intent_classification text =
    mkIntent "task_update" (if has_task_id text then conf_0_8 else conf_0_6)
             (_extract_entities text "task_update").
Proof.
  intros H. unfold _fallback_intent_classification. rewrite H.
  destruct (has_task_id text); reflexivity.
Qed.

Lemma classify_with_update_keyword (env : Env) (text : string) (w : World) :
  has_update_keyword text = true ->
  classify_intent env text w = (Ok (_fallback_intent_classification text), w).
Proof. intros H. unfold classify_intent, catch, ret. now rewrite H. Qed.

(** Without update verb the external classifier is asked once; its reply is
    parsed, its failure falls back to the keyword rules. *)
Lemma classify_without_update_keyword (env : Env) (text : string) (w : World) :
  has_update_keyword text = false ->
  classify_intent env text w =
    (Ok match call_openai env (log w) text with
        | Ok response => _parse_intent_response response text
        | Raised _ => _fallback_intent_classification text
        end,
     emit (EvOpenAI text) w).
Proof.
  intros H. unfold classify_intent, catch, bind, ret, _call_openai. rewrite H.
  destruct (call_openai env (log w) text); reflexivity.
Qed.

(** [classify_intent] always returns an intent. *)
Lemma classify_total (env : Env) (text : string) (w : World) :
  exists i w', classify_intent env text w = (Ok i, w')
               /\ session w' = session w
               /\ conversation_history w' = conversation_history w.
Proof.
  destruct (has_update_keyword text) eqn:H.
  - rewrite classify_with_update_keyword by assumption. eauto.
  - rewrite classify_without_update_keyword by assumption. eexists _, _. eauto.
Qed.

End Classification.

(** ** The id test of the classifier, read on the text *)
Section HyphenatedIds.
Import Re.

Lemma append_assoc (a b c : string) : ((a ++ b) ++ c = a ++ (b ++ c))%string.
Proof. induction a as [|x a IH]; [reflexivity|]. cbn. now rewrite IH. Qed.

Lemma append_inv_head (a x y : string) : (a ++ x = a ++ y)%string -> x = y.
Proof. induction a as [|c a IH]; [auto|]. cbn. intros [= H]. auto. Qed.

Lemma eat_exact (l s s' : string) : eat false l s = Some s' <-> s = l ++ s'.
Proof.
  revert s. induction l as [|c l IH]; intros s; cbn [eat append].
  - destruct s; split; congruence.
  - destruct s as [|d s]; [split; discriminate|]. unfold char_eq.
    destruct (Ascii.eqb_spec c d) as [<- | Hn].
    + rewrite IH. split; [now intros -> | now intros [= ->]].
    + split; [discriminate | intros [= E _]; congruence].
Qed.

(** A repetition [\d+] matches exactly where a digit stands. *)
Lemma give_back_plus {A} (n : nat) (s : string) (k : string -> option A) :
  (forall x, k x <> None) -> (give_back n 1 s k <> None <-> n <> O).
Proof.
  intros Hk. destruct n as [|n]; cbn [give_back Nat.ltb Nat.leb].
  - split; congruence.
  - destruct (k (drop (S n) s)) eqn:E; [split; congruence|]. now apply Hk in E.
Qed.

Lemma give_back_needs_one {A} (n : nat) (s : string) (k : string -> option A) :
  give_back n 1 s k <> None -> n <> O.
Proof. destruct n; cbn [give_back Nat.ltb Nat.leb]; congruence. Qed.

Lemma run_starts_with_digit (s : string) :
  run false digit None s <> O <-> exists d post, s = String d post /\ Py.is_digit d = true.
Proof.
  destruct s as [|d post]; cbn [run in_class].
  - split; [congruence | intros (? & ? & [=] & _)].
  - unfold digit. destruct (Py.is_digit d) eqn:E.
    + split; [intros _; now exists d, post | discriminate].
    + split; [congruence | intros (? & ? & [= <- <-] & H); congruence].
Qed.

(** The plain pattern [<word>-\d+] at the head of a text. *)
Lemma match_plain (l s : string) :
  match_here false (Lit l · plus digit) s <> None
  <-> exists d post, s = l ++ String d post /\ Py.is_digit d = true.
Proof.
  unfold match_here, plus. cbn [m].
  destruct (eat false l s) as [s'|] eqn:E.
  - apply eat_exact in E. subst s. rewrite give_back_plus by discriminate.
    rewrite run_starts_with_digit. split.
    + intros (d & post & -> & Hd). now exists d, post.
    + intros (d & post & Hs & Hd). apply append_inv_head in Hs. now exists d, post.
  - split; [congruence|]. intros (d & post & -> & _).
    assert (H : eat false l (l ++ String d post) = Some (String d post))
      by now apply eat_exact.
    congruence.
Qed.

(** The bracketed pattern [\[<word>-\d+\]] needs the same digit. *)
Lemma match_bracketed (l s : string) :
  match_here false (Lit l · plus digit · Lit "]") s <> None ->
  exists d post, s = l ++ String d post /\ Py.is_digit d = true.
Proof.
  unfold match_here, plus. cbn [m].
  destruct (eat false l s) as [s'|] eqn:E; [|congruence].
  apply eat_exact in E. subst s. intros H. apply give_back_needs_one in H.
  apply run_starts_with_digit in H as (d & post & -> & Hd). now exists d, post.
Qed.

(** [re.search] finds a pattern where it matches at the head of a suffix. *)
Lemma found_iff (r : regex) (s : string) :
  found false r s = true
  <-> exists pre suf, s = pre ++ suf /\ match_here false r suf <> None.
Proof.
  unfold found. induction s as [|c s IH]; cbn [search].
  - destruct (match_here false r "") eqn:E.
    + split; [intros _; exists "", ""; split; [reflexivity | congruence] | reflexivity].
    + split; [discriminate|]. intros (pre & suf & Hs & Hm).
      destruct pre; [|discriminate]. cbn in Hs. subst suf. congruence.
  - destruct (match_here false r (String c s)) eqn:E.
    + split; [intros _; exists "", (String c s); split; [reflexivity | congruence]
             | reflexivity].
    + rewrite IH. split.
      * intros (pre & suf & -> & Hm). exists (String c pre), suf. now split.
      * intros (pre & suf & Hs & Hm). destruct pre as [|c' pre].
        -- cbn in Hs. subst suf. congruence.
        -- injection Hs as <- ->. now exists pre, suf.
Qed.

Lemma has_task_id_hyphenated (text : string) :
  Nlp.has_task_id text = true <-> hyphenated_id (Py.lower text).
Proof.
  unfold Nlp.has_task_id, hyphenated_id. rewrite existsb_exists. split.
  - intros (p & Hp & Hf). apply found_iff in Hf as (pre & suf & Hs & Hm).
    unfold Nlp.classifier_id_patterns, Nlp.type_words in Hp.
    apply in_app_or in Hp as [Hp | Hp]; apply in_map_iff in Hp as (t & <- & Ht).
    + apply match_plain in Hm as (d & post & -> & Hd).
      exists t, pre, d, post. rewrite append_assoc in Hs. auto.
    + apply match_bracketed in Hm as (d & post & -> & Hd).
      exists t, (pre ++ "["), d, post. split; [exact Ht|]. split; [|exact Hd].
      rewrite Hs, !append_assoc. reflexivity.
  - intros (t & pre & d & post & Ht & Hs & Hd).
    exists (Lit (t ++ "-") · plus digit)%re. split.
    + unfold Nlp.classifier_id_patterns, Nlp.type_words. apply in_or_app. left.
      apply in_map_iff. now exists t.
    + apply found_iff. exists pre, ((t ++ "-") ++ String d post). split.
      * now rewrite append_assoc.
      * apply match_plain. now exists d, post.
Qed.

End HyphenatedIds.

(** Counterexample to C2: a text with an update verb and a work-item id
    written with a space.  The extractor finds the id, the classifier's id
    test does not know this form, and the confidence is 0.6, not 0.8. *)
Lemma spaced_id_gets_low_confidence :
  exists intent,
    Nlp.classify_intent fickle_env "update task 73418, for original estimate to 13"
                        initial_world = (Ok intent, initial_world)
    /\ name intent = "task_update"
    /\ task_id (entities intent) = Some "73418"
    /\ confidence intent = Nlp.conf_0_6
    /\ ~ (confidence intent == 8 # 10)%Q.
Proof.
  eexists. split; [vm_compute; reflexivity|]. cbn [name entities confidence].
  repeat split. intros H. vm_compute in H. discriminate H.
Qed.

(** C2 — For every text with an update verb (update, modify, change, edit,
    set, in any case) [classify_intent] returns the intent [task_update] built
    by the rule-based [_fallback_intent_classification]; the world is left as
    it was, so the external classifier is not called; the confidence is 0.8
    when the lower-cased text holds one of the words task, story, bug, epic
    and requirement followed by a hyphen and a digit, and (the text being
    ASCII, so that the digits of Python are those of the embedding) 0.6 when
    it does not, whatever other form of id the text may carry. *)
Theorem update_keyword_routes_to_task_update :
  forall (env : Env) (text : string) (w : World),
    Py.any_in ["update"; "modify"; "change"; "edit"; "set"] (Py.lower text) = true ->
    exists intent,
      Nlp.classify_intent env text w = (Ok intent, w)
      /\ intent = Nlp._fallback_intent_classification text
      /\ name intent = "task_update"
      /\ entities intent = Nlp._extract_entities text "task_update"
      /\ (hyphenated_id (Py.lower text) -> (confidence intent == 8 # 10)%Q)
      /\ (Py.is_ascii text = true -> ~ hyphenated_id (Py.lower text) ->
          (confidence intent == 6 # 10)%Q)
      /\ Py.any_in ["update"; "modify"; "change"; "edit"; "set"]
                   (Py.lower (Py.upper text)) = true.
Proof.
  intros env text w H.
  change (Nlp.has_update_keyword text = true) in H.
  eexists. split; [now apply classify_with_update_keyword|].
  split; [reflexivity|]. rewrite fallback_with_update_keyword by assumption.
  cbn [name entities confidence]. repeat split.
  - intros Hh. apply has_task_id_hyphenated in Hh. rewrite Hh. reflexivity.
  - intros _ Hn. destruct (Nlp.has_task_id text) eqn:E; [|reflexivity].
    apply has_task_id_hyphenated in E. contradiction.
  - change (Nlp.has_update_keyword (Py.upper text) = true).
    now rewrite (proj1 (has_update_keyword_case text)).
Qed.

(** Witness of C2: one text with a hyphenated work-item id, one without id,
    in a world that has no session and an environment whose classifier would
    answer. *)
Lemma update_keyword_routes_to_task_update_witness :
  (exists intent,
      Nlp.classify_intent fickle_env "Update TASK-12345 Status -> Active" initial_world
        = (Ok intent, initial_world)
      /\ name intent = "task_update" /\ (confidence intent == 8 # 10)%Q)
  /\ (exists intent,
        Nlp.classify_intent fickle_env "please MODIFY everything" initial_world
          = (Ok intent, initial_world)
        /\ name intent = "task_update" /\ (confidence intent == 6 # 10)%Q).
Proof.
  split.
  - destruct (update_keyword_routes_to_task_update
                fickle_env "Update TASK-12345 Status -> Active" initial_world eq_refl)
      as (i & Hc & _ & Hn & _ & H8 & _).
    exists i. repeat split; [exact Hc | exact Hn |].
    apply H8. exists "task", "update ", "1"%char, "2345 status -> active".
    repeat split. cbn. tauto.
  - destruct (update_keyword_routes_to_task_update
                fickle_env "please MODIFY everything" initial_world eq_refl)
      as (i & Hc & Hi & Hn & _ & _ & H6 & _).
    exists i. repeat split; [exact Hc | exact Hn |].
    subst i. vm_compute. reflexivity.
Defined.

(** The id test of the classifier knows the hyphenated and bracketed forms
    only: an id written with a space is extracted, at confidence 0.6. *)
Example space_separated_id_confidence :
  let intent := Nlp._fallback_intent_classification "update task 73418, for original estimate to 13" in
  name intent = "task_update"
  /\ confidence intent = Nlp.conf_0_6
  /\ task_id (entities intent) = Some "73418".
Proof. vm_compute. repeat split. Qed.

(** C9 (as stated) fails — without update verb the intent is read from the
    reply of the external classifier: when the reply changes between two
    calls, the same text is classified differently. *)
Lemma classification_follows_external_reply :
  exists i1 i2 w',
    classify_twice fickle_env "good morning" initial_world = (Ok (i1, i2), w')
    /\ name i1 = "timesheet" /\ name i2 = "summary" /\ i1 <> i2.
Proof.
  eexists _, _, _. split; [vm_compute; reflexivity|].
  split; [reflexivity|]. split; [reflexivity|]. discriminate.
Qed.

(** C9 (amended) — Classifying the same text twice in a row yields the same
    [Intent] (name, confidence and entities) whenever the text contains an
    update verb, or the external classifier gives the same reply (or fails)
    both times; both calls return an intent, and they change nothing of the
    agent's state but the record of the calls made to the classifier. *)
Theorem classification_idempotent :
  forall (env : Env) (text : string) (w : World),
    Nlp.has_update_keyword text = true
    \/ call_openai env (log w) text
       = call_openai env (log (emit (EvOpenAI text) w)) text ->
    exists i w',
      classify_twice env text w = (Ok (i, i), w')
      /\ session w' = session w
      /\ conversation_history w' = conversation_history w
      /\ (Nlp.has_update_keyword text = true -> w' = w).
Proof.
  intros env text w H. unfold classify_twice, bind, ret.
  destruct (Nlp.has_update_keyword text) eqn:Hk.
  - rewrite !classify_with_update_keyword by assumption. eauto 6.
  - destruct H as [H|H]; [discriminate|].
    rewrite !classify_without_update_keyword by assumption. rewrite <- H.
    eexists _, _. repeat split. discriminate.
Qed.

(** Witness of C9 (amended): an update text under the fickle classifier, and
    a text without update verb when the classifier is not configured. *)
Lemma classification_idempotent_witness :
  (exists i, classify_twice fickle_env "update all" initial_world = (Ok (i, i), initial_world))
  /\ (exists i w', classify_twice (stub_env (fun _ => false)) "Fill my timesheet" initial_world
                   = (Ok (i, i), w') /\ name i = "timesheet").
Proof.
  split.
  - destruct (classification_idempotent fickle_env "update all" initial_world
                                        (or_introl eq_refl))
      as (i & w' & Hc & _ & _ & Hw).
    exists i. rewrite Hc, (Hw eq_refl). reflexivity.
  - destruct (classification_idempotent (stub_env (fun _ => false)) "Fill my timesheet"
                                        initial_world (or_intror eq_refl))
      as (i & w' & Hc & _).
    exists i, w'. split; [exact Hc|].
    assert (E : fst (classify_twice (stub_env (fun _ => false)) "Fill my timesheet"
                                    initial_world)
                = Ok (Nlp._fallback_intent_classification "Fill my timesheet",
                      Nlp._fallback_intent_classification "Fill my timesheet"))
      by (vm_compute; reflexivity).
    rewrite Hc in E. cbn [fst] in E. injection E as E _. rewrite E. reflexivity.
Defined.

(** ** The orchestrator: no exception leaves a stage *)
Section Orchestrator.
Import Orch.

Lemma update_calls_emit (e : Event) (w : World) :
  update_calls (log (emit e w)) = (update_calls (log w) ++ (if is_update e then [e] else []))%list.
Proof. unfold update_calls, emit. cbn [log]. rewrite filter_app. reflexivity. Qed.

Lemma patch_calls_emit (e : Event) (w : World) :
  patch_calls (log (emit e w)) = (patch_calls (log w) ++ (if is_patch e then [e] else []))%list.
Proof. unfold patch_calls, emit. cbn [log]. rewrite filter_app. reflexivity. Qed.

Lemma catch_total {A} (c : M A) (h : string -> M A) (w : World) :
  (forall e w0, exists a w1, h e w0 = (Ok a, w1)) ->
  exists a w', catch c h w = (Ok a, w').
Proof.
  intros Hh. unfold catch. destruct (c w) as [[a|e] w0]; [eauto | apply Hh].
Qed.

Lemma nlp_process_query_total (env : Env) (text : string) (w : World) :
  exists nlp w', Nlp.process_query env text w = (Ok nlp, w')
                 /\ Nlp.original_input nlp = text.
Proof.
  unfold Nlp.process_query, bind, ret.
  destruct (classify_total env text w) as (i & w' & -> & _). eauto.
Qed.

Lemma execute_azure_devops_total (env : Env) (intent : string) (ents : Entities) (w : World) :
  exists r w', _execute_azure_devops env intent ents w = (Ok r, w').
Proof. apply catch_total. intros e w0. unfold ret. eauto. Qed.

Lemma execute_tool_total (env : Env) (tool : string) (nlp : Nlp.NlpResult) (w : World) :
  exists r w', _execute_tool env tool nlp w = (Ok r, w').
Proof. apply catch_total. intros e w0. unfold ret. eauto. Qed.

Lemma process_query_stages (env : Env) (text : string) (w w0 w1 : World)
      (nlp : Nlp.NlpResult) (r : ToolResult) :
  Nlp.process_query env text w = (Ok nlp, w0) ->
  _execute_tool env (_select_tool nlp) nlp w0 = (Ok r, w1) ->
  exists w2,
    process_query env text w
      = (Ok (envelope_of (_select_tool nlp) nlp (_generate_response nlp r)), w2)
    /\ log w2 = log w1 /\ session w2 = session w1.
Proof.
  intros Hn Ht. unfold process_query, catch, bind. rewrite Hn, Ht.
  unfold _update_conversation_history, ret. eexists. split; [reflexivity|].
  split; reflexivity.
Qed.

(** [process_query] returns an envelope for every text, in every
    environment and state; the envelope always says [success = true]. *)
Lemma process_query_total (env : Env) (text : string) (w : World) :
  exists e w', process_query env text w = (Ok e, w') /\ env_success e = true.
Proof.
  destruct (nlp_process_query_total env text w) as (nlp & w0 & Hn & _).
  destruct (execute_tool_total env (_select_tool nlp) nlp w0) as (r & w1 & Ht).
  destruct (process_query_stages _ _ _ _ _ _ _ Hn Ht) as (w2 & -> & _).
  eauto.
Qed.

End Orchestrator.

(** ** The safety gate *)
Section Gate.
Import Orch.

Lemma gate_rejects (env : Env) (ents : Entities) (w : World) :
  no_work_item_id ents ->
  task_update_branch env ents w = (Ok (fail (gate_message ents)), w).
Proof.
  intros [Hid Hb]. unfold task_update_branch, gate_message.
  destruct (batch_update_error ents); [reflexivity|].
  destruct (batch_updates ents) as [[|u us]|]; try (now rewrite Hid).
  now destruct (Hb u us).
Qed.

(** What [ensure_session] leaves behind: at most the event of the set-up. *)
Lemma ensure_session_calls (env : Env) (w : World) :
  exists early w',
    ensure_session env w = (Ok early, w')
    /\ update_calls (log w') = update_calls (log w)
    /\ patch_calls (log w') = patch_calls (log w)
    /\ (forall r, early = Some r -> success r = false)
    /\ (session w = true \/ setup env (log w) = SetupDone -> early = None)
    /\ (early = None -> session w' = true).
Proof.
  unfold ensure_session. destruct (session w) eqn:Hs.
  - exists None, w. repeat split; auto; discriminate.
  - destruct (setup env (log w)) eqn:Hsetup; eexists _, _; (split; [reflexivity|]);
      cbn [log]; rewrite ?update_calls_emit, ?patch_calls_emit; cbn [is_update is_patch];
      rewrite ?app_nil_r; repeat split; auto;
      try (intros r [= <-]; reflexivity); try discriminate;
      intros [H|H]; discriminate.
Qed.

(** The tool result of [_execute_azure_devops] for an update without id. *)
Lemma azure_rejects_without_id (env : Env) (ents : Entities) (w : World) :
  no_work_item_id ents ->
  exists r w',
    _execute_azure_devops env "task_update" ents w = (Ok r, w')
    /\ success r = false
    /\ (backend_ready env w -> message r = gate_message ents)
    /\ update_calls (log w') = update_calls (log w)
    /\ patch_calls (log w') = patch_calls (log w).
Proof.
  intros Hno. unfold _execute_azure_devops, catch, bind.
  destruct (tool_available env) eqn:Ha; cbn [negb].
  - destruct (ensure_session_calls env w) as (early & w1 & -> & Hu & Hp & Hf & Hr & _).
    destruct early as [r|].
    + exists r, w1. unfold ret. repeat split; auto.
      intros [_ Hready]. now specialize (Hr Hready).
    + change (String.eqb "task_update" "tasks") with false.
      change (String.eqb "task_update" "pull_requests") with false.
      change (String.eqb "task_update" "task_update") with true. cbv iota.
      rewrite (gate_rejects env ents w1 Hno).
      eexists _, _. repeat split; auto.
  - exists (fail not_available_message), w. unfold ret. repeat split; auto.
    intros [Hav _]. congruence.
Qed.

(** The same result, with its message in each state of the tool. *)
Lemma azure_gate_message (env : Env) (ents : Entities) (w : World) :
  no_work_item_id ents ->
  exists r w',
    _execute_azure_devops env "task_update" ents w = (Ok r, w')
    /\ success r = false
    /\ (backend_ready env w -> message r = gate_message ents)
    /\ (tool_available env = false -> message r = not_available_message)
    /\ (tool_available env = true -> session w = false ->
        forall notice, setup env (log w) = SetupValueError notice -> message r = notice)
    /\ update_calls (log w') = update_calls (log w)
    /\ patch_calls (log w') = patch_calls (log w).
Proof.
  intros Hno. unfold _execute_azure_devops, catch, bind, ensure_session.
  assert (Hgate : forall w0,
             (if String.eqb "task_update" "tasks" then tasks_branch env ents
              else if String.eqb "task_update" "pull_requests"
                   then pull_requests_branch env ents
                   else if String.eqb "task_update" "task_update"
                        then task_update_branch env ents
                        else ret (fail ("I don't know how to handle '" ++ "task_update"
                                          ++ "' with Azure DevOps."))) w0
             = (Ok (fail (gate_message ents)), w0)).
  { intros w0. change (String.eqb "task_update" "tasks") with false.
    change (String.eqb "task_update" "pull_requests") with false.
    change (String.eqb "task_update" "task_update") with true. cbv iota.
    exact (gate_rejects env ents w0 Hno). }
  destruct (tool_available env) eqn:Ha; cbn [negb].
  - destruct (session w) eqn:Hs.
    + rewrite Hgate. eexists _, _. split; [reflexivity|]. cbn [fail success message].
      split; [reflexivity|]. split; [reflexivity|]. split; [discriminate|].
      split; [discriminate|]. split; reflexivity.
    + destruct (setup env (log w)) eqn:Hsetup.
      * rewrite Hgate. eexists _, _. split; [reflexivity|]. cbn [fail success message log].
        rewrite update_calls_emit, patch_calls_emit. cbn [is_update is_patch].
        rewrite !app_nil_r.
        split; [reflexivity|]. split; [reflexivity|]. split; [discriminate|].
        split; [discriminate|]. split; reflexivity.
      * eexists _, _. unfold ret. split; [reflexivity|]. cbn [fail success message].
        rewrite update_calls_emit, patch_calls_emit. cbn [is_update is_patch].
        rewrite !app_nil_r.
        split; [reflexivity|]. split; [intros [_ [H|H]]; congruence|].
        split; [discriminate|].
        split; [intros _ _ notice [= <-]; reflexivity|]. split; reflexivity.
      * eexists _, _. unfold ret. split; [reflexivity|]. cbn [fail success message].
        rewrite update_calls_emit, patch_calls_emit. cbn [is_update is_patch].
        rewrite !app_nil_r.
        split; [reflexivity|]. split; [intros [_ [H|H]]; congruence|].
        split; [discriminate|]. split; [discriminate|]. split; reflexivity.
  - exists (fail not_available_message), w. unfold ret. split; [reflexivity|].
    cbn [fail success message].
    split; [reflexivity|]. split; [intros [Hav _]; congruence|].
    split; [reflexivity|]. split; [discriminate|]. split; reflexivity.
Qed.

Lemma select_tool_task_update (nlp : Nlp.NlpResult) :
  Nlp.nlp_intent nlp = "task_update" -> _select_tool nlp = "azure_devops".
Proof. intros H. unfold _select_tool. rewrite H. reflexivity. Qed.

Lemma execute_tool_azure (env : Env) (nlp : Nlp.NlpResult) (w : World) :
  _execute_tool env "azure_devops" nlp w
  = _execute_azure_devops env (Nlp.nlp_intent nlp) (Nlp.nlp_entities nlp) w.
Proof.
  unfold _execute_tool, catch.
  change (String.eqb "azure_devops" "azure_devops") with true. cbv iota.
  destruct (execute_azure_devops_total env (Nlp.nlp_intent nlp) (Nlp.nlp_entities nlp) w)
    as (r & w' & ->). reflexivity.
Qed.

(** The NLP stage for a text with an update verb. *)
Lemma nlp_process_update (env : Env) (text : string) (w : World) :
  Nlp.has_update_keyword text = true ->
  exists conf,
    Nlp.process_query env text w
    = (Ok (Nlp.mkNlpResult "task_update" conf (Nlp._extract_entities text "task_update")
                           text true), w).
Proof.
  intros H. unfold Nlp.process_query, bind, ret.
  rewrite classify_with_update_keyword, fallback_with_update_keyword by assumption.
  eexists. reflexivity.
Qed.

(** [process_query] for a text with an update verb, from the tool result of
    [_execute_azure_devops]. *)
Lemma process_query_update (env : Env) (text : string) (w w1 : World) (r : ToolResult) :
  Nlp.has_update_keyword text = true ->
  _execute_azure_devops env "task_update" (Nlp._extract_entities text "task_update") w
    = (Ok r, w1) ->
  exists e w2,
    process_query env text w = (Ok e, w2)
    /\ env_response e = (if success r then message r else apology_prefix ++ message r)
    /\ env_intent e = Some "task_update"
    /\ env_tool_used e = Some "azure_devops"
    /\ env_entities e = Some (Nlp._extract_entities text "task_update")
    /\ env_success e = true
    /\ log w2 = log w1.
Proof.
  intros Hk Hr. destruct (nlp_process_update env text w Hk) as (conf & Hn).
  assert (Hsel : _select_tool
                   (Nlp.mkNlpResult "task_update" conf
                      (Nlp._extract_entities text "task_update") text true)
                 = "azure_devops") by reflexivity.
  destruct (process_query_stages env text w w w1 _ r Hn) as (w2 & Hq & Hl & _).
  - rewrite Hsel, execute_tool_azure. exact Hr.
  - rewrite Hsel in Hq. eexists _, _. split; [exact Hq|].
    unfold envelope_of, _generate_response. cbn.
    destruct (success r); repeat split; auto.
Qed.

End Gate.

(** Counterexample to C1: "update all" asked to an agent whose Azure DevOps
    tool has no configuration.  The query is rejected and nothing is
    dispatched, but the answer is the configuration notice of the tool, which
    does not ask for a work-item id. *)
Lemma unconfigured_backend_answers_with_notice :
  exists e w',
    Orch.process_query unconfigured_env "update all" initial_world = (Ok e, w')
    /\ Orch.env_response e
       = Orch.apology_prefix
           ++ AdoConn.configuration_required_message
                ["AZURE_DEVOPS_TOKEN"; "AZURE_DEVOPS_ORGANIZATION"; "AZURE_DEVOPS_PROJECT"]
    /\ Orch.env_response e <> Orch.apology_prefix ++ Orch.missing_id_message
    /\ Py.contains "Work Item ID" (Orch.env_response e) = false
    /\ update_calls (log w') = [].
Proof.
  eexists _, _. split; [vm_compute; reflexivity|].
  cbn [Orch.env_response]. split; [reflexivity|]. split; [|split; vm_compute; reflexivity].
  intros H. apply (f_equal (String.get 60)) in H. vm_compute in H. discriminate H.
Qed.

(** C1 — A query with an update verb and without work-item id is rejected
    and nothing is dispatched.  For every classified query of intent
    [task_update] whose entities hold no work-item id (no single id and no
    batch item), the tool selected is run without any call of
    [update_work_item] and without PATCH, and the response generated from its
    result is the apology followed by its message: the instruction to supply
    a work-item id when the Azure DevOps tool is usable (for a malformed batch
    the instruction to give valid task ids), the notice of the tool when it
    is absent.  For every ASCII text with an update verb in which the
    extractor finds no work-item id, [process_query] answers with intent
    [task_update] and this response (the notice of the set-up when the tool
    has no configuration), and between its start and its end no
    [update_work_item] call and no PATCH is made. *)
Theorem update_without_id_is_rejected :
  (forall (env : Env) (nlp : Nlp.NlpResult) (w : World),
      Nlp.nlp_intent nlp = "task_update" ->
      no_work_item_id (Nlp.nlp_entities nlp) ->
      exists r w1,
        Orch._execute_tool env (Orch._select_tool nlp) nlp w = (Ok r, w1)
        /\ Orch._generate_response nlp r = Orch.apology_prefix ++ Orch.message r
        /\ (backend_ready env w -> Orch.message r = gate_message (Nlp.nlp_entities nlp))
        /\ (tool_available env = false -> Orch.message r = Orch.not_available_message)
        /\ update_calls (log w1) = update_calls (log w)
        /\ patch_calls (log w1) = patch_calls (log w))
  /\ (forall (env : Env) (text : string) (w : World),
        Py.is_ascii text = true ->
        Py.any_in ["update"; "modify"; "change"; "edit"; "set"] (Py.lower text) = true ->
        no_work_item_id (Nlp._extract_entities text "task_update") ->
        exists e w2 msg,
          Orch.process_query env text w = (Ok e, w2)
          /\ Orch.env_intent e = Some "task_update"
          /\ Orch.env_tool_used e = Some "azure_devops"
          /\ Orch.env_response e = Orch.apology_prefix ++ msg
          /\ (backend_ready env w ->
              msg = gate_message (Nlp._extract_entities text "task_update"))
          /\ (tool_available env = false -> msg = Orch.not_available_message)
          /\ (tool_available env = true -> session w = false ->
              forall notice, setup env (log w) = SetupValueError notice -> msg = notice)
          /\ update_calls (log w2) = update_calls (log w)
          /\ patch_calls (log w2) = patch_calls (log w))
  /\ (forall ents,
        gate_message ents
        = (if batch_update_error ents then Orch.invalid_batch_format_message
           else Orch.missing_id_message))
  /\ Py.contains "Please provide the missing Work Item ID!" Orch.missing_id_message = true
  /\ Py.contains "Please ensure all tasks have valid ID numbers"
                 Orch.invalid_batch_format_message = true.
Proof.
  split; [|split; [|split; [|split]]].
  - intros env nlp w Hi Hno.
    destruct (azure_gate_message env _ w Hno) as (r & w1 & Hr & Hs & Hm & Hna & _ & Hu & Hp).
    exists r, w1. rewrite (select_tool_task_update nlp Hi), execute_tool_azure, Hi.
    split; [exact Hr|]. unfold Orch._generate_response. rewrite Hs. repeat split; auto.
  - intros env text w _ Hk Hno.
    change (Nlp.has_update_keyword text = true) in Hk.
    destruct (azure_gate_message env _ w Hno) as (r & w1 & Hr & Hs & Hm & Hna & Hsu & Hu & Hp).
    destruct (process_query_update env text w w1 r Hk Hr)
      as (e & w2 & Hq & Hresp & Hi & Ht & _ & _ & Hl).
    exists e, w2, (Orch.message r). rewrite Hs in Hresp. rewrite Hl. repeat split; auto.
  - reflexivity.
  - vm_compute. reflexivity.
  - vm_compute. reflexivity.
Qed.

(** Witness of C1: the three phrases of the claim, on a fresh agent with a
    configured backend.  Each is answered with the missing-id instructions
    and leaves no [update_work_item] call behind. *)
Lemma update_without_id_is_rejected_witness :
  Forall (fun text =>
            exists e w2,
              Orch.process_query (stub_env (fun _ => false)) text initial_world
              = (Ok e, w2)
              /\ Orch.env_response e = Orch.apology_prefix ++ Orch.missing_id_message
              /\ update_calls (log w2) = [])
         ["update all"; "update my tasks"; "update everything";
          "Update TASK Status -> Active"].
Proof.
  repeat constructor;
    match goal with
    | |- exists e w2, Orch.process_query ?env ?text ?w = _ /\ _ =>
        destruct (proj1 (proj2 update_without_id_is_rejected) env text w eq_refl eq_refl)
          as (e & w2 & msg & Hq & _ & _ & Hresp & Hm & _ & _ & Hu & _);
        [ split; [vm_compute; reflexivity | intros u us; vm_compute; discriminate]
        | exists e, w2;
          assert (Hmsg : msg = Orch.missing_id_message)
            by (rewrite Hm; [reflexivity | split; [reflexivity | right; reflexivity]]);
          rewrite Hmsg in Hresp; repeat split; assumption ]
    end.
Defined.

(** C8 — at the failing input.  A fresh agent with a configured backend is
    asked "update all": the safety gate rejects the query, no exception leaves
    [process_query] and the response is the apology followed by the missing-id
    instructions, yet the envelope says [success = true]; the claim asks for
    [success = false] on every rejection path. *)
Theorem rejection_envelope_reports_success :
  exists e w',
    Orch.process_query (stub_env (fun _ => false)) "update all" initial_world = (Ok e, w')
    /\ Orch.env_success e = true
    /\ Orch.env_error e = None
    /\ Orch.env_response e = Orch.apology_prefix ++ Orch.missing_id_message
    /\ update_calls (log w') = [].
Proof.
  eexists _, _. split; [vm_compute; reflexivity|]. repeat split.
Qed.

(** The same holds for a backend failure on a well-formed single update. *)
Example backend_failure_envelope_reports_success :
  exists e w',
    Orch.process_query (stub_env (fun _ => true)) "Update TASK-7 Status -> Active"
                       initial_world = (Ok e, w')
    /\ Orch.env_success e = true
    /\ Orch.env_response e
       = Orch.apology_prefix
           ++ "Failed to update task 7: Work item update failed: 400 - Bad Request".
Proof.
  eexists _, _. split; [vm_compute; reflexivity|]. repeat split.
Qed.

(** ** Batch extraction *)
Section Batch.
Import Nlp.

Lemma prefix_app_l (a b s : string) :
  String.prefix (a ++ b) s = true -> String.prefix a s = true.
Proof.
  revert s. induction a as [|c a IH]; intros s; [now destruct s|].
  destruct s as [|d s]; simpl; [discriminate|].
  destruct (ascii_dec c d); [apply IH | discriminate].
Qed.

Lemma eat_exact_prefix (l s r : string) :
  Re.eat false l s = Some r -> String.prefix l s = true.
Proof.
  revert s. induction l as [|c l IH]; intros s; [now destruct s|].
  destruct s as [|d s]; simpl; [discriminate|].
  unfold Re.char_eq. destruct (Ascii.eqb c d) eqn:E; [|discriminate].
  apply Ascii.eqb_eq in E. subst d. intros H.
  destruct (ascii_dec c c); [now apply IH | congruence].
Qed.

(** A literal found by [re.search] is a substring. *)
Lemma found_lit_contains (a b s : string) :
  Re.found false (Re.Lit (a ++ b)) s = true -> Py.contains a s = true.
Proof.
  unfold Re.found. induction s as [|c s IH].
  - cbn [Re.search Re.match_here Re.m].
    destruct (Re.eat false (a ++ b) "") eqn:E; [|discriminate].
    intros _. apply eat_exact_prefix, prefix_app_l in E.
    cbn [Py.contains]. now rewrite E.
  - cbn [Re.search Re.match_here Re.m].
    destruct (Re.eat false (a ++ b) (String c s)) eqn:E.
    + intros _. apply eat_exact_prefix, prefix_app_l in E.
      cbn [Py.contains]. now rewrite E.
    + intros H. cbn [Py.contains]. rewrite (IH H). apply orb_true_r.
Qed.

(** The header of a batch contains the verb "update". *)
Lemma batch_header_has_update_keyword (text : string) :
  Re.found false batch_update_pattern (Py.lower text) = true ->
  has_update_keyword text = true.
Proof.
  intros H. unfold has_update_keyword, Py.any_in, update_keywords.
  cbn [existsb].
  rewrite (found_lit_contains "update" " following individual tasks:" _ H).
  reflexivity.
Qed.

Lemma batch_line_invalid (i : nat) (raw : string) :
  invalid_line raw -> exists entry, batch_line i raw = Invalid entry.
Proof.
  intros [Ht H]. unfold batch_line. rewrite Ht. cbn [negb].
  destruct H as [H | [(tid & H & Hd) | H]].
  - rewrite H. eauto.
  - rewrite H, Hd. cbn [negb]. eauto.
  - destruct (Re.search_group true batch_task_pattern (Py.strip raw)) as [tid|]; [|eauto].
    destruct (negb (Py.isdigit tid)); [eauto|]. rewrite H. eauto.
Qed.

Lemma batch_loop_keeps_invalid (lines : list string) :
  forall i ups inv, inv <> [] -> snd (batch_loop i lines ups inv) <> [].
Proof.
  induction lines as [|raw more IH]; intros i ups inv Hinv; [exact Hinv|].
  cbn [batch_loop]. destruct (batch_line i raw); apply IH; auto.
  destruct inv; [congruence | discriminate].
Qed.

Lemma batch_loop_invalid (lines : list string) :
  forall i ups inv,
    (exists raw, In raw lines /\ invalid_line raw) ->
    snd (batch_loop i lines ups inv) <> [].
Proof.
  induction lines as [|raw more IH]; intros i ups inv (bad & Hin & Hbad);
    [destruct Hin|].
  cbn [batch_loop]. destruct Hin as [<- | Hin].
  - destruct (batch_line_invalid i raw Hbad) as (entry & ->).
    apply batch_loop_keeps_invalid. destruct inv; discriminate.
  - destruct (batch_line i raw); apply IH; eauto.
Qed.

(** One invalid line makes the extractor return [None]. *)
Lemma extract_batch_invalid (text : string) :
  (exists raw, In raw (tl (Py.split Py.newline text)) /\ invalid_line raw) ->
  _extract_batch_updates text = None.
Proof.
  intros H. unfold _extract_batch_updates.
  pose proof (batch_loop_invalid _ 1%nat [] [] H) as Hne.
  destruct (batch_loop 1 (tl (Py.split Py.newline text)) [] []) as [ups inv].
  cbn [snd] in Hne. destruct inv; [congruence | reflexivity].
Qed.

(** The fields read from a line are among start date, finish date, status. *)
Lemma batch_line_fields_keys (line : string) (k : option string) (v : PyVal) :
  In (k, v) (batch_line_fields line) -> batch_key k.
Proof.
  unfold batch_line_fields, batch_key.
  destruct (Re.search_group true batch_start_date_pattern line);
    destruct (Re.search_group true batch_finish_date_pattern line);
    destruct (Re.search_group true batch_status_pattern line);
    cbn; intros H; repeat (destruct H as [H | H]; [injection H as <- _; auto|]);
    destruct H.
Qed.

(** A line with a numeric id and a recognized field gives an update that
    carries exactly the recognized fields. *)
Lemma batch_line_update (i : nat) (raw tid : string) :
  Py.truthy (Py.strip raw) = true ->
  Re.search_group true batch_task_pattern (Py.strip raw) = Some tid ->
  Py.isdigit tid = true ->
  batch_line_fields (Py.strip raw) <> [] ->
  batch_line i raw = Update (mkBatchUpdate tid (batch_line_fields (Py.strip raw))).
Proof.
  intros Ht Hs Hd Hf. unfold batch_line. rewrite Ht, Hs, Hd. cbn [negb].
  destruct (batch_line_fields (Py.strip raw)); [congruence | reflexivity].
Qed.

Lemma batch_line_update_well_formed (i : nat) (raw : string) (u : BatchUpdate) :
  batch_line i raw = Update u -> well_formed_update u.
Proof.
  unfold batch_line. destruct (negb (Py.truthy (Py.strip raw))); [discriminate|].
  destruct (Re.search_group true batch_task_pattern (Py.strip raw)) as [tid|];
    [|discriminate].
  destruct (Py.isdigit tid) eqn:Hd; cbn [negb]; [|discriminate].
  destruct (batch_line_fields (Py.strip raw)) as [|f fs] eqn:Hf; [discriminate|].
  intros [= <-]. repeat split; cbn; [exact Hd | discriminate |].
  intros k v Hin. apply (batch_line_fields_keys (Py.strip raw) k v). now rewrite Hf.
Qed.

(** Every update collected by the loop is well formed. *)
Lemma batch_loop_well_formed (lines : list string) :
  forall i ups inv,
    Forall well_formed_update ups ->
    Forall well_formed_update (fst (batch_loop i lines ups inv)).
Proof.
  induction lines as [|raw more IH]; intros i ups inv Hups; [exact Hups|].
  cbn [batch_loop]. destruct (batch_line i raw) eqn:E; apply IH; auto.
  apply Forall_app. split; [exact Hups|]. constructor; [|constructor].
  now apply (batch_line_update_well_formed i raw).
Qed.

Lemma extract_batch_well_formed (text : string) (batch : list BatchUpdate) :
  _extract_batch_updates text = Some batch -> Forall well_formed_update batch.
Proof.
  unfold _extract_batch_updates.
  pose proof (batch_loop_well_formed (tl (Py.split Py.newline text)) 1%nat [] []
                                     (Forall_nil _)) as H.
  destruct (batch_loop 1 (tl (Py.split Py.newline text)) [] []) as [ups inv].
  destruct inv; [|discriminate]. now intros [= <-].
Qed.

(** The entity bag of a batch text whose extraction failed. *)
Lemma extract_entities_batch_error (text intent : string) :
  Re.found false batch_update_pattern (Py.lower text) = true ->
  _extract_batch_updates text = None ->
  batch_update_error (_extract_entities text intent) = true
  /\ batch_updates (_extract_entities text intent) = None
  /\ task_id (_extract_entities text intent) = None.
Proof.
  intros Hh Hn. unfold _extract_entities. rewrite Hh, Hn. repeat split.
Qed.

End Batch.

(** C3 (as stated) fails — on a line with a valid task-id prefix an
    unrecognized field is not simply ignored: when the line carries no
    recognized field update it is recorded as invalid and the whole batch is
    rejected. *)
Lemma unrecognized_field_invalidates_line :
  Re.search_group true Nlp.batch_task_pattern "TASK 51311 -> Priority -> 2" = Some "51311"
  /\ Py.isdigit "51311" = true
  /\ Nlp.batch_line 1 "TASK 51311 -> Priority -> 2"
     = Nlp.Invalid
         "Line 1: No valid field updates found in 'TASK 51311 -> Priority -> 2'"
  /\ Nlp._extract_batch_updates
       ("Update following individual tasks:" ++ Py.nl ++ "TASK 51311 -> Priority -> 2")
     = None
  /\ batch_update_error
       (Nlp._extract_entities
          ("Update following individual tasks:" ++ Py.nl ++ "TASK 51311 -> Priority -> 2")
          "task_update") = true.
Proof. vm_compute. repeat split. Qed.

(** C3 (amended) — For every ASCII text with the batch header ("update
    following individual tasks:"), if some non-blank line after the first
    fails the pattern [task\s+(\d+)\s*->], or captures a non-numeric id, or
    carries no recognized field update, the extractor returns the batch-error
    signal ([None], flag [batch_update_error]) instead of a partial list, and
    the whole batch is rejected: [process_query] answers with the apology
    followed by the batch-format instructions (by the notice of the Azure
    DevOps tool when the tool is absent or has no configuration), and no
    [update_work_item] call or PATCH is made.  A line with a numeric id and at
    least one recognized field update gives one update made of its recognized
    fields (start date, finish date, status) only: what else is written on
    the line is ignored. *)
Theorem malformed_batch_is_rejected :
  (forall (env : Env) (text : string) (w : World),
      Py.is_ascii text = true ->
      Re.found false Nlp.batch_update_pattern (Py.lower text) = true ->
      (exists raw, In raw (tl (Py.split Py.newline text)) /\ invalid_line raw) ->
      Nlp._extract_batch_updates text = None
      /\ batch_update_error (Nlp._extract_entities text "task_update") = true
      /\ batch_updates (Nlp._extract_entities text "task_update") = None
      /\ exists e w2 msg,
          Orch.process_query env text w = (Ok e, w2)
          /\ Orch.env_intent e = Some "task_update"
          /\ Orch.env_response e = Orch.apology_prefix ++ msg
          /\ (backend_ready env w -> msg = Orch.invalid_batch_format_message)
          /\ (tool_available env = false -> msg = Orch.not_available_message)
          /\ (tool_available env = true -> session w = false ->
              forall notice, setup env (log w) = SetupValueError notice -> msg = notice)
          /\ update_calls (log w2) = update_calls (log w)
          /\ patch_calls (log w2) = patch_calls (log w))
  /\ (forall (i : nat) (raw tid : string),
         Py.is_ascii raw = true ->
         Py.truthy (Py.strip raw) = true ->
         Re.search_group true Nlp.batch_task_pattern (Py.strip raw) = Some tid ->
         Py.isdigit tid = true ->
         Nlp.batch_line_fields (Py.strip raw) <> [] ->
         Nlp.batch_line i raw
         = Nlp.Update (mkBatchUpdate tid (Nlp.batch_line_fields (Py.strip raw)))
         /\ (forall k v, In (k, v) (Nlp.batch_line_fields (Py.strip raw)) -> batch_key k)).
Proof.
  split.
  - intros env text w _ Hh Hbad.
    pose proof (extract_batch_invalid text Hbad) as Hnone.
    destruct (extract_entities_batch_error text "task_update" Hh Hnone) as (He & Hb & Hid).
    split; [exact Hnone|]. split; [exact He|]. split; [exact Hb|].
    assert (Hno : no_work_item_id (Nlp._extract_entities text "task_update")).
    { split; [exact Hid|]. intros u us. rewrite Hb. discriminate. }
    destruct (azure_gate_message env _ w Hno)
      as (r & w1 & Hr & Hs & Hm & Hna & Hsu & Hu & Hp).
    destruct (process_query_update env text w w1 r
                (batch_header_has_update_keyword text Hh) Hr)
      as (e & w2 & Hq & Hresp & Hi & _ & _ & _ & Hl).
    exists e, w2, (Orch.message r). rewrite Hs in Hresp. rewrite Hl.
    split; [exact Hq|]. split; [exact Hi|]. split; [exact Hresp|].
    split; [|split; [exact Hna|split; [exact Hsu|split; [exact Hu|exact Hp]]]].
    intros Hready. rewrite (Hm Hready). unfold gate_message. now rewrite He.
  - intros i raw tid _ Ht Hs Hd Hf. split.
    + now apply batch_line_update.
    + intros k v. apply batch_line_fields_keys.
Qed.

(** Witness of C3 (amended): a three-line batch whose second item has no id,
    on a fresh agent; and a well-formed line with an unrecognized field after
    its status. *)
Lemma malformed_batch_is_rejected_witness :
  (exists e w2,
      Orch.process_query (stub_env (fun _ => false))
        ("Update following individual tasks:" ++ Py.nl
         ++ "TASK 51311 -> Start Date -> 08/08/2025" ++ Py.nl
         ++ "TASK -> Start Date -> 08/11/2025" ++ Py.nl
         ++ "TASK 51310 -> Start Date -> 08/11/2025")
        initial_world = (Ok e, w2)
      /\ Orch.env_response e
         = Orch.apology_prefix ++ Orch.invalid_batch_format_message
      /\ update_calls (log w2) = [])
  /\ Nlp.batch_line 2 "TASK 51312 -> Status -> Active Priority -> 2"
     = Nlp.Update (mkBatchUpdate "51312" [(Some "status", VStr "active")]).
Proof.
  destruct malformed_batch_is_rejected as [Hrej Hok]. split.
  - destruct (Hrej (stub_env (fun _ => false))
                   ("Update following individual tasks:" ++ Py.nl
                    ++ "TASK 51311 -> Start Date -> 08/08/2025" ++ Py.nl
                    ++ "TASK -> Start Date -> 08/11/2025" ++ Py.nl
                    ++ "TASK 51310 -> Start Date -> 08/11/2025")
                   initial_world)
      as (_ & _ & _ & e & w2 & msg & Hq & _ & Hresp & Hm & _ & _ & Hu & _).
    + vm_compute. reflexivity.
    + vm_compute. reflexivity.
    + exists "TASK -> Start Date -> 08/11/2025". split.
      * vm_compute. auto.
      * split; [reflexivity|]. left. vm_compute. reflexivity.
    + exists e, w2. rewrite Hm in Hresp by (split; [reflexivity | right; reflexivity]).
      repeat split; assumption.
  - assert (Hf : Nlp.batch_line_fields
                   (Py.strip "TASK 51312 -> Status -> Active Priority -> 2") <> [])
      by (vm_compute; discriminate).
    destruct (Hok 2%nat "TASK 51312 -> Status -> Active Priority -> 2" "51312"
                  eq_refl eq_refl eq_refl eq_refl Hf) as [Hline _].
    rewrite Hline. vm_compute. reflexivity.
Defined.

(** ** Batch dispatch *)
Section Dispatch.
Import Orch.

Lemma digit_not_space (c : ascii) : Py.is_digit c = true -> Py.is_space c = false.
Proof. destruct c as [[] [] [] [] [] [] [] []]; (discriminate || reflexivity). Qed.

Lemma digit_not_sign (c : ascii) :
  Py.is_digit c = true -> c <> "-"%char /\ c <> "+"%char /\ c <> "_"%char.
Proof. destruct c as [[] [] [] [] [] [] [] []]; (discriminate || (repeat split; discriminate)). Qed.

Lemma rstrip_digits (s : string) :
  Py.forall_chars Py.is_digit s = true -> Py.rstrip s = s.
Proof.
  induction s as [|c s IH]; [reflexivity|].
  cbn [Py.forall_chars Py.rstrip]. intros H. apply andb_prop in H as [Hc Hs].
  rewrite (IH Hs). destruct s; [now rewrite (digit_not_space c Hc) | reflexivity].
Qed.

Lemma strip_digits (s : string) :
  Py.forall_chars Py.is_digit s = true -> Py.strip s = s.
Proof.
  intros H. unfold Py.strip.
  assert (Hl : Py.lstrip s = s).
  { destruct s as [|c s]; [reflexivity|]. cbn [Py.forall_chars] in H.
    apply andb_prop in H as [Hc _]. cbn [Py.lstrip]. now rewrite (digit_not_space c Hc). }
  rewrite Hl. now apply rstrip_digits.
Qed.

Lemma strip_underscores_digits (s : string) (prev : bool) :
  Py.forall_chars Py.is_digit s = true ->
  (s <> EmptyString \/ prev = true) ->
  Py.strip_underscores prev s = Some s.
Proof.
  revert prev. induction s as [|c s IH]; intros prev H Hne.
  - destruct Hne as [Hne | ->]; [congruence | reflexivity].
  - cbn [Py.forall_chars] in H. apply andb_prop in H as [Hc Hs].
    cbn [Py.strip_underscores]. rewrite Hc. rewrite (IH true Hs) by now right.
    reflexivity.
Qed.

(** A string of digits is an integer literal without sign. *)
Lemma int_literal_of_digits (s : string) :
  Py.isdigit s = true -> Py.int_literal s = Some (false, s).
Proof.
  intros H. destruct s as [|c s]; [discriminate|].
  unfold Py.isdigit in H. unfold Py.int_literal. rewrite (strip_digits _ H).
  pose proof H as H'. cbn [Py.forall_chars] in H'. apply andb_prop in H' as [Hc _].
  destruct (digit_not_sign c Hc) as (Hm & Hp & _).
  assert (E : match String c s with
              | String "-"%char r => (true, r)
              | String "+"%char r => (false, r)
              | _ => (false, String c s)
              end = (false, String c s)).
  { destruct c as [[] [] [] [] [] [] [] []]; try reflexivity; congruence. }
  rewrite E. rewrite strip_underscores_digits; [reflexivity | exact H | left; discriminate].
Qed.

(** [int] reads a string of at most 4300 digits, and raises on a longer one. *)
Lemma int_of_digits (s : string) :
  Py.isdigit s = true -> (String.length s <= 4300)%nat ->
  Py.int s = Some (Py.digits_value 0 s).
Proof.
  intros H Hl. unfold Py.int. rewrite (int_literal_of_digits s H).
  unfold Py.too_long, Py.max_str_digits.
  destruct (Z.ltb_spec 4300 (Z.of_nat (String.length s))); [lia | reflexivity].
Qed.

Lemma int_of_long_digits (s : string) :
  Py.isdigit s = true -> (4300 < String.length s)%nat ->
  Py.int s = None
  /\ Py.int_error s
     = "Exceeds the limit (4300 digits) for integer string conversion: value has "
       ++ Py.str_of_nat (String.length s)
       ++ " digits; use sys.set_int_max_str_digits() to increase the limit".
Proof.
  intros H Hl. unfold Py.int, Py.int_error. rewrite (int_literal_of_digits s H).
  unfold Py.too_long, Py.max_str_digits.
  destruct (Z.ltb_spec 4300 (Z.of_nat (String.length s))); [now split | lia].
Qed.

Lemma int_of_digits_cases (s : string) :
  Py.isdigit s = true ->
  Py.int s = Some (Py.digits_value 0 s) \/ Py.int s = None.
Proof.
  intros H. destruct (Nat.le_gt_cases (String.length s) 4300) as [Hl|Hl].
  - left. now apply int_of_digits.
  - right. now apply int_of_long_digits.
Qed.

(** A numeric id is never rejected by the first loop of the batch handler. *)
Lemma valid_id_not_invalid (tid : string) :
  Py.isdigit tid = true -> invalid_task_id tid = false.
Proof.
  intros H. unfold invalid_task_id. rewrite H. destruct tid; [discriminate | reflexivity].
Qed.

(** The type lookup and the PATCH are quiet stages. *)
Lemma same_calls_emit (e : Event) (w : World) :
  is_update e = false -> same_calls w (emit e w).
Proof.
  intros H. unfold same_calls. rewrite update_calls_emit, H, app_nil_r. auto.
Qed.

Lemma lookup_work_item_type_quiet (env : Env) (id : Z) (fu : FieldUpdates) (w : World) :
  exists t w', Ado.lookup_work_item_type env id fu w = (Ok t, w') /\ same_calls w w'.
Proof.
  unfold Ado.lookup_work_item_type, ret.
  destruct (dict_mem fu (Some "status")); [|exists None, w; repeat split].
  destruct (session w); [|exists None, w; repeat split].
  destruct (get_work_item env (log w) id) as [[[t|]|code]|e];
    eexists _, _; (split; [reflexivity | now apply same_calls_emit]).
Qed.

Lemma send_patch_quiet (env : Env) (id : Z) (ops : list Operation) (w : World) :
  exists res w', Ado.send_patch env id ops w = (res, w') /\ same_calls w w'.
Proof.
  unfold Ado.send_patch.
  destruct (session w); [|eexists _, _; repeat split].
  destruct (patch_work_item env (log w) id ops) as [r|e];
    [destruct (Ado.is_success_status (patch_status r))|];
    eexists _, _; (split; [reflexivity | now apply same_calls_emit]).
Qed.

(** [update_work_item] records exactly one call of itself, whatever the
    backend answers. *)
Lemma update_work_item_calls (env : Env) (id : Z) (fu : FieldUpdates) (w : World) :
  exists res w',
    Ado.update_work_item env id fu w = (res, w')
    /\ update_calls (log w') = (update_calls (log w) ++ [EvUpdateWorkItem id fu])%list
    /\ session w' = session w
    /\ conversation_history w' = conversation_history w.
Proof.
  unfold Ado.update_work_item, bind, ret, raise.
  destruct (lookup_work_item_type_quiet env id fu (emit (EvUpdateWorkItem id fu) w))
    as (t & w1 & -> & Hu1 & Hs1 & Hh1).
  rewrite update_calls_emit in Hu1. cbn [is_update] in Hu1.
  destruct (Ado.build_operations t fu) as [ops|e].
  - destruct (send_patch_quiet env id ops w1) as (res & w2 & -> & Hu2 & Hs2 & Hh2).
    exists res, w2. split; [reflexivity|]. rewrite Hu2, Hs2, Hh2. auto.
  - eexists _, _. split; [reflexivity|]. auto.
Qed.

(** The loop of the batch handler: one attempt per item, in order, each
    item ending in exactly one of the two lists. *)
Lemma batch_dispatch_spec (env : Env) (batch : list BatchUpdate) :
  forall results failed w,
  exists rs fs w',
    batch_dispatch env batch results failed w
    = (Ok ((results ++ rs)%list, (failed ++ fs)%list), w')
    /\ update_calls (log w') = (update_calls (log w) ++ flat_map batch_call batch)%list
    /\ (List.length rs + List.length fs = List.length batch)%nat
    /\ Permutation (map bs_task_id rs ++ map bf_task_id fs) (map bu_task_id batch)
    /\ session w' = session w
    /\ conversation_history w' = conversation_history w.
Proof.
  induction batch as [|u more IH]; intros results failed w.
  - exists [], [], w. cbn. rewrite !app_nil_r. repeat split; auto.
  - cbn [batch_dispatch flat_map]. unfold batch_call at 1.
    destruct (Py.int (bu_task_id u)) as [id|].
    + destruct (update_work_item_calls env id (bu_field_updates u) w)
        as ([result|e] & w1 & -> & Hu & Hs & Hh).
      * destruct (IH (results ++ [mkBatchSuccess (bu_task_id u) result])%list failed w1)
          as (rs & fs & w' & -> & Hu' & Hlen & Hperm & Hs' & Hh').
        exists (mkBatchSuccess (bu_task_id u) result :: rs), fs, w'.
        rewrite <- app_assoc. split; [reflexivity|].
        rewrite Hu', Hu, <- app_assoc, Hs', Hs, Hh', Hh. cbn.
        repeat split; auto.
      * destruct (IH results (failed ++ [mkBatchFailure (bu_task_id u) e])%list w1)
          as (rs & fs & w' & -> & Hu' & Hlen & Hperm & Hs' & Hh').
        exists rs, (mkBatchFailure (bu_task_id u) e :: fs), w'.
        rewrite <- app_assoc. split; [reflexivity|].
        rewrite Hu', Hu, <- app_assoc, Hs', Hs, Hh', Hh. cbn.
        repeat split; auto; [lia|].
        apply Permutation_sym, Permutation_cons_app, Permutation_sym, Hperm.
    + unfold raise.
      destruct (IH results
                   (failed ++ [mkBatchFailure (bu_task_id u)
                                 (Py.int_error (bu_task_id u))])%list w)
        as (rs & fs & w' & -> & Hu' & Hlen & Hperm & Hs' & Hh').
      eexists rs, (_ :: fs), w'.
      rewrite <- app_assoc. split; [reflexivity|].
      rewrite Hu'. cbn. repeat split; auto; [lia|].
      apply Permutation_sym, Permutation_cons_app, Permutation_sym, Hperm.
Qed.

(** The calls made for a batch of numeric ids: one per item whose id [int]
    can read, with the id read as an integer and the item's own field
    updates. *)
Lemma batch_calls_short_ids (batch : list BatchUpdate) :
  Forall (fun u => Py.isdigit (bu_task_id u) = true) batch ->
  flat_map batch_call batch
  = map (fun u => EvUpdateWorkItem (Py.digits_value 0 (bu_task_id u)) (bu_field_updates u))
        (filter short_id batch).
Proof.
  induction 1 as [|u more Hu _ IH]; [reflexivity|].
  cbn [flat_map filter]. rewrite IH. unfold batch_call at 1, short_id at 2.
  destruct (Nat.leb_spec (String.length (bu_task_id u)) 4300) as [Hl|Hl].
  - now rewrite (int_of_digits _ Hu Hl).
  - now rewrite (proj1 (int_of_long_digits _ Hu Hl)).
Qed.

Lemma filter_all {A} (p : A -> bool) (l : list A) :
  Forall (fun x => p x = true) l -> filter p l = l.
Proof. induction 1 as [|x l Hx _ IH]; [reflexivity|]. cbn. now rewrite Hx, IH. Qed.

Lemma batch_calls_one_per_item (batch : list BatchUpdate) :
  Forall (fun u => Py.isdigit (bu_task_id u) = true) batch ->
  Forall (fun u => short_id u = true) batch ->
  flat_map batch_call batch
  = map (fun u => EvUpdateWorkItem (Py.digits_value 0 (bu_task_id u)) (bu_field_updates u))
        batch.
Proof.
  intros Hd Hs. now rewrite (batch_calls_short_ids batch Hd), (filter_all _ _ Hs).
Qed.

(** The loop of the batch handler is a run of the batch. *)
Lemma batch_dispatch_run (env : Env) (batch : list BatchUpdate) :
  forall results failed w,
  exists rs fs w',
    batch_dispatch env batch results failed w
    = (Ok ((results ++ rs)%list, (failed ++ fs)%list), w')
    /\ batch_run env batch w rs fs w'.
Proof.
  induction batch as [|u more IH]; intros results failed w.
  - exists [], [], w. cbn. rewrite !app_nil_r. split; [reflexivity | constructor].
  - cbn [batch_dispatch]. cbv zeta.
    change (match Py.int (bu_task_id u) with
            | Some id => Ado.update_work_item env id (bu_field_updates u)
            | None => raise (Py.int_error (bu_task_id u))
            end w) with (batch_attempt env u w).
    destruct (batch_attempt env u w) as [[result|e] w1] eqn:Ea.
    + destruct (IH (results ++ [mkBatchSuccess (bu_task_id u) result])%list failed w1)
        as (rs & fs & w' & -> & Hrun).
      exists (mkBatchSuccess (bu_task_id u) result :: rs), fs, w'.
      rewrite <- app_assoc. split; [reflexivity|]. econstructor; eassumption.
    + destruct (IH results (failed ++ [mkBatchFailure (bu_task_id u) e])%list w1)
        as (rs & fs & w' & -> & Hrun).
      exists rs, (mkBatchFailure (bu_task_id u) e :: fs), w'.
      rewrite <- app_assoc. split; [reflexivity|]. econstructor; eassumption.
Qed.

Lemma no_invalid_ids (batch : list BatchUpdate) :
  Forall (fun u => Py.isdigit (bu_task_id u) = true) batch ->
  filter invalid_task_id (map bu_task_id batch) = [].
Proof.
  induction 1 as [|u more Hu _ IH]; [reflexivity|].
  cbn [map filter]. now rewrite (valid_id_not_invalid _ Hu).
Qed.

End Dispatch.

(** ** The three batch reports are different texts *)
Section Reports.
Import Orch.

Lemma nzhead_not_D0 (u v : Decimal.uint) : Decimal.nzhead u <> Decimal.D0 v.
Proof. induction u; cbn; try discriminate. exact IHu. Qed.

(** The decimal text of a natural number starts with "0" for zero only. *)
Lemma str_of_nat_leading_zero (n : nat) (r : string) :
  Py.str_of_nat n = String "0"%char r -> n = O.
Proof.
  unfold Py.str_of_nat. intros H.
  pose proof (DecimalNat.Unsigned.of_to n) as Hof.
  pose proof (DecimalNat.Unsigned.to_of (Nat.to_uint n)) as Hto.
  rewrite Hof in Hto.
  destruct (Nat.to_uint n) as [|d|d|d|d|d|d|d|d|d|d] eqn:E;
    try (cbn in H; discriminate H).
  - exact (eq_sym Hof).
  - rewrite DecimalFacts.unorm_D0 in Hto. unfold Decimal.unorm in Hto.
    destruct (Decimal.nzhead d) eqn:Hd;
      try (exfalso; apply (nzhead_not_D0 d d); rewrite Hd; congruence).
    injection Hto as ->. exact (eq_sym Hof).
Qed.

(** The report of a batch without failure is not a report of failures. *)
Lemma completed_is_not_partial rs rs' fs :
  completed_report rs <> partial_report rs' fs.
Proof.
  intros H. apply (f_equal (String.get 4)) in H. vm_compute in H. discriminate H.
Qed.

(** The report of a batch where nothing succeeded is not the report of a
    batch where something did. *)
Lemma all_failed_is_not_partial fs r rs fs' :
  partial_report [] fs <> partial_report (r :: rs) fs'.
Proof.
  unfold partial_report, partial_success_line. intros H.
  apply append_inv_head in H. rewrite !append_assoc in H.
  apply append_inv_head in H.
  change (Py.str_of_nat (List.length (@nil BatchSuccess))) with "0" in H.
  cbn [List.length] in H.
  destruct (Py.str_of_nat (S (List.length rs))) as [|c s] eqn:E.
  - cbn in H. discriminate H.
  - cbn in H. injection H as Hc _. subst c.
    apply str_of_nat_leading_zero in E. discriminate E.
Qed.

(** *** What a report names *)

Lemma prefix_nil (s : string) : String.prefix EmptyString s = true.
Proof. now destruct s. Qed.

Lemma prefix_cons (c : ascii) (x s : string) :
  String.prefix x s = true -> String.prefix (String c x) (String c s) = true.
Proof. intros H. cbn. destruct (ascii_dec c c); [exact H | congruence]. Qed.

Lemma prefix_app_both (a b c : string) :
  String.prefix b c = true -> String.prefix (a ++ b) (a ++ c) = true.
Proof. intros H. induction a as [|x a IH]; [exact H|]. cbn [append]. now apply prefix_cons. Qed.

Lemma contains_prefix (x s : string) : String.prefix x s = true -> Py.contains x s = true.
Proof. intros H. destruct s; cbn [Py.contains]; now rewrite H. Qed.

Lemma contains_cons (x : string) (c : ascii) (s : string) :
  Py.contains x s = true -> Py.contains x (String c s) = true.
Proof. intros H. cbn [Py.contains]. rewrite H. apply orb_true_r. Qed.

Lemma contains_app_r (x a b : string) :
  Py.contains x b = true -> Py.contains x (a ++ b) = true.
Proof.
  intros H. induction a as [|c a IH]; [exact H|].
  cbn [append]. now apply contains_cons.
Qed.

Lemma prefix_app_r (x a b : string) :
  String.prefix x a = true -> String.prefix x (a ++ b) = true.
Proof.
  revert a. induction x as [|c x IH]; intros a; [intros _; apply prefix_nil|].
  destruct a as [|d a]; cbn; [discriminate|].
  destruct (ascii_dec c d); [apply IH | discriminate].
Qed.

Lemma contains_app_l (x a b : string) :
  Py.contains x a = true -> Py.contains x (a ++ b) = true.
Proof.
  induction a as [|c a IH]; cbn [Py.contains].
  - rewrite orb_false_r. intros H. apply contains_prefix.
    destruct x; [apply prefix_nil | discriminate].
  - intros H. apply orb_prop in H as [H|H].
    + apply contains_prefix. now apply (prefix_app_r _ (String c a) b).
    + cbn [append]. apply contains_cons. now apply IH.
Qed.

Lemma contains_concat_map {A} (x : string) (f : A -> string) (l : list A) (a : A) :
  In a l -> Py.contains x (f a) = true ->
  Py.contains x (String.concat EmptyString (map f l)) = true.
Proof.
  intros Hin Hx. induction l as [|b l IH]; [destruct Hin|].
  cbn [map String.concat].
  destruct Hin as [-> | Hin].
  - destruct (map f l); [exact Hx | now apply contains_app_l].
  - specialize (IH Hin). destruct l as [|b' l']; [destruct Hin|].
    cbn [map] in *. cbn [append]. now apply contains_app_r.
Qed.

(** A text found in a line built from literals around it. *)
Ltac find_prefix :=
  repeat apply prefix_cons;
  first [ apply prefix_nil
        | apply prefix_app_both; find_prefix ].

Ltac find_text :=
  cbn [append];
  repeat first [ solve [apply contains_prefix; find_prefix] | apply contains_cons ].

Lemma task_bullet_names (task_id : string) :
  Py.contains ("TASK-" ++ task_id ++ Py.nl) (task_bullet task_id) = true.
Proof. unfold task_bullet, Py.nl. find_text. Qed.

Lemma failed_bullet_names (task_id error : string) :
  Py.contains ("TASK-" ++ task_id ++ ": " ++ error ++ Py.nl)
              (failed_bullet task_id error) = true.
Proof. unfold failed_bullet, Py.nl. find_text. Qed.

Lemma updated_count_line_counts (n : nat) :
  Py.contains ("Updated " ++ Py.str_of_nat n ++ " tasks:") (updated_count_line n) = true.
Proof. unfold updated_count_line, Py.nl. find_text. Qed.

Lemma partial_success_line_counts (n : nat) :
  Py.contains ("Successfully updated " ++ Py.str_of_nat n ++ " tasks")
              (partial_success_line n) = true.
Proof. unfold partial_success_line, Py.nl. find_text. Qed.

Lemma partial_failed_line_counts (n : nat) :
  Py.contains ("Failed to update " ++ Py.str_of_nat n ++ " tasks")
              (partial_failed_line n) = true.
Proof. unfold partial_failed_line, Py.nl. find_text. Qed.

(** Every success and every failure is named in the report under its id, and
    the report gives the two counts. *)
Lemma report_names_items (rs : list BatchSuccess) (fs : list BatchFailure) :
  (forall r, In r rs ->
             Py.contains ("TASK-" ++ bs_task_id r ++ Py.nl)
                         (message (batch_result rs fs)) = true)
  /\ (forall f, In f fs ->
                Py.contains ("TASK-" ++ bf_task_id f ++ ": " ++ bf_error f ++ Py.nl)
                            (message (batch_result rs fs)) = true)
  /\ (fs = [] ->
      Py.contains ("Updated " ++ Py.str_of_nat (List.length rs) ++ " tasks:")
                  (message (batch_result rs fs)) = true)
  /\ (fs <> [] ->
      Py.contains ("Successfully updated " ++ Py.str_of_nat (List.length rs) ++ " tasks")
                  (message (batch_result rs fs)) = true
      /\ Py.contains ("Failed to update " ++ Py.str_of_nat (List.length fs) ++ " tasks")
                     (message (batch_result rs fs)) = true).
Proof.
  split; [|split; [|split]].
  - intros r Hr. destruct fs as [|f fs]; cbn [batch_result message].
    + unfold completed_report. do 2 apply contains_app_r.
      apply (contains_concat_map _ (fun r => task_bullet (bs_task_id r)) rs r Hr).
      apply task_bullet_names.
    + unfold partial_report. do 3 apply contains_app_r. apply contains_app_l.
      destruct rs as [|r0 rs]; [destruct Hr|]. apply contains_app_r.
      apply (contains_concat_map _ (fun r => task_bullet (bs_task_id r)) (r0 :: rs) r Hr).
      apply task_bullet_names.
  - intros f Hf. destruct fs as [|f0 fs]; [destruct Hf|]. cbn [batch_result message].
    unfold partial_report. do 5 apply contains_app_r.
    apply (contains_concat_map _ (fun f => failed_bullet (bf_task_id f) (bf_error f))
                               (f0 :: fs) f Hf).
    apply failed_bullet_names.
  - intros ->. cbn [batch_result message]. unfold completed_report.
    apply contains_app_r, contains_app_l, updated_count_line_counts.
  - intros Hne. destruct fs as [|f fs]; [congruence|]. cbn [batch_result message].
    unfold partial_report. split.
    + apply contains_app_r, contains_app_l, partial_success_line_counts.
    + do 2 apply contains_app_r. apply contains_app_l, partial_failed_line_counts.
Qed.

End Reports.

(** The batch handler after the id check: the loop and the report. *)
Lemma handle_batch_run (env : Env) (batch : list BatchUpdate) (w : World) :
  filter Orch.invalid_task_id (map bu_task_id batch) = [] ->
  exists results failed w',
    Orch._handle_batch_updates env batch w = (Ok (Orch.batch_result results failed), w')
    /\ update_calls (log w') = (update_calls (log w) ++ flat_map batch_call batch)%list
    /\ (List.length results + List.length failed = List.length batch)%nat
    /\ Permutation (map Orch.bs_task_id results ++ map Orch.bf_task_id failed)
                   (map bu_task_id batch).
Proof.
  intros Hv. unfold Orch._handle_batch_updates. rewrite Hv. unfold bind, ret.
  destruct (batch_dispatch_spec env batch [] [] w)
    as (rs & fs & w' & -> & Hu & Hlen & Hperm & _).
  exists rs, fs, w'. cbn [fst snd app]. auto.
Qed.

(** Counterexample to C4: two items with numeric ids, the second id written
    with 4301 digits.  Both ids pass the check of the handler, [int] raises on
    the second, so a single call of [update_work_item] is made for the two
    items and the second is reported as failed. *)
Lemma long_id_is_not_dispatched :
  Forall (fun u => Py.isdigit (bu_task_id u) = true)
         [mkBatchUpdate "7" [(Some "status", VStr "active")];
          mkBatchUpdate ("1" ++ Ado.zeros 4300) [(Some "status", VStr "active")]]
  /\ exists r w',
      Orch._handle_batch_updates
        (stub_env (fun _ => false))
        [mkBatchUpdate "7" [(Some "status", VStr "active")];
         mkBatchUpdate ("1" ++ Ado.zeros 4300) [(Some "status", VStr "active")]]
        (mkWorld [] true []) = (Ok r, w')
      /\ update_calls (log w') = [EvUpdateWorkItem 7 [(Some "status", VStr "active")]]
      /\ Orch.success r = false.
Proof.
  split; [repeat constructor|].
  eexists _, _. split; [vm_compute; reflexivity|]. split; reflexivity.
Qed.

(** C4 — For every batch of items with numeric ids the handler attempts
    every item, in the order of the items and whatever the earlier attempts
    answered: it makes one call of [update_work_item] per item whose id has at
    most 4300 digits, with the item's id and field updates (N calls for N
    such items), and [int] raises for an item with a longer id, which is
    recorded as failed without a call.  The two lists of the result are those
    of the run: a success stands under the id of its item with the result its
    call returned, a failure under the id of its item with the error its
    attempt raised, and every item stands in exactly one of the two lists.  A
    batch without failure is reported as completed with [success = true], a
    batch with failures by the counts of successes and failures and the two
    labelled lists; each report names every item of its lists by its id, and
    the reports of the three outcomes (all succeeded, all failed, partial)
    are three different texts. *)
Theorem batch_dispatch_attempts_every_item :
  (forall (env : Env) (batch : list BatchUpdate) (w : World),
      Forall (fun u => Py.isdigit (bu_task_id u) = true) batch ->
      exists results failed w',
        Orch._handle_batch_updates env batch w
        = (Ok (Orch.batch_result results failed), w')
        /\ batch_run env batch w results failed w'
        /\ update_calls (log w')
           = (update_calls (log w)
              ++ map (fun u => EvUpdateWorkItem (Py.digits_value 0 (bu_task_id u))
                                                (bu_field_updates u))
                     (filter short_id batch))%list
        /\ (Forall (fun u => short_id u = true) batch ->
            update_calls (log w')
            = (update_calls (log w)
               ++ map (fun u => EvUpdateWorkItem (Py.digits_value 0 (bu_task_id u))
                                                 (bu_field_updates u)) batch)%list)
        /\ (List.length results + List.length failed = List.length batch)%nat
        /\ Permutation (map Orch.bs_task_id results ++ map Orch.bf_task_id failed)
                       (map bu_task_id batch)
        /\ Orch.data (Orch.batch_result results failed) = Orch.BatchData results failed
        /\ (failed = [] ->
            Orch.success (Orch.batch_result results failed) = true
            /\ Orch.message (Orch.batch_result results failed)
               = Orch.completed_report results)
        /\ (failed <> [] ->
            Orch.success (Orch.batch_result results failed) = false
            /\ Orch.message (Orch.batch_result results failed)
               = Orch.partial_report results failed))
  /\ (forall (results : list Orch.BatchSuccess) (failed : list Orch.BatchFailure),
        (forall r, In r results ->
                   Py.contains ("TASK-" ++ Orch.bs_task_id r ++ Py.nl)
                               (Orch.message (Orch.batch_result results failed)) = true)
        /\ (forall f, In f failed ->
                      Py.contains ("TASK-" ++ Orch.bf_task_id f ++ ": "
                                     ++ Orch.bf_error f ++ Py.nl)
                                  (Orch.message (Orch.batch_result results failed)) = true)
        /\ (failed = [] ->
            Py.contains ("Updated " ++ Py.str_of_nat (List.length results) ++ " tasks:")
                        (Orch.message (Orch.batch_result results failed)) = true)
        /\ (failed <> [] ->
            Py.contains ("Successfully updated "
                           ++ Py.str_of_nat (List.length results) ++ " tasks")
                        (Orch.message (Orch.batch_result results failed)) = true
            /\ Py.contains ("Failed to update "
                              ++ Py.str_of_nat (List.length failed) ++ " tasks")
                           (Orch.message (Orch.batch_result results failed)) = true))
  /\ (forall rs rs' fs, Orch.completed_report rs <> Orch.partial_report rs' fs)
  /\ (forall fs r rs fs', Orch.partial_report [] fs <> Orch.partial_report (r :: rs) fs').
Proof.
  split; [|split; [|split]].
  - intros env batch w Hvalid.
    pose proof (no_invalid_ids batch Hvalid) as Hv.
    destruct (handle_batch_run env batch w Hv)
      as (rs & fs & w' & Hrun & Hu & Hlen & Hperm).
    assert (Hr : batch_run env batch w rs fs w').
    { revert Hrun. unfold Orch._handle_batch_updates. rewrite Hv. unfold bind, ret.
      destruct (batch_dispatch_run env batch [] [] w) as (rs0 & fs0 & w0 & -> & Hr).
      cbn [fst snd app]. intros [= Hres <-].
      assert (E : rs0 = rs /\ fs0 = fs).
      { unfold Orch.batch_result in Hres.
        destruct fs0, fs; try discriminate; injection Hres; intros; subst; auto. }
      destruct E as [<- <-]. exact Hr. }
    exists rs, fs, w'. rewrite (batch_calls_short_ids batch Hvalid) in Hu.
    split; [exact Hrun|]. split; [exact Hr|]. split; [exact Hu|].
    split; [intros Hs; now rewrite (filter_all _ _ Hs) in Hu|].
    repeat split; auto; destruct fs; try reflexivity; congruence.
  - apply report_names_items.
  - apply completed_is_not_partial.
  - apply all_failed_is_not_partial.
Qed.

(** Witness of C4: the three items of the repository's batch example, with a
    backend that refuses the second one. *)
Lemma batch_dispatch_attempts_every_item_witness :
  exists results failed w',
    Orch._handle_batch_updates
      (stub_env (fun id => id =? 51312))
      [mkBatchUpdate "51311" [(Some "start_date", VStr "08/08/2025")];
       mkBatchUpdate "51312" [(Some "start_date", VStr "08/11/2025")];
       mkBatchUpdate "51310" [(Some "start_date", VStr "08/11/2025")]]
      (mkWorld [] true [])
    = (Ok (Orch.batch_result results failed), w')
    /\ update_calls (log w')
       = [EvUpdateWorkItem 51311 [(Some "start_date", VStr "08/08/2025")];
          EvUpdateWorkItem 51312 [(Some "start_date", VStr "08/11/2025")];
          EvUpdateWorkItem 51310 [(Some "start_date", VStr "08/11/2025")]]
    /\ (List.length results + List.length failed = 3)%nat.
Proof.
  destruct batch_dispatch_attempts_every_item as [Hrun _].
  destruct (Hrun (stub_env (fun id => id =? 51312))
                 [mkBatchUpdate "51311" [(Some "start_date", VStr "08/08/2025")];
                  mkBatchUpdate "51312" [(Some "start_date", VStr "08/11/2025")];
                  mkBatchUpdate "51310" [(Some "start_date", VStr "08/11/2025")]]
                 (mkWorld [] true []))
    as (results & failed & w' & H & _ & _ & Hu & Hlen & _).
  - repeat constructor.
  - exists results, failed, w'. split; [exact H|]. split; [|exact Hlen].
    apply Hu. repeat constructor.
Defined.

(** The same batch from its text, through [process_query]: three calls, two
    successes and one failure, each under its id. *)
Example batch_text_end_to_end :
  exists e w',
    Orch.process_query
      (stub_env (fun id => id =? 51312))
      ("Update following individual tasks:" ++ Py.nl
       ++ "TASK 51311 -> Start Date -> 08/08/2025" ++ Py.nl
       ++ "TASK 51312 -> Start Date -> 08/11/2025" ++ Py.nl
       ++ "TASK 51310 -> Start Date -> 08/11/2025")
      initial_world = (Ok e, w')
    /\ List.length (update_calls (log w')) = 3%nat
    /\ Orch.env_response e
       = Orch.apology_prefix
           ++ Orch.partial_report
                [Orch.mkBatchSuccess "51311" "{}"; Orch.mkBatchSuccess "51310" "{}"]
                [Orch.mkBatchFailure "51312"
                   "Work item update failed: 400 - Bad Request"].
Proof. eexists _, _. split; [vm_compute; reflexivity|]. split; reflexivity. Qed.

(** C10 — Whenever the batch handler ends with at least one failed and at
    least one succeeded item, its result carries [success = false]; its
    result has [success = true] exactly when every item of the batch
    succeeded. *)
Theorem partial_batch_is_not_success :
  forall (env : Env) (batch : list BatchUpdate) (w : World),
  exists r w',
    Orch._handle_batch_updates env batch w = (Ok r, w')
    /\ (forall results failed,
           Orch.data r = Orch.BatchData results failed ->
           results <> [] -> failed <> [] -> Orch.success r = false)
    /\ (Orch.success r = true <->
        exists results,
          Orch.data r = Orch.BatchData results []
          /\ List.length results = List.length batch).
Proof.
  intros env batch w.
  destruct (filter Orch.invalid_task_id (map bu_task_id batch)) as [|bad bads] eqn:Hv.
  - destruct (handle_batch_run env batch w Hv) as (rs & fs & w' & -> & _ & Hlen & _).
    eexists _, _. split; [reflexivity|]. destruct fs as [|f fs]; cbn.
    + split; [intros results failed [= <- <-] _ Hf; congruence|].
      split; [intros _; exists rs; split; [reflexivity | cbn in Hlen; lia]|reflexivity].
    + split; [reflexivity|].
      split; [discriminate | intros (results & [=] & _)].
  - unfold Orch._handle_batch_updates. rewrite Hv. unfold ret.
    eexists _, _. split; [reflexivity|]. cbn.
    split; [discriminate|]. split; [discriminate | intros (results & [=] & _)].
Qed.

(** An instance of C10: one failure among three items, [success = false]. *)
Lemma partial_batch_is_not_success_witness :
  exists r w',
    Orch._handle_batch_updates
      (stub_env (fun id => id =? 51312))
      [mkBatchUpdate "51311" [(Some "status", VStr "active")];
       mkBatchUpdate "51312" [(Some "status", VStr "active")];
       mkBatchUpdate "51310" [(Some "status", VStr "active")]]
      (mkWorld [] true []) = (Ok r, w')
    /\ Orch.success r = false.
Proof.
  destruct (partial_batch_is_not_success
              (stub_env (fun id => id =? 51312))
              [mkBatchUpdate "51311" [(Some "status", VStr "active")];
               mkBatchUpdate "51312" [(Some "status", VStr "active")];
               mkBatchUpdate "51310" [(Some "status", VStr "active")]]
              (mkWorld [] true []))
    as (r & w' & Hrun & Hpartial & _).
  exists r, w'. split; [exact Hrun|].
  assert (E : fst (Orch._handle_batch_updates
                     (stub_env (fun id => id =? 51312))
                     [mkBatchUpdate "51311" [(Some "status", VStr "active")];
                      mkBatchUpdate "51312" [(Some "status", VStr "active")];
                      mkBatchUpdate "51310" [(Some "status", VStr "active")]]
                     (mkWorld [] true []))
              = Ok (Orch.batch_result
                      [Orch.mkBatchSuccess "51311" "{}"; Orch.mkBatchSuccess "51310" "{}"]
                      [Orch.mkBatchFailure "51312"
                         "Work item update failed: 400 - Bad Request"]))
    by (vm_compute; reflexivity).
  rewrite Hrun in E. cbn [fst] in E. injection E as ->.
  apply (Hpartial [Orch.mkBatchSuccess "51311" "{}"; Orch.mkBatchSuccess "51310" "{}"]
                  [Orch.mkBatchFailure "51312"
                     "Work item update failed: 400 - Bad Request"]);
    [reflexivity | discriminate | discriminate].
Defined.

(** ** Texts without digits carry no work-item id *)
Section NoDigit.
Import Re.

Lemma no_digit_tail (c : ascii) (s : string) : no_digit (String c s) -> no_digit s.
Proof. unfold no_digit. cbn. intros H. now apply orb_false_elim in H as [_ H]. Qed.

Lemma no_digit_head (c : ascii) (s : string) :
  no_digit (String c s) -> Py.is_digit c = false.
Proof. unfold no_digit. cbn. intros H. now apply orb_false_elim in H as [H _]. Qed.

Lemma no_digit_cons (c : ascii) (s : string) :
  Py.is_digit c = false -> no_digit s -> no_digit (String c s).
Proof. unfold no_digit. cbn. now intros -> ->. Qed.

Lemma not_digit_any_case (icase : bool) (c : ascii) :
  Py.is_digit c = false -> in_class icase digit c = false.
Proof.
  unfold in_class, digit. destruct icase; [|auto].
  destruct c as [[] [] [] [] [] [] [] []]; (discriminate || reflexivity).
Qed.

Lemma eat_no_digit (icase : bool) (l s s' : string) :
  eat icase l s = Some s' -> no_digit s -> no_digit s'.
Proof.
  revert s. induction l as [|a l IH]; intros s; cbn.
  - now intros [= <-].
  - destruct s as [|b s]; [discriminate|].
    destruct (char_eq icase a b); [|discriminate].
    intros H Hs. apply (IH s H). exact (no_digit_tail _ _ Hs).
Qed.

Lemma drop_no_digit (n : nat) (s : string) : no_digit s -> no_digit (drop n s).
Proof.
  revert s. induction n as [|n IH]; intros s Hs; [exact Hs|].
  destruct s as [|c s]; [exact Hs|]. cbn. apply IH. exact (no_digit_tail _ _ Hs).
Qed.

Lemma give_back_fails {A} (n lo : nat) (s : string) (k : string -> option A) :
  (forall j, k (drop j s) = None) -> give_back n lo s k = None.
Proof.
  intros Hk. induction n as [|n IH]; cbn [give_back].
  - destruct (0 <? lo)%nat; [reflexivity|]. now rewrite Hk.
  - destruct (S n <? lo)%nat; [reflexivity|]. now rewrite Hk.
Qed.

(** The matcher hands only suffixes of the text to its continuation. *)
Lemma m_continuation_fails {A} (icase : bool) (r : regex) :
  forall (g : option string) (s : string) (k : option string -> string -> option A),
    no_digit s ->
    (forall g' s', no_digit s' -> k g' s' = None) ->
    m icase r g s k = None.
Proof.
  induction r as [l | p | p lo hi | r1 IH1 r2 IH2 | r1 IH1 r2 IH2 | r IH];
    intros g s k Hs Hk; cbn [m].
  - destruct (eat icase l s) as [s'|] eqn:E; [|reflexivity].
    apply Hk. exact (eat_no_digit _ _ _ _ E Hs).
  - destruct s as [|c s]; [reflexivity|].
    destruct (in_class icase p c); [|reflexivity].
    apply Hk. exact (no_digit_tail _ _ Hs).
  - apply give_back_fails. intros j. apply Hk. now apply drop_no_digit.
  - apply IH1; [exact Hs|]. intros g' s' Hs'. now apply IH2.
  - rewrite IH1 by assumption. now apply IH2.
  - apply IH; [exact Hs|]. intros g' s' Hs'. now apply Hk.
Qed.

(** A pattern that needs a digit matches at no place of a digit-free text. *)
Lemma needs_digit_fails {A} (icase : bool) (r : regex) :
  needs_digit r ->
  forall (g : option string) (s : string) (k : option string -> string -> option A),
    no_digit s -> m icase r g s k = None.
Proof.
  induction 1 as [lo hi | r _ IH | r1 r2 _ IH | r1 r2 _ IH | r1 r2 _ IH1 _ IH2];
    intros g s k Hs; cbn [m].
  - assert (Hrun : run icase digit hi s = 0%nat).
    { destruct s as [|c s]; [reflexivity|]. cbn.
      rewrite (not_digit_any_case icase c (no_digit_head _ _ Hs)).
      destruct hi as [[|n]|]; reflexivity. }
    rewrite Hrun. reflexivity.
  - now apply IH.
  - now apply IH.
  - apply m_continuation_fails; [exact Hs|]. intros g' s' Hs'. now apply IH.
  - rewrite IH1 by assumption. now apply IH2.
Qed.

Lemma search_needs_digit (icase : bool) (r : regex) (s : string) :
  needs_digit r -> no_digit s -> search icase r s = None.
Proof.
  intros Hr. induction s as [|c s IH]; intros Hs; cbn [search]; unfold match_here;
    rewrite (needs_digit_fails icase r Hr) by assumption; [reflexivity|].
  apply IH. exact (no_digit_tail _ _ Hs).
Qed.

Lemma search_group_needs_digit (icase : bool) (r : regex) (s : string) :
  needs_digit r -> no_digit s -> search_group icase r s = None.
Proof. intros Hr Hs. unfold search_group. now rewrite search_needs_digit. Qed.

Lemma first_search_needs_digit (icase : bool) (ps : list regex) (s : string) :
  Forall needs_digit ps -> no_digit s -> Nlp.first_search icase ps s = None.
Proof.
  induction 1 as [|p ps Hp _ IH]; intros Hs; [reflexivity|].
  cbn [Nlp.first_search]. rewrite (search_group_needs_digit icase p s Hp Hs). auto.
Qed.

Lemma task_id_patterns_need_digit : Forall needs_digit Nlp.task_id_patterns.
Proof.
  unfold Nlp.task_id_patterns, Nlp.type_words, plus. cbn [map app].
  repeat (apply Forall_cons; [auto 8 using needs_digit|]). apply Forall_nil.
Qed.

Lemma batch_task_pattern_needs_digit : needs_digit Nlp.batch_task_pattern.
Proof. unfold Nlp.batch_task_pattern, plus. auto 6 using needs_digit. Qed.

(** Stripping and splitting keep a text free of digits. *)
Lemma lstrip_no_digit (s : string) : no_digit s -> no_digit (Py.lstrip s).
Proof.
  induction s as [|c s IH]; intros Hs; [exact Hs|]. cbn.
  destruct (Py.is_space c); [apply IH; exact (no_digit_tail _ _ Hs) | exact Hs].
Qed.

Lemma rstrip_no_digit (s : string) : no_digit s -> no_digit (Py.rstrip s).
Proof.
  induction s as [|c s IH]; intros Hs; [exact Hs|]. cbn.
  pose proof (IH (no_digit_tail _ _ Hs)) as Hr.
  pose proof (no_digit_head _ _ Hs) as Hc.
  destruct (Py.rstrip s) as [|d r].
  - destruct (Py.is_space c); [reflexivity | now apply no_digit_cons].
  - now apply no_digit_cons.
Qed.

Lemma strip_no_digit (s : string) : no_digit s -> no_digit (Py.strip s).
Proof. intros Hs. now apply rstrip_no_digit, lstrip_no_digit. Qed.

Lemma split_no_digit (sep : ascii) (s : string) :
  no_digit s -> Forall no_digit (Py.split sep s).
Proof.
  induction s as [|c s IH]; intros Hs; [repeat constructor|]. cbn.
  pose proof (IH (no_digit_tail _ _ Hs)) as Hr.
  pose proof (no_digit_head _ _ Hs) as Hc.
  destruct (Ascii.eqb c sep).
  - constructor; [reflexivity | exact Hr].
  - destruct (Py.split sep s) as [|h t]; [repeat constructor; now apply no_digit_cons|].
    inversion Hr; subst. constructor; [now apply no_digit_cons | assumption].
Qed.

(** No line of a digit-free batch gives an update. *)
Lemma batch_line_no_digit (i : nat) (raw : string) (u : BatchUpdate) :
  no_digit raw -> Nlp.batch_line i raw <> Nlp.Update u.
Proof.
  intros Hs. unfold Nlp.batch_line.
  destruct (negb (Py.truthy (Py.strip raw))); [discriminate|].
  rewrite (search_group_needs_digit true _ _ batch_task_pattern_needs_digit
                                    (strip_no_digit _ Hs)).
  discriminate.
Qed.

Lemma batch_loop_no_digit (lines : list string) :
  Forall no_digit lines ->
  forall i ups inv, fst (Nlp.batch_loop i lines ups inv) = ups.
Proof.
  induction 1 as [|raw more Hraw _ IH]; intros i ups inv; [reflexivity|].
  cbn [Nlp.batch_loop]. destruct (Nlp.batch_line i raw) eqn:E; auto.
  now destruct (batch_line_no_digit i raw u Hraw).
Qed.

Lemma Forall_tl {A} (P : A -> Prop) (l : list A) : Forall P l -> Forall P (tl l).
Proof. destruct 1; [constructor | assumption]. Qed.

(** The extractor finds no work-item id in a text without digits. *)
Lemma no_digit_no_work_item_id (text intent : string) :
  no_digit text -> no_work_item_id (Nlp._extract_entities text intent).
Proof.
  intros Hs. unfold Nlp._extract_entities.
  destruct (found false Nlp.batch_update_pattern (Py.lower text)).
  - unfold Nlp._extract_batch_updates.
    pose proof (batch_loop_no_digit (tl (Py.split Py.newline text))
                  (Forall_tl _ _ (split_no_digit Py.newline text Hs)) 1%nat [] []) as Hu.
    destruct (Nlp.batch_loop 1 (tl (Py.split Py.newline text)) [] []) as [ups inv].
    cbn [fst] in Hu. subst ups.
    destruct inv; split; cbn; try reflexivity; intros u us; discriminate.
  - split; cbn [task_id batch_updates].
    + apply first_search_needs_digit; [apply task_id_patterns_need_digit | exact Hs].
    + intros u us. discriminate.
Qed.

End NoDigit.

(** A consequence for C1, on the text alone: an ASCII text with an update
    verb and no digit anywhere.  The tool result is a failure, nothing is dispatched, and with a
    usable backend the answer is the instruction of the safety check. *)
Lemma update_without_digit_is_rejected (env : Env) (text : string) (w : World) :
  Py.is_ascii text = true ->
  Nlp.has_update_keyword text = true ->
  no_digit text ->
  exists r w1 e w2,
    Orch._execute_azure_devops env "task_update"
                               (Nlp._extract_entities text "task_update") w = (Ok r, w1)
    /\ Orch.success r = false
    /\ (backend_ready env w ->
        Orch.message r = gate_message (Nlp._extract_entities text "task_update"))
    /\ Orch.process_query env text w = (Ok e, w2)
    /\ Orch.env_response e = Orch.apology_prefix ++ Orch.message r
    /\ update_calls (log w2) = update_calls (log w)
    /\ patch_calls (log w2) = patch_calls (log w).
Proof.
  intros _ Hk Hs.
  destruct (azure_rejects_without_id env _ w (no_digit_no_work_item_id text "task_update" Hs))
    as (r & w1 & Hr & Hsucc & Hm & Hu & Hp).
  destruct (process_query_update env text w w1 r Hk Hr)
    as (e & w2 & Hq & Hresp & _ & _ & _ & _ & Hl).
  exists r, w1, e, w2. rewrite Hsucc in Hresp. rewrite Hl. repeat split; auto.
Qed.

(** ** End-to-end runs of [update_work_item] *)

(** A status "resolved" for a work item that the backend knows as a Task:
    the type is looked up, and the PATCH carries the state "Active". *)
Example resolved_on_task_is_patched_as_active :
  exists res w',
    Ado.update_work_item (stub_env (fun _ => false)) 73401
                         [(Some "status", VStr "resolved")] (mkWorld [] true [])
    = (Ok res, w')
    /\ log w'
       = [EvUpdateWorkItem 73401 [(Some "status", VStr "resolved")];
          EvGetWorkItem 73401;
          EvPatchWorkItem 73401 [mkOperation "/fields/System.State" (VStr "Active")]].
Proof. eexists _, _. split; reflexivity. Qed.

(** The end-to-end scenario of the original-estimate update: the id written
    with a space is extracted, the value is sent as the integer 13 and the
    summary names the field. *)
Example original_estimate_end_to_end :
  exists e w',
    Orch.process_query (stub_env (fun _ => false))
                       "update task 73418, for original estimate to 13" initial_world
    = (Ok e, w')
    /\ Orch.env_response e
       = Orch.updated_header "73418" ++ Orch.bullet ++ "original_estimate: 13"
    /\ patch_calls (log w')
       = [EvPatchWorkItem 73418
            [mkOperation "/fields/Microsoft.VSTS.Scheduling.OriginalEstimate" (VInt 13)]].
Proof. eexists _, _. split; [vm_compute; reflexivity|]. split; reflexivity. Qed.

(* ================================================================== *)
(** * Further properties of the code                                   *)
(* ================================================================== *)

(** ** What a capturing group can hold *)
Section Captures.
Import Re.

Lemma length_drop (j : nat) (s : string) :
  String.length (drop j s) = (String.length s - j)%nat.
Proof.
  revert s. induction j as [|j IH]; intros s; cbn; [lia|].
  destruct s as [|c s]; cbn; [reflexivity | apply IH].
Qed.

Lemma run_le_length (icase : bool) (p : ascii -> bool) (hi : option nat) (s : string) :
  (run icase p hi s <= String.length s)%nat.
Proof.
  revert hi. induction s as [|c s IH]; intros hi; cbn; [lia|].
  destruct hi as [[|n]|]; [lia | |];
    destruct (in_class icase p c); try lia.
  - specialize (IH (Some n)). lia.
  - specialize (IH None). lia.
Qed.

Lemma take_run_class (icase : bool) (p : ascii -> bool) (hi : option nat) (s : string) :
  forall j, (j <= run icase p hi s)%nat ->
            Py.forall_chars (in_class icase p) (take j s) = true.
Proof.
  revert hi. induction s as [|c s IH]; intros hi j Hj.
  - destruct j; reflexivity.
  - destruct j as [|j]; [reflexivity|]. cbn in Hj. cbn [take Py.forall_chars].
    destruct hi as [[|n]|]; [lia | |];
      destruct (in_class icase p c) eqn:Hc; try lia; cbn [andb].
    + apply (IH (Some n)). lia.
    + apply (IH None). lia.
Qed.

Lemma take_nonempty (j : nat) (s : string) :
  (1 <= j <= String.length s)%nat -> take j s <> EmptyString.
Proof.
  destruct j as [|j]; [lia|]. destruct s as [|c s]; cbn; [lia | discriminate].
Qed.

(** A successful greedy repetition handed some [drop j s] with [lo <= j <= n]
    to its continuation. *)
Lemma give_back_some {A} (n lo : nat) (s : string)
      (k : string -> option A) (a : A) :
  give_back n lo s k = Some a ->
  exists j, (lo <= j <= n)%nat /\ k (drop j s) = Some a.
Proof.
  induction n as [|n IH]; cbn [give_back].
  - destruct (0 <? lo)%nat eqn:E; [discriminate|]. apply Nat.ltb_ge in E.
    destruct (k (drop 0 s)) eqn:Hk; [|discriminate].
    intros [= <-]. exists 0%nat. split; [lia | exact Hk].
  - destruct (S n <? lo)%nat eqn:E; [discriminate|]. apply Nat.ltb_ge in E.
    destruct (k (drop (S n) s)) eqn:Hk.
    + intros [= <-]. exists (S n). split; [lia | exact Hk].
    + intros H. destruct (IH H) as (j & Hj & Hkj). exists j. split; [lia | exact Hkj].
Qed.

(** A pattern without group hands the capture it received to its
    continuation. *)
Lemma no_group_m {A} (icase : bool) (r : regex) :
  no_group r ->
  forall (g : option string) (s : string) (k : option string -> string -> option A) a,
    m icase r g s k = Some a -> exists s', k g s' = Some a.
Proof.
  induction 1 as [l | p | p lo hi | r1 r2 _ IH1 _ IH2 | r1 r2 _ IH1 _ IH2];
    intros g s k a; cbn [m].
  - destruct (eat icase l s); [eauto | discriminate].
  - destruct s as [|c s]; [discriminate|].
    destruct (in_class icase p c); [eauto | discriminate].
  - intros H. destruct (give_back_some _ _ _ _ _ H) as (j & _ & Hk). eauto.
  - intros H. destruct (IH1 _ _ _ _ H) as (s1 & H1). exact (IH2 _ _ _ _ H1).
  - destruct (m icase r1 g s k) eqn:E.
    + intros [= <-]. exact (IH1 _ _ _ _ E).
    + apply IH2.
Qed.

(** A pattern with one group hands a captured text to its continuation. *)
Lemma one_group_m {A} (icase : bool) (p : ascii -> bool) (r : regex) :
  one_group p r ->
  forall (g : option string) (s : string) (k : option string -> string -> option A) a,
    m icase r g s k = Some a ->
    exists c s', captured icase p c /\ k (Some c) s' = Some a.
Proof.
  induction 1 as [lo hi | r1 r2 _ IH1 H2 | r1 r2 H1 _ IH2 | r1 r2 _ IH1 _ IH2];
    intros g s k a; cbn [m].
  - intros H. destruct (give_back_some _ _ _ _ _ H) as (j & Hj & Hk).
    rewrite length_drop in Hk.
    pose proof (run_le_length icase p hi s) as Hrun.
    replace (String.length s - (String.length s - j))%nat with j in Hk by lia.
    exists (take j s), (drop j s). split; [split|exact Hk].
    + apply take_nonempty. lia.
    + apply (take_run_class icase p hi). lia.
  - intros H. destruct (IH1 _ _ _ _ H) as (c & s1 & Hc & Hk).
    destruct (no_group_m icase r2 H2 _ _ _ _ Hk) as (s2 & Hk2). eauto.
  - intros H. destruct (no_group_m icase r1 H1 _ _ _ _ H) as (s1 & Hk).
    exact (IH2 _ _ _ _ Hk).
  - destruct (m icase r1 g s k) eqn:E.
    + intros [= <-]. exact (IH1 _ _ _ _ E).
    + apply IH2.
Qed.

Lemma match_here_captured (icase : bool) (p : ascii -> bool) (r : regex) (s : string)
      (res : result) :
  one_group p r -> match_here icase r s = Some res ->
  exists c, group1 res = Some c /\ captured icase p c.
Proof.
  intros Hr H. unfold match_here in H.
  destruct (one_group_m icase p r Hr _ _ _ _ H) as (c & s' & Hc & [= <-]).
  exists c. split; [reflexivity | exact Hc].
Qed.

Lemma search_captured (icase : bool) (p : ascii -> bool) (r : regex) (s : string)
      (res : result) :
  one_group p r -> search icase r s = Some res ->
  exists c, group1 res = Some c /\ captured icase p c.
Proof.
  intros Hr. induction s as [|x s IH]; cbn [search];
    destruct (match_here icase r _) eqn:E; try discriminate;
    try (intros [= <-]; exact (match_here_captured _ _ _ _ _ Hr E)).
  exact IH.
Qed.

(** [re.search(...).group(1)] of a one-group pattern is a captured text. *)
Lemma search_group_captured (icase : bool) (p : ascii -> bool) (r : regex) (s c : string) :
  one_group p r -> search_group icase r s = Some c -> captured icase p c.
Proof.
  intros Hr. unfold search_group. destruct (search icase r s) as [res|] eqn:E; [|discriminate].
  destruct (search_captured _ _ _ _ _ Hr E) as (c' & -> & Hc). now intros [= <-].
Qed.

(** Every element of [re.findall] of a one-group pattern is a captured text. *)
Lemma findall_captured (icase : bool) (p : ascii -> bool) (r : regex) (s : string) :
  one_group p r -> Forall (captured icase p) (findall icase r s).
Proof.
  intros Hr. unfold findall. generalize (S (String.length s)) as fuel.
  intros fuel. revert s. induction fuel as [|fuel IH]; intros s; cbn [findall_fuel];
    [constructor|].
  destruct (match_here icase r s) as [res|] eqn:E.
  - destruct (match_here_captured _ _ _ _ _ Hr E) as (c & -> & Hc).
    destruct (String.length (rest res) <? String.length s)%nat.
    + constructor; [exact Hc | apply IH].
    + constructor; [exact Hc|]. destruct s; [constructor | apply IH].
  - destruct s; [constructor | apply IH].
Qed.

Lemma digit_class_any_case (icase : bool) (c : ascii) :
  in_class icase digit c = true -> Py.is_digit c = true.
Proof.
  destruct (Py.is_digit c) eqn:E; [reflexivity|].
  now rewrite (not_digit_any_case icase c E).
Qed.

Lemma word_class_any_case (icase : bool) (c : ascii) :
  in_class icase word c = true -> Py.is_word c = true.
Proof.
  unfold in_class, word. destruct icase; [|auto].
  destruct c as [[] [] [] [] [] [] [] []]; (discriminate || reflexivity).
Qed.

Lemma forall_chars_impl (p q : ascii -> bool) (s : string) :
  (forall c, p c = true -> q c = true) ->
  Py.forall_chars p s = true -> Py.forall_chars q s = true.
Proof.
  intros Hpq. induction s as [|c s IH]; cbn; [auto|].
  intros H. apply andb_prop in H as [Hc Hs]. now rewrite (Hpq c Hc), IH.
Qed.

(** A captured run of [\d] is a text accepted by [str.isdigit]. *)
Lemma captured_digits (icase : bool) (c : string) :
  captured icase digit c -> Py.isdigit c = true.
Proof.
  intros [Hne Hall]. destruct c as [|x c]; [congruence|]. unfold Py.isdigit.
  exact (forall_chars_impl _ _ _ (digit_class_any_case icase) Hall).
Qed.

End Captures.

(** ** Invariants of the entity extractor *)
Section ExtractorInvariants.
Import Re.

Lemma first_search_captured (icase : bool) (p : ascii -> bool) (ps : list regex)
      (s c : string) :
  Forall (one_group p) ps -> Nlp.first_search icase ps s = Some c -> captured icase p c.
Proof.
  induction 1 as [|r ps Hr _ IH]; cbn [Nlp.first_search]; [discriminate|].
  destruct (search_group icase r s) as [g|] eqn:E.
  - intros [= <-]. exact (search_group_captured _ _ _ _ _ Hr E).
  - exact IH.
Qed.

Lemma all_findall_captured (p : ascii -> bool) (ps : list regex) (s : string) :
  Forall (one_group p) ps -> Forall (captured true p) (Nlp.all_findall ps s).
Proof.
  unfold Nlp.all_findall. induction 1 as [|r ps Hr _ IH]; cbn [flat_map]; [constructor|].
  apply Forall_app. split; [now apply findall_captured | exact IH].
Qed.

Lemma task_id_patterns_one_group : Forall (one_group digit) Nlp.task_id_patterns.
Proof.
  unfold Nlp.task_id_patterns, Nlp.type_words, plus. cbn [map app].
  repeat (apply Forall_cons; [auto 10 using one_group, no_group|]). apply Forall_nil.
Qed.

Lemma number_patterns_one_group :
  Forall (one_group digit) Nlp.remaining_patterns
  /\ Forall (one_group digit) Nlp.completed_patterns
  /\ Forall (one_group digit) Nlp.original_estimate_patterns.
Proof.
  unfold Nlp.remaining_patterns, Nlp.completed_patterns, Nlp.original_estimate_patterns,
    Nlp.to_number, Nlp.then_number, Nlp.arrow_number, plus, star.
  repeat split;
    repeat (apply Forall_cons; [auto 12 using one_group, no_group|]); apply Forall_nil.
Qed.

Lemma or_empty_nonempty {A} (l : list A) :
  match Nlp.nonempty l with Some x => x | None => [] end = l.
Proof. destruct l; reflexivity. Qed.

Lemma Forall_captured_digits (l : list string) :
  Forall (captured true digit) l -> Forall (fun v => Py.isdigit v = true) l.
Proof. apply Forall_impl. intros c. apply captured_digits. Qed.

(** The three numeric families of any text hold numeric texts only. *)
Lemma extracted_numbers (text intent : string) :
  Forall (fun v => Py.isdigit v = true)
         (Orch.or_empty (remaining_values (Nlp._extract_entities text intent)))
  /\ Forall (fun v => Py.isdigit v = true)
            (Orch.or_empty (completed_values (Nlp._extract_entities text intent)))
  /\ Forall (fun v => Py.isdigit v = true)
            (Orch.or_empty (original_estimate_values (Nlp._extract_entities text intent))).
Proof.
  destruct number_patterns_one_group as (Hr & Hc & Ho).
  unfold Nlp._extract_entities.
  destruct (found false Nlp.batch_update_pattern (Py.lower text)).
  - destruct (Nlp._extract_batch_updates text); repeat split; constructor.
  - cbn [remaining_values completed_values original_estimate_values]. unfold Orch.or_empty.
    rewrite !or_empty_nonempty.
    repeat split; apply Forall_captured_digits, all_findall_captured; assumption.
Qed.

Lemma set_int_field_numeric n names values fu :
  Forall (fun v => Py.isdigit v = true) values ->
  Forall (fun v => (String.length v <= 4300)%nat) values ->
  exists fu', Orch.set_int_field n names values fu = Ok fu'.
Proof.
  intros H Hl. unfold Orch.set_int_field. destruct H as [|v rest Hv _]; [eauto|].
  destruct (Orch.names_mem n names); [|eauto].
  inversion Hl as [|? ? Hlv _]; subst.
  rewrite (int_of_digits v Hv Hlv). eauto.
Qed.

End ExtractorInvariants.

(** X1 — A work-item id extracted from a text is always a non-empty text of
    digits, so the format check of the safety gate ("Invalid Work Item ID
    Format") cannot fail on an extracted id; [int(task_id)] reads the id when
    it has at most 4300 digits and raises its [ValueError] when it has more. *)
Theorem extracted_task_id_is_numeric :
  forall (text intent tid : string),
    task_id (Nlp._extract_entities text intent) = Some tid ->
    Py.isdigit tid = true
    /\ Py.truthy tid = true
    /\ ((String.length tid <= 4300)%nat -> Py.int tid = Some (Py.digits_value 0 tid))
    /\ ((4300 < String.length tid)%nat -> Py.int tid = None).
Proof.
  intros text intent tid H.
  assert (Hd : Py.isdigit tid = true).
  { unfold Nlp._extract_entities in H.
    destruct (Re.found false Nlp.batch_update_pattern (Py.lower text)).
    - destruct (Nlp._extract_batch_updates text); discriminate H.
    - cbn [task_id] in H.
      exact (captured_digits true tid
               (first_search_captured true Re.digit _ _ _ task_id_patterns_one_group H)). }
  split; [exact Hd|]. split; [now destruct tid|]. split.
  - now apply int_of_digits.
  - intros Hl. now apply int_of_long_digits.
Qed.

(** Witness of X1: an id in brackets. *)
Lemma extracted_task_id_is_numeric_witness :
  Py.isdigit "0042" = true /\ Py.int "0042" = Some 42.
Proof.
  destruct (extracted_task_id_is_numeric "Change [BUG-0042] title" "task_update" "0042")
    as (Hd & _ & Hi & _); [vm_compute; reflexivity|].
  split; [exact Hd | apply Hi; vm_compute; lia].
Defined.

(** X2 — For every text, the values of the remaining, completed and
    original-estimate families that the extractor produced are numeric texts;
    so the single-item planner, run on these entities, returns a plan whenever
    none of these values has more than 4300 digits (the only way left for one
    of its [int()] conversions to raise). *)
Theorem planner_accepts_extracted_entities :
  forall (text intent : string),
    Forall (fun v => Py.isdigit v = true)
           (Orch.or_empty (remaining_values (Nlp._extract_entities text intent))
            ++ Orch.or_empty (completed_values (Nlp._extract_entities text intent))
            ++ Orch.or_empty (original_estimate_values (Nlp._extract_entities text intent)))
    /\ (Forall (fun v => (String.length v <= 4300)%nat)
               (Orch.or_empty (remaining_values (Nlp._extract_entities text intent))
                ++ Orch.or_empty (completed_values (Nlp._extract_entities text intent))
                ++ Orch.or_empty
                     (original_estimate_values (Nlp._extract_entities text intent))) ->
        exists fu, Orch.plan_field_updates (Nlp._extract_entities text intent) = Ok fu).
Proof.
  intros text intent. destruct (extracted_numbers text intent) as (Hr & Hc & Ho).
  split; [repeat (apply Forall_app; split); assumption|].
  intros Hl. apply Forall_app in Hl as [Hlr Hl]. apply Forall_app in Hl as [Hlc Hlo].
  unfold Orch.plan_field_updates.
  destruct (set_int_field_numeric "remaining"
              (Orch.plan_field_names (Nlp._extract_entities text intent)) _
              (Orch.status_step (Nlp._extract_entities text intent)
                                (Orch.dates_step (Nlp._extract_entities text intent)))
              Hr Hlr)
    as (fu2 & ->).
  destruct (set_int_field_numeric "completed"
              (Orch.plan_field_names (Nlp._extract_entities text intent)) _ fu2 Hc Hlc)
    as (fu3 & ->).
  destruct (set_int_field_numeric "original_estimate"
              (Orch.plan_field_names (Nlp._extract_entities text intent)) _ fu3 Ho Hlo)
    as (fu4 & ->).
  eauto.
Qed.

(** Witness of X2: two numeric fields in one command. *)
Lemma planner_accepts_extracted_entities_witness :
  exists fu,
    Orch.plan_field_updates
      (Nlp._extract_entities "Update TASK-12 remaining to 8 and completed to 4"
                             "task_update") = Ok fu.
Proof.
  apply (proj2 (planner_accepts_extracted_entities
                  "Update TASK-12 remaining to 8 and completed to 4" "task_update")).
  apply Forall_forall. intros v Hv. vm_compute in Hv.
  repeat (destruct Hv as [<- | Hv]; [cbn; lia|]). destruct Hv.
Defined.

(** ** Field names and the positional zip of dates *)
Section Positional.
Import Orch.

Lemma zip_dates_other (names : list (option string)) :
  forall (dates : list string) (fu : FieldUpdates) (k : option string),
    ~ In k names -> dict_get (zip_dates fu names dates) k = dict_get fu k.
Proof.
  induction names as [|n names IH]; intros dates fu k Hk; [reflexivity|].
  destruct dates as [|d dates]; [reflexivity|]. cbn [zip_dates].
  rewrite IH by (intros Hin; apply Hk; now right).
  apply dict_get_set_other. destruct (key_eqb n k) eqn:E; [|reflexivity].
  apply key_eqb_eq in E. subst. exfalso. apply Hk. now left.
Qed.

Lemma zip_dates_nth (names : list (option string)) :
  forall (dates : list string) (fu : FieldUpdates) (i : nat) (k : option string) (d : string),
    NoDup names -> nth_error names i = Some k -> nth_error dates i = Some d ->
    dict_get (zip_dates fu names dates) k = Some (VStr d).
Proof.
  induction names as [|n names IH]; intros dates fu i k d Hnd Hn Hd;
    [destruct i; discriminate|].
  destruct dates as [|d0 dates]; [destruct i; discriminate|].
  inversion Hnd as [|? ? Hnotin Hnd']; subst. cbn [zip_dates].
  destruct i as [|i]; cbn in Hn, Hd.
  - injection Hn as ->. injection Hd as ->.
    rewrite zip_dates_other by assumption. apply dict_get_set_same.
  - exact (IH dates _ i k d Hnd' Hn Hd).
Qed.

Lemma status_step_other (entities : Entities) (fu : FieldUpdates) (k : option string) :
  key_eqb (Some "status") k = false ->
  dict_get (status_step entities fu) k = dict_get fu k.
Proof.
  intros Hk. unfold status_step.
  destruct (names_mem "status" _), (or_empty (status_values entities)),
    (status entities) as [st|]; try reflexivity;
    try (destruct (Py.truthy st); [|reflexivity]); now apply dict_get_set_other.
Qed.

Lemma NoDup_map_fst_filter {A B} (f : A * B -> bool) (l : list (A * B)) :
  NoDup (map fst l) -> NoDup (map fst (filter f l)).
Proof.
  induction l as [|x l IH]; cbn; [auto|]. intros H. inversion H as [|? ? Hx Hl]; subst.
  destruct (f x); cbn; [constructor|]; auto.
  intros Hin. apply Hx. apply in_map_iff in Hin as (y & Hy & Hin).
  apply filter_In in Hin as [Hin _]. apply in_map_iff. eauto.
Qed.

(** The names found in a text are listed once each, in the order of the
    table [field_patterns]. *)
Lemma extract_field_names_nodup (user_input_lower : string) :
  NoDup (Nlp.extract_field_names user_input_lower).
Proof.
  unfold Nlp.extract_field_names. apply NoDup_map_fst_filter.
  unfold Nlp.field_patterns. cbn [map fst].
  repeat (constructor; [cbn; intuition discriminate|]). constructor.
Qed.

Lemma extracted_field_names (text intent : string) (names : list string) :
  field_names (Nlp._extract_entities text intent) = Some names ->
  names = Nlp.extract_field_names (Py.lower text).
Proof.
  unfold Nlp._extract_entities.
  destruct (Re.found false Nlp.batch_update_pattern (Py.lower text)).
  - destruct (Nlp._extract_batch_updates text); discriminate.
  - cbn [field_names]. destruct (Nlp.extract_field_names (Py.lower text)); [discriminate|].
    now intros [= <-].
Qed.

Lemma NoDup_map_Some {A} (l : list A) : NoDup l -> NoDup (map (@Some A) l).
Proof.
  induction 1 as [|x l Hx _ IH]; cbn; constructor; [|exact IH].
  intros Hin. apply in_map_iff in Hin as (y & [= ->] & Hin). contradiction.
Qed.

End Positional.

(** X3 — Dates are paired with field names by position.  In the plan built
    from a text, the i-th field name receives the i-th date of the text
    (for the fields that no other family overwrites: start date, finish date,
    priority, title, description); the names come once each and in the fixed
    order of the table [field_patterns], whatever the order in which the text
    mentions them. *)
Theorem dates_follow_field_order :
  forall (text intent : string) (fu : FieldUpdates) (names dates : list string)
         (i : nat) (n d : string),
    Orch.plan_field_updates (Nlp._extract_entities text intent) = Ok fu ->
    field_names (Nlp._extract_entities text intent) = Some names ->
    date_values (Nlp._extract_entities text intent) = Some dates ->
    nth_error names i = Some n ->
    nth_error dates i = Some d ->
    In n ["start_date"; "finish_date"; "priority"; "title"; "description"] ->
    dict_get fu (Some n) = Some (VStr d)
    /\ names = map fst (filter (fun kv => existsb (fun p => Re.found false (Re.Lit p)
                                                              (Py.lower text)) (snd kv))
                               Nlp.field_patterns)
    /\ NoDup names.
Proof.
  intros text intent fu names dates i n d Hplan Hnames Hdates Hn Hd Hin.
  pose proof (extracted_field_names _ _ _ Hnames) as Hcanon.
  assert (Hnd : NoDup names) by (rewrite Hcanon; apply extract_field_names_nodup).
  split; [|split; [exact Hcanon | exact Hnd]].
  assert (Hkeys : key_eqb (Some "remaining") (Some n) = false
                  /\ key_eqb (Some "completed") (Some n) = false
                  /\ key_eqb (Some "original_estimate") (Some n) = false
                  /\ key_eqb (Some "assigned_to") (Some n) = false
                  /\ key_eqb (Some "status") (Some n) = false).
  { cbn in Hin. repeat (destruct Hin as [<- | Hin]; [repeat split; reflexivity|]).
    destruct Hin. }
  destruct Hkeys as (K1 & K2 & K3 & K4 & K5).
  rewrite (plan_keeps _ _ _ Hplan K1 K2 K3 K4), status_step_other by exact K5.
  unfold Orch.dates_step, Orch.plan_field_names. rewrite Hnames, Hdates.
  cbn [Orch.or_empty].
  assert (Hmap : nth_error (map Some names) i = Some (Some n))
    by (rewrite nth_error_map, Hn; reflexivity).
  destruct names as [|n0 names]; [destruct i; discriminate|].
  destruct dates as [|d0 dates]; [destruct i; discriminate|].
  cbn [map] in *. apply (zip_dates_nth _ _ _ i); auto.
  change (Some n0 :: map Some names) with (map (@Some string) (n0 :: names)).
  now apply NoDup_map_Some.
Qed.

(** Witness of X3: the finish date is written first in the text, yet the
    first date goes to the start date. *)
Lemma dates_follow_field_order_witness :
  exists fu,
    Orch.plan_field_updates
      (Nlp._extract_entities
         "update task-1 finish date -> 08/12/2025 start date -> 08/11/2025" "task_update")
    = Ok fu
    /\ dict_get fu (Some "start_date") = Some (VStr "08/12/2025").
Proof.
  eexists. split; [vm_compute; reflexivity|].
  refine (proj1 (dates_follow_field_order
                   "update task-1 finish date -> 08/12/2025 start date -> 08/11/2025"
                   "task_update" _ ["start_date"; "finish_date"]
                   ["08/12/2025"; "08/11/2025"] 0 "start_date" "08/12/2025"
                   _ _ _ eq_refl eq_refl _));
    try (vm_compute; reflexivity).
  left. reflexivity.
Defined.

(** ** The task query and the filters it is given *)
Section TaskQuery.
Import Re.

Lemma first_key_in (table : list (string * list string)) (s k : string) :
  Nlp.first_key table s = Some k -> In k (map fst table).
Proof.
  unfold Nlp.first_key. destruct (find _ table) as [kv|] eqn:E; [|discriminate].
  intros [= <-]. apply find_some in E as [Hin _]. now apply in_map.
Qed.

Lemma extracted_status (text intent st : string) :
  status (Nlp._extract_entities text intent) = Some st ->
  In st ["active"; "new"; "resolved"; "closed"; "blocked"].
Proof.
  unfold Nlp._extract_entities.
  destruct (found false Nlp.batch_update_pattern (Py.lower text));
    [destruct (Nlp._extract_batch_updates text)|];
    cbn [status]; intros H; exact (first_key_in _ _ _ H).
Qed.

Lemma digit_is_word (c : ascii) : Py.is_digit c = true -> Py.is_word c = true.
Proof. unfold Py.is_word. intros ->. now rewrite orb_true_r. Qed.

Lemma contains_quote (s : string) :
  Py.forall_chars Py.is_word s = true -> Py.contains "'" s = false.
Proof.
  induction s as [|c s IH]; [reflexivity|]. cbn [Py.forall_chars Py.contains].
  intros H. apply andb_prop in H as [Hc Hs]. rewrite (IH Hs), orb_false_r.
  cbn [String.prefix]. destruct (ascii_dec "'" c) as [<-|]; [discriminate Hc | reflexivity].
Qed.

Lemma extracted_sprint (text intent sp : string) :
  sprint (Nlp._extract_entities text intent) = Some sp ->
  Py.truthy sp = true /\ Py.forall_chars Py.is_word sp = true.
Proof.
  unfold Nlp._extract_entities.
  destruct (found false Nlp.batch_update_pattern (Py.lower text));
    [destruct (Nlp._extract_batch_updates text); discriminate|].
  cbn [sprint]. unfold Nlp.extract_sprint.
  destruct (search_group false (Lit "sprint" · plus space · Grp (plus digit))%re _)
    as [g|] eqn:E1.
  - intros [= <-].
    assert (Hc : captured false digit g).
    { apply (search_group_captured false digit _ _ _) in E1; [exact E1|].
      unfold plus. auto 8 using one_group, no_group. }
    destruct Hc as [Hne Hall]. split; [now destruct g|].
    apply (forall_chars_impl _ _ _ (fun c H => digit_is_word c (digit_class_any_case false c H))
                             Hall).
  - destruct (search_group false (Lit "sprint" · plus space · Grp (plus word))%re _)
      as [g|] eqn:E2.
    + intros [= <-].
      assert (Hc : captured false word g).
      { apply (search_group_captured false word _ _ _) in E2; [exact E2|].
        unfold plus. auto 8 using one_group, no_group. }
      destruct Hc as [Hne Hall]. split; [now destruct g|].
      apply (forall_chars_impl _ _ _ (word_class_any_case false) Hall).
    + destruct (found false _ _); [intros [= <-]; split; reflexivity|].
      destruct (found false _ _); [intros [= <-]; split; reflexivity | discriminate].
Qed.

End TaskQuery.

(** X4 — The filters of the task query never carry raw user text.  The
    status extracted from a text is one of the five tokens of the table of
    [get_my_tasks], so the status filter is the mapped [IN (...)] list and
    never the quoted raw value; the sprint extracted from a text is a non-empty
    run of word characters, so it contains no quote and the sprint filter is
    one quoted literal. *)
Theorem task_query_filters_are_closed :
  forall (text intent : string),
    (forall st, status (Nlp._extract_entities text intent) = Some st ->
                exists states,
                  Ado.lookup st AdoConn.tasks_status_mapping = Some states
                  /\ AdoConn.status_filter (Some st) = "AND [System.State] IN " ++ states)
    /\ (forall sp, sprint (Nlp._extract_entities text intent) = Some sp ->
                   Py.forall_chars Py.is_word sp = true
                   /\ Py.contains "'" sp = false
                   /\ AdoConn.sprint_filter (Some sp)
                      = "AND [System.IterationPath] = '" ++ sp ++ "'").
Proof.
  intros text intent. split.
  - intros st H. apply extracted_status in H. cbn in H.
    repeat (destruct H as [<- | H]; [eexists; split; reflexivity|]). destruct H.
  - intros sp H. destruct (extracted_sprint _ _ _ H) as [Ht Hw].
    repeat split; [exact Hw | now apply contains_quote |].
    unfold AdoConn.sprint_filter. now rewrite Ht.
Qed.

(** Witness of X4: a query with a quote after the sprint word. *)
Lemma task_query_filters_are_closed_witness :
  AdoConn.sprint_filter (sprint (Nlp._extract_entities
                                   "show in progress tasks of sprint 12' OR 1=1" "tasks"))
  = "AND [System.IterationPath] = '12'"
  /\ AdoConn.status_filter (status (Nlp._extract_entities
                                      "show in progress tasks of sprint 12' OR 1=1" "tasks"))
     = "AND [System.State] IN ('Active', 'In Progress')".
Proof.
  destruct (task_query_filters_are_closed "show in progress tasks of sprint 12' OR 1=1"
                                          "tasks") as [Hst Hsp].
  destruct (Hsp "12") as (_ & _ & Hf); [vm_compute; reflexivity|].
  destruct (Hst "active") as (states & Hl & Hf'); [vm_compute; reflexivity|].
  split.
  - replace (sprint _) with (Some "12") by (vm_compute; reflexivity). exact Hf.
  - replace (status _) with (Some "active") by (vm_compute; reflexivity).
    rewrite Hf'. injection Hl as <-. reflexivity.
Defined.

(** ** The closed set of intents *)
Section Intents.
Import Nlp.

Lemma parse_intent_names (response text : string) :
  In (name (_parse_intent_response response text))
     ["timesheet"; "tasks"; "task_update"; "meetings"; "pull_requests"; "summary"]
  /\ In (confidence (_parse_intent_response response text)) [conf_0_8; conf_0_5].
Proof.
  unfold _parse_intent_response.
  destruct (find _ intent_mapping) as [[k i]|] eqn:E.
  - apply find_some in E as [Hin _]. cbn [name confidence]. split; [|now left].
    cbn in Hin.
    repeat (destruct Hin as [[= _ <-] | Hin]; [cbn; tauto|]). destruct Hin.
  - cbn. tauto.
Qed.

Lemma fallback_intent_names (text : string) :
  In (name (_fallback_intent_classification text))
     ["timesheet"; "tasks"; "task_update"; "meetings"; "pull_requests"; "summary"]
  /\ In (confidence (_fallback_intent_classification text))
        [conf_0_8; conf_0_6; conf_0_3]
  /\ (name (_fallback_intent_classification text) <> "task_update" ->
      entities (_fallback_intent_classification text) = no_entities).
Proof.
  unfold _fallback_intent_classification.
  repeat match goal with
         | |- context [if ?b then _ else _] => destruct b
         end; cbn; repeat split; try tauto; congruence.
Qed.

End Intents.

(** X5 — Whatever the text and whatever the external classifier answers or
    raises, [classify_intent] returns an intent whose name is one of the six
    intents and whose confidence is one of the constants 0.3, 0.5, 0.6 and
    0.8; [_select_tool] then picks one of the tools listed by [get_tools]. *)
Theorem intent_is_one_of_six :
  forall (env : Env) (text : string) (w : World),
  exists intent w',
    Nlp.classify_intent env text w = (Ok intent, w')
    /\ In (name intent)
          ["timesheet"; "tasks"; "task_update"; "meetings"; "pull_requests"; "summary"]
    /\ In (confidence intent) [Nlp.conf_0_3; Nlp.conf_0_5; Nlp.conf_0_6; Nlp.conf_0_8]
    /\ (forall conf ents txt,
           In (Orch._select_tool (Nlp.mkNlpResult (name intent) conf ents txt true))
              OrchState.get_tools).
Proof.
  intros env text w.
  assert (Htool : forall n conf ents txt,
             In n ["timesheet"; "tasks"; "task_update"; "meetings"; "pull_requests";
                   "summary"] ->
             In (Orch._select_tool (Nlp.mkNlpResult n conf ents txt true))
                OrchState.get_tools).
  { intros n conf ents txt Hn. cbn in Hn.
    repeat (destruct Hn as [<- | Hn]; [cbn; tauto|]). destruct Hn. }
  destruct (Nlp.has_update_keyword text) eqn:Hk.
  - rewrite classify_with_update_keyword by assumption.
    destruct (fallback_intent_names text) as (Hn & Hc & _).
    eexists _, _. split; [reflexivity|]. split; [exact Hn|]. split.
    + cbn in Hc |- *. tauto.
    + intros. now apply Htool.
  - rewrite classify_without_update_keyword by assumption.
    destruct (call_openai env (log w) text) as [response|e].
    + destruct (parse_intent_names response text) as (Hn & Hc).
      eexists _, _. split; [reflexivity|]. split; [exact Hn|]. split.
      * cbn in Hc |- *. tauto.
      * intros. now apply Htool.
    + destruct (fallback_intent_names text) as (Hn & Hc & _).
      eexists _, _. split; [reflexivity|]. split; [exact Hn|]. split.
      * cbn in Hc |- *. tauto.
      * intros. now apply Htool.
Qed.

(** X6 — A reply of the external classifier that contains the word "task"
    is never read as [task_update]: the key "task" stands before "task update"
    and "update" in [intent_mapping], so the reply is read as [tasks] (or as
    [timesheet] when it contains that word), even when the reply is the label
    "task_update" itself. *)
Theorem reply_with_task_is_not_an_update :
  forall (response text : string),
    Py.contains "task" (Py.strip (Py.lower response)) = true ->
    name (Nlp._parse_intent_response response text)
    = (if Py.contains "timesheet" (Py.strip (Py.lower response))
       then "timesheet" else "tasks")
    /\ name (Nlp._parse_intent_response response text) <> "task_update".
Proof.
  intros response text H. unfold Nlp._parse_intent_response, Nlp.intent_mapping.
  cbn [find fst]. destruct (Py.contains "timesheet" _); [split; [reflexivity|discriminate]|].
  rewrite H. split; [reflexivity | discriminate].
Qed.

(** Witness of X6: the label of the update intent, as the prompt spells it. *)
Lemma reply_with_task_is_not_an_update_witness :
  name (Nlp._parse_intent_response "task_update" "Assign TASK-7 to me") = "tasks".
Proof.
  destruct (reply_with_task_is_not_an_update "task_update" "Assign TASK-7 to me" eq_refl)
    as [H _].
  exact H.
Defined.

(** ** The conversation history *)
Section History.

Lemma keeps_ret {A} (a : A) : keeps_history (ret a).
Proof. intros w. reflexivity. Qed.

Lemma keeps_raise {A} (e : string) : keeps_history (@raise A e).
Proof. intros w. reflexivity. Qed.

Lemma keeps_bind {A B} (c : M A) (f : A -> M B) :
  keeps_history c -> (forall a, keeps_history (f a)) -> keeps_history (bind c f).
Proof.
  intros Hc Hf w. unfold bind. specialize (Hc w).
  destruct (c w) as [[a|e] w0]; cbn [snd] in *; [|exact Hc].
  now rewrite Hf.
Qed.

Lemma keeps_catch {A} (c : M A) (h : string -> M A) :
  keeps_history c -> (forall e, keeps_history (h e)) -> keeps_history (catch c h).
Proof.
  intros Hc Hh w. unfold catch. specialize (Hc w).
  destruct (c w) as [[a|e] w0]; cbn [snd] in *; [exact Hc|].
  now rewrite Hh.
Qed.

Lemma keeps_update_work_item (env : Env) (id : Z) (fu : FieldUpdates) :
  keeps_history (Ado.update_work_item env id fu).
Proof.
  intros w. destruct (update_work_item_calls env id fu w) as (res & w' & -> & _ & _ & H).
  exact H.
Qed.

Lemma keeps_handle_batch (env : Env) (batch : list BatchUpdate) :
  keeps_history (Orch._handle_batch_updates env batch).
Proof.
  unfold Orch._handle_batch_updates.
  destruct (filter _ _); [|apply keeps_ret].
  apply keeps_bind; [|intros; apply keeps_ret].
  intros w. destruct (batch_dispatch_spec env batch [] [] w)
    as (rs & fs & w' & -> & _ & _ & _ & _ & H).
  exact H.
Qed.

Lemma keeps_ensure_session (env : Env) : keeps_history (Orch.ensure_session env).
Proof.
  intros w. unfold Orch.ensure_session.
  destruct (session w); [reflexivity|]. now destruct (setup env (log w)).
Qed.

Lemma keeps_task_update_branch (env : Env) (ents : Entities) :
  keeps_history (Orch.task_update_branch env ents).
Proof.
  unfold Orch.task_update_branch.
  destruct (batch_update_error ents); [apply keeps_ret|].
  destruct (batch_updates ents) as [[|u us]|]; try apply keeps_handle_batch;
    (destruct (task_id ents) as [tid|]; [|apply keeps_ret];
     destruct (negb (Py.truthy tid)); [apply keeps_ret|];
     destruct (negb (Py.isdigit tid)); [apply keeps_ret|];
     destruct (Orch.plan_field_updates ents) as [[|f fs]|e];
     [apply keeps_ret | | apply keeps_raise];
     (apply keeps_catch; [|intros; apply keeps_ret]);
     destruct (Py.int tid); [|apply keeps_raise];
     apply keeps_bind; [apply keeps_update_work_item | intros; apply keeps_ret]).
Qed.

Lemma keeps_execute_tool (env : Env) (tool : string) (nlp : Nlp.NlpResult) :
  keeps_history (Orch._execute_tool env tool nlp).
Proof.
  unfold Orch._execute_tool.
  apply keeps_catch; [|intros; apply keeps_ret].
  destruct (String.eqb tool "azure_devops");
    [|repeat (destruct (String.eqb tool _); [apply keeps_ret|]); apply keeps_ret].
  unfold Orch._execute_azure_devops.
  apply keeps_catch; [|intros; apply keeps_ret].
  destruct (negb (tool_available env)); [apply keeps_ret|].
  apply keeps_bind; [apply keeps_ensure_session|].
  intros [r|]; [apply keeps_ret|].
  destruct (String.eqb _ "tasks").
  { intros w. unfold Orch.tasks_branch. now destruct (get_my_tasks env _ _ _). }
  destruct (String.eqb _ "pull_requests").
  { intros w. unfold Orch.pull_requests_branch. now destruct (get_my_pull_requests env _ _). }
  destruct (String.eqb _ "task_update"); [apply keeps_task_update_branch | apply keeps_ret].
Qed.

Lemma keeps_nlp_process_query (env : Env) (text : string) :
  keeps_history (Nlp.process_query env text).
Proof.
  intros w. unfold Nlp.process_query, bind.
  destruct (classify_total env text w) as (i & w' & -> & _ & H). exact H.
Qed.

(** One query appends one entry to the history and keeps the last ten. *)
Lemma process_query_history (env : Env) (text : string) (w : World) :
  exists e w' entry,
    Orch.process_query env text w = (Ok e, w')
    /\ h_user_input entry = text
    /\ h_response entry = Orch.env_response e
    /\ conversation_history w'
       = Orch.last_n 10 (conversation_history w ++ [entry]).
Proof.
  destruct (nlp_process_query_total env text w) as (nlp & w0 & H0 & _).
  destruct (execute_tool_total env (Orch._select_tool nlp) nlp w0) as (r & w1 & H1).
  pose proof (keeps_nlp_process_query env text w) as K0. rewrite H0 in K0.
  pose proof (keeps_execute_tool env (Orch._select_tool nlp) nlp w0) as K1.
  rewrite H1 in K1. cbn [snd] in K0, K1.
  unfold Orch.process_query, catch, bind. rewrite H0, H1.
  unfold Orch._update_conversation_history, ret. cbn [fst snd].
  eexists _, _, (mkHistoryEntry text (Nlp.nlp_intent nlp) (Nlp.nlp_confidence nlp)
                               (Nlp.nlp_entities nlp) (Orch._generate_response nlp r)).
  split; [reflexivity|]. cbn [h_user_input h_response Orch.env_response
    Orch.envelope_of conversation_history].
  split; [reflexivity|]. split; [reflexivity|].
  rewrite K1, K0.
  destruct (10 <? _)%nat eqn:E; [reflexivity|].
  apply Nat.ltb_ge in E. unfold Orch.last_n.
  replace (_ - 10)%nat with 0%nat by lia. reflexivity.
Qed.

Lemma last_n_short {A} (n : nat) (l : list A) :
  (List.length l <= n)%nat -> Orch.last_n n l = l.
Proof.
  intros H. unfold Orch.last_n. replace (_ - n)%nat with 0%nat by lia. reflexivity.
Qed.

Lemma length_last_n {A} (n : nat) (l : list A) :
  List.length (Orch.last_n n l) = Nat.min n (List.length l).
Proof. unfold Orch.last_n. rewrite length_skipn. lia. Qed.

Lemma last_n_map {A B} (f : A -> B) (n : nat) (l : list A) :
  map f (Orch.last_n n l) = Orch.last_n n (map f l).
Proof. unfold Orch.last_n. now rewrite skipn_map, length_map. Qed.

Lemma skipn_app_exact {A} (a b : list A) (k : nat) :
  skipn (List.length a + k) (a ++ b) = skipn k b.
Proof. induction a; [reflexivity | exact IHa]. Qed.

Lemma last_n_app {A} (n : nat) (a b : list A) :
  Orch.last_n n (Orch.last_n n a ++ b) = Orch.last_n n (a ++ b).
Proof.
  destruct (Nat.le_gt_cases (List.length a) n) as [H|H].
  - now rewrite (last_n_short n a H).
  - unfold Orch.last_n at 2.
    rewrite <- (firstn_skipn (List.length a - n) a) at 3.
    set (a1 := firstn (List.length a - n) a). set (a2 := skipn (List.length a - n) a).
    assert (L1 : List.length a1 = (List.length a - n)%nat)
      by (unfold a1; rewrite length_firstn; lia).
    assert (L2 : List.length a2 = n) by (unfold a2; rewrite length_skipn; lia).
    unfold Orch.last_n. rewrite <- app_assoc, !length_app, L1, L2.
    replace (List.length a - n + (n + List.length b) - n)%nat
      with (List.length a1 + (n + List.length b - n))%nat by lia.
    now rewrite skipn_app_exact.
Qed.

End History.

(** X7 — The conversation history keeps the last ten queries, oldest first.
    After any sequence of queries, answered in whatever way by the services,
    the user inputs recorded in the history are the last ten of the inputs
    recorded before followed by the queries asked, so the history never holds
    more than ten entries and every query is recorded, also one that was
    rejected or whose tool failed. *)
Theorem history_keeps_last_ten :
  forall (env : Env) (texts : list string) (w : World),
    (List.length (conversation_history w) <= 10)%nat ->
    map h_user_input
        (OrchState.get_conversation_history (OrchState.run_queries env texts w))
    = Orch.last_n 10 (map h_user_input (conversation_history w) ++ texts)
    /\ List.length (OrchState.get_conversation_history
                      (OrchState.run_queries env texts w))
       = Nat.min 10 (List.length (conversation_history w) + List.length texts).
Proof.
  intros env texts w H.
  assert (G : map h_user_input
                  (conversation_history (OrchState.run_queries env texts w))
              = Orch.last_n 10 (map h_user_input (conversation_history w) ++ texts)).
  { revert w H. induction texts as [|t more IH]; intros w H.
    - cbn [OrchState.run_queries]. rewrite app_nil_r, last_n_short; [reflexivity|].
      now rewrite length_map.
    - cbn [OrchState.run_queries].
      destruct (process_query_history env t w) as (e & w' & entry & -> & Hu & _ & Hh).
      cbn [snd]. rewrite IH.
      + rewrite Hh, last_n_map, map_app. cbn [map]. rewrite Hu, last_n_app.
        now rewrite <- app_assoc.
      + rewrite Hh, length_last_n. lia. }
  unfold OrchState.get_conversation_history. split; [exact G|].
  rewrite <- (length_map h_user_input), G, length_last_n, length_app, length_map.
  reflexivity.
Qed.

(** Witness of X7: twelve queries asked to a fresh agent. *)
Lemma history_keeps_last_ten_witness :
  map h_user_input
      (OrchState.get_conversation_history
         (OrchState.run_queries (stub_env (fun _ => false))
            ["q1"; "q2"; "q3"; "q4"; "q5"; "q6"; "q7"; "q8"; "q9"; "q10"; "q11"; "q12"]
            initial_world))
  = ["q3"; "q4"; "q5"; "q6"; "q7"; "q8"; "q9"; "q10"; "q11"; "q12"].
Proof.
  refine (proj1 (history_keeps_last_ten (stub_env (fun _ => false))
                   ["q1"; "q2"; "q3"; "q4"; "q5"; "q6"; "q7"; "q8"; "q9"; "q10"; "q11"; "q12"]
                   initial_world _)).
  simpl. lia.
Defined.

(** ** What the orchestrator sends to [update_work_item] *)
Section DispatchSafety.

(** A stage that adds only safe calls of [update_work_item] to the log. *)
Let adds_safe {A} (c : M A) (P : Prop) : Prop :=
  forall w, exists new,
    update_calls (log (snd (c w))) = (update_calls (log w) ++ new)%list
    /\ Forall safe_update_call new
    /\ (new <> [] -> P).

Lemma adds_none {A} (c : M A) (P : Prop) :
  (forall w, update_calls (log (snd (c w))) = update_calls (log w)) -> adds_safe c P.
Proof.
  intros H w. exists []. rewrite app_nil_r. split; [apply H|]. split; [constructor|].
  congruence.
Qed.

Lemma adds_ret {A} (a : A) (P : Prop) : adds_safe (ret a) P.
Proof. apply adds_none. reflexivity. Qed.

Lemma adds_raise {A} (e : string) (P : Prop) : adds_safe (@raise A e) P.
Proof. apply adds_none. reflexivity. Qed.

Lemma adds_weaken {A} (c : M A) (P Q : Prop) :
  (P -> Q) -> adds_safe c P -> adds_safe c Q.
Proof.
  intros HPQ H w. destruct (H w) as (new & H1 & H2 & H3). exists new. auto.
Qed.

Lemma adds_then_quiet {A B} (c : M A) (f : A -> M B) (P : Prop) :
  adds_safe c P ->
  (forall a w, update_calls (log (snd (f a w))) = update_calls (log w)) ->
  adds_safe (bind c f) P.
Proof.
  intros Hc Hf w. unfold bind. destruct (Hc w) as (new & H1 & H2 & H3).
  destruct (c w) as [[a|e] w0]; cbn [snd] in *; exists new; [|auto].
  rewrite Hf. auto.
Qed.

Lemma quiet_then_adds {A B} (c : M A) (f : A -> M B) (P : Prop) :
  (forall w, update_calls (log (snd (c w))) = update_calls (log w)) ->
  (forall a, adds_safe (f a) P) ->
  adds_safe (bind c f) P.
Proof.
  intros Hc Hf w. unfold bind. specialize (Hc w).
  destruct (c w) as [[a|e] w0]; cbn [snd] in *.
  - destruct (Hf a w0) as (new & H1 & H2 & H3). exists new. rewrite H1, Hc. auto.
  - exists []. rewrite app_nil_r. split; [exact Hc|]. split; [constructor | congruence].
Qed.

Lemma adds_catch_ret {A} (c : M A) (h : string -> A) (P : Prop) :
  adds_safe c P -> adds_safe (catch c (fun e => ret (h e))) P.
Proof.
  intros Hc w. unfold catch. destruct (Hc w) as (new & H1 & H2 & H3).
  destruct (c w) as [[a|e] w0]; cbn [snd] in *; exists new; auto.
Qed.

Lemma adds_handle_batch (env : Env) (batch : list BatchUpdate) (P : Prop) :
  P -> Forall well_formed_update batch ->
  adds_safe (Orch._handle_batch_updates env batch) P.
Proof.
  intros HP Hwf w.
  assert (Hd : Forall (fun u => Py.isdigit (bu_task_id u) = true) batch).
  { eapply Forall_impl; [|exact Hwf]. now intros u (H & _). }
  destruct (handle_batch_run env batch w (no_invalid_ids batch Hd))
    as (rs & fs & w' & -> & Hc & _).
  cbn [snd]. eexists. split; [exact Hc|]. split; [|auto].
  rewrite (batch_calls_short_ids batch Hd). apply Forall_map.
  apply Forall_forall. intros u Hu. apply filter_In in Hu as [Hu _].
  rewrite Forall_forall in Hwf. destruct (Hwf u Hu) as (H1 & H2 & _).
  exists (bu_task_id u), (bu_field_updates u). auto.
Qed.

Lemma adds_task_update_branch (env : Env) (ents : Entities) (P : Prop) :
  P ->
  (forall batch, batch_updates ents = Some batch -> Forall well_formed_update batch) ->
  adds_safe (Orch.task_update_branch env ents) P.
Proof.
  intros HP Hb. unfold Orch.task_update_branch.
  destruct (batch_update_error ents); [apply adds_ret|].
  destruct (batch_updates ents) as [[|u us]|];
    try (apply adds_handle_batch; [exact HP | now apply Hb]);
    (destruct (task_id ents) as [tid|]; [|apply adds_ret];
     destruct (negb (Py.truthy tid)); [apply adds_ret|];
     destruct (Py.isdigit tid) eqn:Hd; [|apply adds_ret]; cbn [negb];
     destruct (Orch.plan_field_updates ents) as [[|f fs]|e];
     [apply adds_ret | | apply adds_raise];
     apply adds_catch_ret with (h := fun e => Orch.fail _);
     destruct (int_of_digits_cases tid Hd) as [-> | ->]; [|apply adds_raise];
     (apply adds_then_quiet; [|reflexivity]);
     intros w;
     destruct (update_work_item_calls env (Py.digits_value 0 tid) (f :: fs) w)
       as (res & w' & -> & Hc & _);
     cbn [snd]; eexists; split; [exact Hc|]; split; [|auto];
     constructor; [|constructor];
     exists tid, (f :: fs); repeat split; [exact Hd | discriminate]).
Qed.

Lemma adds_execute_tool (env : Env) (tool : string) (nlp : Nlp.NlpResult) :
  (forall batch, batch_updates (Nlp.nlp_entities nlp) = Some batch ->
                 Forall well_formed_update batch) ->
  adds_safe (Orch._execute_tool env tool nlp)
            (tool = "azure_devops" /\ Nlp.nlp_intent nlp = "task_update").
Proof.
  intros Hb. unfold Orch._execute_tool.
  apply adds_catch_ret with (h := fun e => Orch.mkToolResult false e Orch.EmptyData).
  destruct (String.eqb_spec tool "azure_devops") as [Et|Et];
    [|repeat (destruct (String.eqb tool _); [apply adds_ret|]); apply adds_ret].
  unfold Orch._execute_azure_devops.
  apply adds_catch_ret with (h := fun e => Orch.fail _).
  destruct (negb (tool_available env)); [apply adds_ret|].
  apply quiet_then_adds.
  { intros w. destruct (ensure_session_calls env w) as (early & w' & -> & H & _). exact H. }
  intros [r|]; [apply adds_ret|].
  destruct (String.eqb _ "tasks").
  { apply adds_none. intros w. unfold Orch.tasks_branch.
    destruct (get_my_tasks env _ _ _); cbn [snd]; rewrite update_calls_emit;
      apply app_nil_r. }
  destruct (String.eqb _ "pull_requests").
  { apply adds_none. intros w. unfold Orch.pull_requests_branch.
    destruct (get_my_pull_requests env _ _); cbn [snd]; rewrite update_calls_emit;
      apply app_nil_r. }
  destruct (String.eqb_spec (Nlp.nlp_intent nlp) "task_update") as [Ei|Ei];
    [|apply adds_ret].
  now apply adds_task_update_branch.
Qed.

(** The entities of every classification carry well-formed batch items only. *)
Lemma extracted_batch_well_formed (text intent : string) (batch : list BatchUpdate) :
  batch_updates (Nlp._extract_entities text intent) = Some batch ->
  Forall well_formed_update batch.
Proof.
  unfold Nlp._extract_entities.
  destruct (Re.found false Nlp.batch_update_pattern (Py.lower text)); [|discriminate].
  destruct (Nlp._extract_batch_updates text) as [b|] eqn:E; [|discriminate].
  cbn [batch_updates]. intros [= <-]. exact (extract_batch_well_formed text b E).
Qed.

Lemma classified_batch_well_formed (env : Env) (text : string) (w w0 : World)
      (nlp : Nlp.NlpResult) (batch : list BatchUpdate) :
  Nlp.process_query env text w = (Ok nlp, w0) ->
  batch_updates (Nlp.nlp_entities nlp) = Some batch ->
  Forall well_formed_update batch.
Proof.
  unfold Nlp.process_query, bind.
  destruct (Nlp.has_update_keyword text) eqn:Hk.
  - rewrite classify_with_update_keyword by assumption. unfold ret. intros [= <- _].
    cbn [Nlp.nlp_entities]. unfold Nlp._fallback_intent_classification. rewrite Hk.
    destruct (Nlp.has_task_id text); cbn [entities];
      apply (extracted_batch_well_formed text "task_update").
  - rewrite classify_without_update_keyword by assumption. unfold ret. intros [= <- _].
    cbn [Nlp.nlp_entities].
    destruct (call_openai env (log w) text) as [response|e].
    + unfold Nlp._parse_intent_response.
      destruct (find _ Nlp.intent_mapping) as [[k i]|]; cbn [entities];
        [apply (extracted_batch_well_formed text i)
        |apply (extracted_batch_well_formed text "tasks")].
    + unfold Nlp._fallback_intent_classification. rewrite Hk.
      repeat match goal with
             | |- context [if ?b then _ else _] => destruct b
             end; discriminate.
Qed.

Lemma nlp_process_query_quiet (env : Env) (text : string) (w w0 : World)
      (nlp : Nlp.NlpResult) :
  Nlp.process_query env text w = (Ok nlp, w0) ->
  update_calls (log w0) = update_calls (log w).
Proof.
  unfold Nlp.process_query, bind.
  destruct (Nlp.has_update_keyword text) eqn:Hk.
  - rewrite classify_with_update_keyword by assumption. unfold ret. now intros [= _ <-].
  - rewrite classify_without_update_keyword by assumption. unfold ret. intros [= _ <-].
    rewrite update_calls_emit. apply app_nil_r.
Qed.

End DispatchSafety.

(** X8 — Whatever the query and whatever the services answer, every call of
    [update_work_item] made while [process_query] answers it carries the value
    of a work-item id written with digits only and at least one field to
    update; and such a call is made only when the query was classified as a
    task update and handled by the Azure DevOps tool. *)
Theorem updates_sent_are_safe :
  forall (env : Env) (text : string) (w : World),
  exists e w' new,
    Orch.process_query env text w = (Ok e, w')
    /\ update_calls (log w') = (update_calls (log w) ++ new)%list
    /\ Forall safe_update_call new
    /\ (new <> [] ->
        Orch.env_intent e = Some "task_update"
        /\ Orch.env_tool_used e = Some "azure_devops").
Proof.
  intros env text w.
  destruct (nlp_process_query_total env text w) as (nlp & w0 & H0 & _).
  destruct (execute_tool_total env (Orch._select_tool nlp) nlp w0) as (r & w1 & H1).
  destruct (process_query_stages env text w w0 w1 nlp r H0 H1)
    as (w2 & H2 & Hl & _).
  destruct (adds_execute_tool env (Orch._select_tool nlp) nlp
              (fun batch => classified_batch_well_formed env text w w0 nlp batch H0) w0)
    as (new & Hc & Hs & Hn).
  rewrite H1 in Hc. cbn [snd] in Hc.
  eexists _, w2, new. split; [exact H2|].
  rewrite Hl, Hc, (nlp_process_query_quiet env text w w0 nlp H0).
  split; [reflexivity|]. split; [exact Hs|].
  intros Hne. destruct (Hn Hne) as [Ht Hi].
  cbn [Orch.env_intent Orch.env_tool_used Orch.envelope_of]. now rewrite Ht, Hi.
Qed.

(** Witness of X8: one update is sent for a single-item command. *)
Lemma updates_sent_are_safe_witness :
  exists e w',
    Orch.process_query (stub_env (fun _ => false)) "Update task 42 status to Active"
                       initial_world = (Ok e, w')
    /\ update_calls (log w') = [EvUpdateWorkItem 42 [(Some "status", VStr "active")]]
    /\ Orch.env_intent e = Some "task_update"
    /\ Orch.env_tool_used e = Some "azure_devops".
Proof.
  destruct (updates_sent_are_safe (stub_env (fun _ => false))
              "Update task 42 status to Active" initial_world)
    as (e & w' & new & Hq & Hc & _ & Hn).
  exists e, w'. split; [exact Hq|].
  assert (Hw : update_calls (log w')
               = [EvUpdateWorkItem 42 [(Some "status", VStr "active")]]).
  { apply (f_equal snd) in Hq. cbn [snd] in Hq. rewrite <- Hq. vm_compute. reflexivity. }
  split; [exact Hw|].
  apply Hn. intros ->. rewrite Hw in Hc. discriminate Hc.
Defined.

(** ** [_chunk_list] *)
Section Chunks.
Context {A : Type}.

Lemma chunks_concat (n : nat) :
  forall (k : nat) (lst : list A),
    (List.length lst <= k * n)%nat ->
    concat (map (fun j => firstn n (skipn (j * n) lst)) (seq 0 k)) = lst.
Proof.
  induction k as [|k IH]; intros lst H.
  - destruct lst; [reflexivity | cbn in H; lia].
  - cbn [seq map concat]. rewrite <- seq_shift, map_map.
    cbn [Nat.mul Nat.add skipn].
    transitivity (firstn n lst ++ skipn n lst)%list; [|apply firstn_skipn]. f_equal.
    transitivity (concat (map (fun j => firstn n (skipn (j * n) (skipn n lst))) (seq 0 k)));
      [|apply IH; rewrite length_skipn; lia].
    f_equal. apply map_ext. intros j. rewrite skipn_skipn. f_equal. f_equal. lia.
Qed.

Lemma ceil_bounds (len n : nat) :
  (0 < n)%nat ->
  (len <= (len + n - 1) / n * n)%nat
  /\ (forall j, j < (len + n - 1) / n -> j * n < len)%nat.
Proof.
  intros Hn.
  pose proof (Nat.div_mod_eq (len + n - 1) n) as E.
  pose proof (Nat.mod_upper_bound (len + n - 1) n ltac:(lia)) as U.
  split; [nia|]. intros j Hj. nia.
Qed.

Lemma chunk_list_map (lst : list A) (n : nat) :
  AdoConn._chunk_list lst (S n)
  = Some (map (fun j => firstn (S n) (skipn (j * S n) lst))
              (seq 0 ((List.length lst + S n - 1) / S n))).
Proof.
  unfold AdoConn._chunk_list, AdoConn.range_step, AdoConn.slice. rewrite map_map.
  f_equal. apply map_ext. intros j. f_equal. lia.
Qed.

End Chunks.

(** X9 — [_chunk_list] cuts a list into consecutive pieces: for a positive
    chunk size the pieces, put end to end, give the list back; every piece
    holds at least one and at most [chunk_size] elements; and there are
    [ceil(len / chunk_size)] of them, so none for the empty list. *)
Theorem chunk_list_partitions :
  forall (A : Type) (lst : list A) (chunk_size : nat),
    (0 < chunk_size)%nat ->
    exists chunks,
      AdoConn._chunk_list lst chunk_size = Some chunks
      /\ concat chunks = lst
      /\ Forall (fun c => (1 <= List.length c <= chunk_size)%nat) chunks
      /\ List.length chunks = ((List.length lst + chunk_size - 1) / chunk_size)%nat.
Proof.
  intros A lst [|n] Hn; [lia|].
  destruct (ceil_bounds (List.length lst) (S n) Hn) as [Hup Hlow].
  eexists. split; [apply chunk_list_map|]. split; [|split].
  - now apply chunks_concat.
  - apply Forall_map, Forall_forall. intros j Hj. apply in_seq in Hj.
    specialize (Hlow j ltac:(lia)).
    rewrite length_firstn, length_skipn. lia.
  - now rewrite length_map, length_seq.
Qed.

(** Witness of X9: seven ids in chunks of three. *)
Lemma chunk_list_partitions_witness :
  exists chunks,
    AdoConn._chunk_list [1; 2; 3; 4; 5; 6; 7]%Z 3 = Some chunks
    /\ concat chunks = [1; 2; 3; 4; 5; 6; 7]%Z
    /\ Forall (fun c => (1 <= List.length c <= 3)%nat) chunks
    /\ List.length chunks = 3%nat.
Proof. apply (chunk_list_partitions Z [1; 2; 3; 4; 5; 6; 7]%Z 3). lia. Defined.

(** ** The configuration of the Azure DevOps tool *)
Section Configuration.

Lemma missing_configs_nil (pat org proj : string) :
  AdoConn.missing_configs pat org proj = []
  <-> Py.truthy pat = true /\ Py.truthy org = true /\ Py.truthy proj = true.
Proof.
  unfold AdoConn.missing_configs.
  destruct (Py.truthy pat), (Py.truthy org), (Py.truthy proj); cbn;
    split; try tauto; try discriminate; intros (? & ? & ?); discriminate.
Qed.

Lemma missing_configs_in (pat org proj : string) :
  (In "AZURE_DEVOPS_TOKEN" (AdoConn.missing_configs pat org proj)
   <-> Py.truthy pat = false)
  /\ (In "AZURE_DEVOPS_ORGANIZATION" (AdoConn.missing_configs pat org proj)
      <-> Py.truthy org = false)
  /\ (In "AZURE_DEVOPS_PROJECT" (AdoConn.missing_configs pat org proj)
      <-> Py.truthy proj = false).
Proof.
  unfold AdoConn.missing_configs.
  destruct (Py.truthy pat), (Py.truthy org), (Py.truthy proj); cbn;
    repeat split; intros; try tauto; try discriminate;
    repeat match goal with H : _ \/ _ |- _ => destruct H end;
    try discriminate; tauto.
Qed.

End Configuration.

(** X10 — [setup] called without arguments succeeds exactly when
    [check_required_config] reports none of the three Azure DevOps settings as
    missing.  When it succeeds the connection holds three non-empty settings
    and the base URL built from the organization and the project; when it
    raises, the message is the configuration notice listing exactly the
    settings that are missing. *)
Theorem setup_agrees_with_check_required_config :
  forall (src : Config.Source),
    ((exists c, AdoConn.setup src None None None = Ok c)
     <-> Forall (fun k => Ado.lookup k (Config.check_required_config src) = Some false)
                ["azure_devops_token"; "azure_devops_organization";
                 "azure_devops_project"])
    /\ (forall c, AdoConn.setup src None None None = Ok c ->
                  AdoConn.pat_token c = Config.get_azure_devops_token src
                  /\ Py.truthy (AdoConn.pat_token c) = true
                  /\ Py.truthy (AdoConn.organization c) = true
                  /\ Py.truthy (AdoConn.project c) = true
                  /\ AdoConn.base_url c
                     = "https://dev.azure.com/" ++ AdoConn.organization c ++ "/"
                       ++ AdoConn.project c)
    /\ (forall msg, AdoConn.setup src None None None = Raised msg ->
          exists missing,
            msg = AdoConn.configuration_required_message missing
            /\ missing <> []
            /\ (In "AZURE_DEVOPS_TOKEN" missing
                <-> Ado.lookup "azure_devops_token" (Config.check_required_config src)
                    = Some true)
            /\ (In "AZURE_DEVOPS_ORGANIZATION" missing
                <-> Ado.lookup "azure_devops_organization"
                      (Config.check_required_config src) = Some true)
            /\ (In "AZURE_DEVOPS_PROJECT" missing
                <-> Ado.lookup "azure_devops_project"
                      (Config.check_required_config src) = Some true)).
Proof.
  intros src. unfold AdoConn.setup, Config.check_required_config. cbn [AdoConn.arg_or].
  set (pat := Config.get_azure_devops_token src).
  set (org := Config.get_azure_devops_organization src).
  set (proj := Config.get_azure_devops_project src).
  cbn [Ado.lookup String.eqb Ascii.eqb Bool.eqb].
  pose proof (missing_configs_nil pat org proj) as Hnil.
  pose proof (missing_configs_in pat org proj) as (Hp & Ho & Hj).
  destruct (AdoConn.missing_configs pat org proj) as [|m ms] eqn:E.
  - destruct (proj1 Hnil eq_refl) as (Tp & To & Tj).
    split; [|split].
    + split; [|intros; eexists; reflexivity].
      intros _. rewrite Tp, To, Tj. repeat constructor.
    + intros c [= <-]. cbn. auto.
    + discriminate.
  - split; [|split].
    + split; [intros [c H]; discriminate|].
      intros H. inversion H as [|? ? H1 H']; subst. inversion H' as [|? ? H2 H'']; subst.
      inversion H'' as [|? ? H3 _]; subst.
      assert (Hn : m :: ms = []); [|discriminate].
      apply Hnil. injection H1 as H1. injection H2 as H2. injection H3 as H3.
      apply negb_false_iff in H1, H2, H3. auto.
    + discriminate.
    + intros msg [= <-]. exists (m :: ms). split; [reflexivity|]. split; [discriminate|].
      rewrite Hp, Ho, Hj.
      repeat split; intros H; try (now rewrite H);
        injection H as H; now apply negb_true_iff in H.
Qed.

(** Witness of X10: a token in the environment, nothing else configured. *)
Lemma setup_agrees_with_check_required_config_witness :
  exists missing,
    AdoConn.setup
      (Config.mkSource
         (fun n => if String.eqb n "AZURE_DEVOPS_TOKEN" then Some "env-pat" else None)
         [] [])
      None None None
    = Raised (AdoConn.configuration_required_message missing)
    /\ In "AZURE_DEVOPS_ORGANIZATION" missing
    /\ In "AZURE_DEVOPS_PROJECT" missing
    /\ ~ In "AZURE_DEVOPS_TOKEN" missing.
Proof.
  destruct (proj2 (proj2 (setup_agrees_with_check_required_config
                            (Config.mkSource
                               (fun n => if String.eqb n "AZURE_DEVOPS_TOKEN"
                                         then Some "env-pat" else None)
                               [] [])))
                  (AdoConn.configuration_required_message
                     ["AZURE_DEVOPS_ORGANIZATION"; "AZURE_DEVOPS_PROJECT"]))
    as (missing & Hm & _ & Ht & Ho & Hp).
  - vm_compute. reflexivity.
  - exists missing. split; [rewrite <- Hm; vm_compute; reflexivity|].
    split; [apply Ho; vm_compute; reflexivity|].
    split; [apply Hp; vm_compute; reflexivity|].
    intros H. apply Ht in H. vm_compute in H. discriminate H.
Defined.

(** X11 — Each setting of the connection is taken from the first non-empty
    source among the argument of [setup], the environment variable and the
    configuration file, in this order. *)
Theorem setup_source_precedence :
  forall (src : Config.Source) (pat org proj : option string) (c : AdoConn.Connection),
    AdoConn.setup src pat org proj = Ok c ->
    (forall a, pat = Some a -> Py.truthy a = true -> AdoConn.pat_token c = a)
    /\ (forall v, (pat = None \/ pat = Some EmptyString) ->
                  Config.getenv src "AZURE_DEVOPS_TOKEN" = Some v -> Py.truthy v = true ->
                  AdoConn.pat_token c = v)
    /\ ((pat = None \/ pat = Some EmptyString) ->
        (Config.getenv src "AZURE_DEVOPS_TOKEN" = None
         \/ Config.getenv src "AZURE_DEVOPS_TOKEN" = Some EmptyString) ->
        Ado.lookup "token" (Config.app_azure_devops src) = Some (AdoConn.pat_token c)).
Proof.
  intros src pat org proj c. unfold AdoConn.setup.
  destruct (AdoConn.missing_configs _ _ _) eqn:E; [|discriminate].
  apply missing_configs_nil in E as (Tp & _ & _).
  intros [= <-]. cbn [AdoConn.pat_token].
  unfold Config.get_azure_devops_token, Config.env_or_config, Ado.get_default in *.
  split; [|split].
  - intros a -> Ha. cbn [AdoConn.arg_or]. now rewrite Ha.
  - intros v Hpat Hv Tv.
    assert (Ha : forall x, AdoConn.arg_or pat x = x) by (destruct Hpat as [-> | ->]; reflexivity).
    rewrite Ha, Hv, Tv. reflexivity.
  - intros Hpat Hv.
    assert (Ha : forall x, AdoConn.arg_or pat x = x) by (destruct Hpat as [-> | ->]; reflexivity).
    rewrite Ha in *.
    assert (Hf : match Config.getenv src "AZURE_DEVOPS_TOKEN" with
                 | Some v => if Py.truthy v then v
                             else match Ado.lookup "token" (Config.app_azure_devops src) with
                                  | Some v0 => v0 | None => EmptyString end
                 | None => match Ado.lookup "token" (Config.app_azure_devops src) with
                           | Some v0 => v0 | None => EmptyString end
                 end
                 = match Ado.lookup "token" (Config.app_azure_devops src) with
                   | Some v0 => v0 | None => EmptyString end)
      by (destruct Hv as [-> | ->]; reflexivity).
    rewrite Hf in *.
    destruct (Ado.lookup "token" (Config.app_azure_devops src)); [reflexivity|discriminate].
Qed.

(** Witness of X11: the token of the environment wins over the file. *)
Lemma setup_source_precedence_witness :
  exists c,
    AdoConn.setup
      (Config.mkSource
         (fun n => if String.eqb n "AZURE_DEVOPS_TOKEN" then Some "env-pat" else None)
         []
         [("token", "file-pat"); ("organization", "acme"); ("project", "web")])
      None None None = Ok c
    /\ AdoConn.pat_token c = "env-pat"
    /\ AdoConn.base_url c = "https://dev.azure.com/acme/web".
Proof.
  eexists. split; [vm_compute; reflexivity|]. split; [|reflexivity].
  refine (proj1 (proj2 (setup_source_precedence
                          (Config.mkSource
                             (fun n => if String.eqb n "AZURE_DEVOPS_TOKEN"
                                       then Some "env-pat" else None)
                             []
                             [("token", "file-pat"); ("organization", "acme");
                              ("project", "web")])
                          None None None _ _))
                "env-pat" _ _ _).
  - vm_compute. reflexivity.
  - now left.
  - reflexivity.
  - reflexivity.
Defined.

(** X12 — The desktop worker never shows the answer of the orchestrator.
    [process_query] always returns a dict with [success] set and without the
    key [message], so for every message, whatever the services do, the worker
    emits [processing_started], then [response_received] with the default
    text "No response received", then [processing_finished]; [error_occurred]
    is never emitted. *)
Theorem desktop_worker_signals :
  forall (env : Env) (message : string) (w : World),
    fst (Desktop.process_message env message w)
    = [Desktop.processing_started;
       Desktop.response_received (Desktop.VText "No response received");
       Desktop.processing_finished].
Proof.
  intros env message w. unfold Desktop.process_message.
  destruct (nlp_process_query_total env message w) as (nlp & w0 & H0 & _).
  destruct (execute_tool_total env (Orch._select_tool nlp) nlp w0) as (r & w1 & H1).
  destruct (process_query_stages env message w w0 w1 nlp r H0 H1) as (w2 & -> & _).
  reflexivity.
Qed.

(** ** The requests of [update_work_item] *)
Section UpdateRequests.
Import Ado.

(** One operation per field update, in order, the state of a known type
    being one of its valid states. *)
Let op_for (states : list string) (kv : option string * PyVal) (op : Operation) : Prop :=
  op_path op = "/fields/" ++ azure_field (fst kv)
  /\ (fst kv = Some "status" ->
      exists s, op_value op = VStr s /\ mem s states = true).

Lemma active_is_valid (t : string) (states : list string) :
  lookup t valid_states_by_type = Some states -> mem "Active" states = true.
Proof. intros H. destruct (known_type t states H) as [[_ ->] | [_ ->]]; reflexivity. Qed.

Lemma legalize_status_valid (t : string) (states : list string) (v : string) :
  lookup t valid_states_by_type = Some states ->
  mem (legalize_status (Some t) v) states = true.
Proof.
  intros H. rewrite (legalize_known t states v H).
  destruct (mem (map_status v) states) eqn:E; [exact E | exact (active_is_valid t states H)].
Qed.

Lemma build_operations_legal (t : string) (states : list string) :
  lookup t valid_states_by_type = Some states ->
  forall fu ops, build_operations (Some t) fu = Ok ops -> Forall2 (op_for states) fu ops.
Proof.
  intros H. induction fu as [|[k v] fu IH]; intros ops; cbn [build_operations].
  - intros [= <-]. constructor.
  - destruct (field_value (Some t) k v) as [v'|e] eqn:Ev; [|discriminate].
    destruct (build_operations (Some t) fu) as [ops'|e]; [|discriminate].
    intros [= <-]. constructor; [|now apply IH].
    split; [reflexivity|]. cbn [fst op_value]. intros ->.
    unfold field_value in Ev. cbn [key_eqb String.eqb Ascii.eqb Bool.eqb] in Ev.
    destruct v as [s|z]; [|discriminate]. injection Ev as <-.
    eexists. split; [reflexivity|]. now apply legalize_status_valid.
Qed.

Lemma build_operations_length (wt : option string) :
  forall fu ops, build_operations wt fu = Ok ops -> List.length ops = List.length fu.
Proof.
  induction fu as [|[k v] fu IH]; intros ops; cbn [build_operations].
  - now intros [= <-].
  - destruct (field_value wt k v); [|discriminate].
    destruct (build_operations wt fu) as [ops'|e]; [|discriminate].
    intros [= <-]. cbn [List.length]. f_equal. now apply IH.
Qed.

Lemma lookup_work_item_type_events (env : Env) (id : Z) (fu : FieldUpdates) (w : World) :
  exists wt evs,
    lookup_work_item_type env id fu w
    = (Ok wt, mkWorld (log w ++ evs) (session w) (conversation_history w))
    /\ patch_calls evs = [].
Proof.
  unfold lookup_work_item_type.
  destruct (dict_mem fu (Some "status")).
  - destruct (session w) eqn:Hs.
    + unfold emit. rewrite Hs.
      destruct (get_work_item env (log w) id) as [[[t|]|code]|e];
        eexists _, [EvGetWorkItem id]; split; reflexivity.
    + exists None, []. rewrite app_nil_r. destruct w; cbn in *. subst. split; reflexivity.
  - exists None, []. rewrite app_nil_r. destruct w; split; reflexivity.
Qed.

End UpdateRequests.

(** X13 — When the type of the work item is looked up and is one of the types
    with a list of valid states, the PATCH request of [update_work_item]
    never carries a state outside that list: the request holds one operation
    per field update, in the order of the updates, on the mapped field path,
    and the operation of the field [status] carries a valid state of the type.
    The calls are the GET of the type and then at most one PATCH. *)
Theorem patch_carries_valid_state :
  forall (env : Env) (id : Z) (fu : FieldUpdates) (w : World) (t : string)
         (states : list string),
    session w = true ->
    dict_mem fu (Some "status") = true ->
    get_work_item env (log (emit (EvUpdateWorkItem id fu) w)) id = Ok (Get200 (Some t)) ->
    Ado.lookup (Py.upper t) Ado.valid_states_by_type = Some states ->
    exists res w',
      Ado.update_work_item env id fu w = (res, w')
      /\ ((log w' = (log w ++ [EvUpdateWorkItem id fu; EvGetWorkItem id])%list
           /\ exists e, res = Raised e
                        /\ Ado.build_operations (Some (Py.upper t)) fu = Raised e)
          \/ exists ops,
               log w' = (log w ++ [EvUpdateWorkItem id fu; EvGetWorkItem id;
                                   EvPatchWorkItem id ops])%list
               /\ Forall2 (fun kv op =>
                             op_path op = "/fields/" ++ Ado.azure_field (fst kv)
                             /\ (fst kv = Some "status" ->
                                 exists s, op_value op = VStr s
                                           /\ Ado.mem s states = true))
                          fu ops).
Proof.
  intros env id fu w t states Hs Hm Hg Hl.
  unfold Ado.update_work_item, bind, ret, Ado.lookup_work_item_type.
  rewrite Hm. cbn [session emit]. rewrite Hs.
  rewrite Hg.
  destruct (Ado.build_operations (Some (Py.upper t)) fu) as [ops|e] eqn:Eb.
  - unfold Ado.send_patch, emit. cbn [session log conversation_history].
    rewrite Hs, <- !app_assoc. cbn [app].
    pose proof (build_operations_legal (Py.upper t) states Hl fu ops Eb) as Hops.
    destruct (patch_work_item env _ id ops) as [r|e];
      [destruct (Ado.is_success_status (patch_status r))|];
      eexists _, _; (split; [reflexivity|]); right; exists ops; cbn [log];
      (split; [reflexivity | exact Hops]).
  - unfold raise, emit. eexists _, _. split; [reflexivity|]. left. cbn [log].
    rewrite <- app_assoc. split; [reflexivity|]. exists e. split; reflexivity.
Qed.

(** Witness of X13: "resolved" on a Task is sent as "Active". *)
Lemma patch_carries_valid_state_witness :
  exists res w',
    Ado.update_work_item (stub_env (fun _ => false)) 42
                         [(Some "status", VStr "resolved")] (mkWorld [] true [])
    = (res, w')
    /\ log w' = [EvUpdateWorkItem 42 [(Some "status", VStr "resolved")];
                 EvGetWorkItem 42;
                 EvPatchWorkItem 42 [mkOperation "/fields/System.State" (VStr "Active")]].
Proof.
  destruct (patch_carries_valid_state (stub_env (fun _ => false)) 42
              [(Some "status", VStr "resolved")] (mkWorld [] true []) "Task"
              ["New"; "Active"; "Closed"; "Removed"]
              eq_refl eq_refl eq_refl eq_refl) as (res & w' & Hq & _).
  exists res, w'. split; [exact Hq|].
  apply (f_equal snd) in Hq. cbn [snd] in Hq. rewrite <- Hq. vm_compute. reflexivity.
Defined.

(** X14 — [update_work_item] returns a result only when its PATCH request was
    accepted: a returned body means that the tool had a session, that the
    operations were built, one per field update, that exactly one PATCH was
    sent for them, as the last request, and that it was answered with status
    200 or 201 and this body. *)
Theorem update_result_means_patch_accepted :
  forall (env : Env) (id : Z) (fu : FieldUpdates) (w w' : World) (body : string),
    Ado.update_work_item env id fu w = (Ok body, w') ->
    session w = true
    /\ exists wt ops r evs,
         Ado.build_operations wt fu = Ok ops
         /\ List.length ops = List.length fu
         /\ log w' = (log w ++ evs ++ [EvPatchWorkItem id ops])%list
         /\ patch_calls evs = []
         /\ patch_work_item env (log w ++ evs) id ops = Ok r
         /\ Ado.is_success_status (patch_status r) = true
         /\ patch_body r = body.
Proof.
  intros env id fu w w' body. unfold Ado.update_work_item, bind, ret.
  destruct (lookup_work_item_type_events env id fu (emit (EvUpdateWorkItem id fu) w))
    as (wt & evs & -> & Hevs).
  destruct (Ado.build_operations wt fu) as [ops|e] eqn:Eb; [|discriminate].
  unfold Ado.send_patch, emit. cbn [session log conversation_history].
  destruct (session w) eqn:Hs; [|discriminate].
  destruct (patch_work_item env _ id ops) as [r|e] eqn:Ep; [|discriminate].
  destruct (Ado.is_success_status (patch_status r)) eqn:Ec; [|discriminate].
  intros [= <- <-]. split; [reflexivity|].
  exists wt, ops, r, (EvUpdateWorkItem id fu :: evs).
  split; [exact Eb|]. split; [exact (build_operations_length wt fu ops Eb)|].
  cbn [log]. rewrite <- !app_assoc in *. cbn [app] in *.
  split; [reflexivity|]. split; [exact Hevs|]. split; [exact Ep|]. split; [exact Ec|].
  reflexivity.
Qed.

(** Witness of X14: an accepted update of a date. *)
Lemma update_result_means_patch_accepted_witness :
  exists wt ops r evs,
    Ado.build_operations wt [(Some "start_date", VStr "08/11/2025")] = Ok ops
    /\ List.length ops = 1%nat
    /\ [EvUpdateWorkItem 7 [(Some "start_date", VStr "08/11/2025")];
        EvPatchWorkItem 7 [mkOperation "/fields/Microsoft.VSTS.Scheduling.StartDate"
                                       (VStr "2025-08-11")]]
       = ([] ++ evs ++ [EvPatchWorkItem 7 ops])%list
    /\ patch_calls evs = []
    /\ patch_work_item (stub_env (fun _ => false)) ([] ++ evs) 7 ops = Ok r
    /\ Ado.is_success_status (patch_status r) = true
    /\ patch_body r = "{}".
Proof.
  refine (proj2 (update_result_means_patch_accepted
                   (stub_env (fun _ => false)) 7
                   [(Some "start_date", VStr "08/11/2025")]
                   (mkWorld [] true [])
                   (mkWorld [EvUpdateWorkItem 7 [(Some "start_date", VStr "08/11/2025")];
                             EvPatchWorkItem 7
                               [mkOperation "/fields/Microsoft.VSTS.Scheduling.StartDate"
                                            (VStr "2025-08-11")]] true [])
                   "{}" _)).
  vm_compute. reflexivity.
Defined.

(** ** Sending a normalized value again *)
Section Renormalization.
Import Ado.

Lemma forall_chars_app (p : ascii -> bool) (a b : string) :
  Py.forall_chars p (a ++ b) = Py.forall_chars p a && Py.forall_chars p b.
Proof.
  induction a as [|c a IH]; [reflexivity|]. cbn [append Py.forall_chars].
  now rewrite IH, andb_assoc.
Qed.

Let plain (c : ascii) : bool := negb (Ascii.eqb c "/").

Lemma plain_no_slash (s : string) :
  Py.forall_chars plain s = true -> Py.contains "/" s = false.
Proof.
  induction s as [|c s IH]; [reflexivity|]. cbn [Py.forall_chars Py.contains].
  intros H. apply andb_prop in H as [Hc Hs]. rewrite (IH Hs), orb_false_r.
  cbn [String.prefix]. destruct (ascii_dec "/" c) as [<-|]; [discriminate Hc | reflexivity].
Qed.

Lemma plain_uint (d : Decimal.uint) : Py.forall_chars plain (NilEmpty.string_of_uint d) = true.
Proof. induction d; cbn [NilEmpty.string_of_uint Py.forall_chars]; try rewrite IHd; reflexivity. Qed.

Lemma plain_str_of_Z (z : Z) : Py.forall_chars plain (Py.str_of_Z z) = true.
Proof.
  unfold Py.str_of_Z, NilZero.string_of_int.
  destruct (Z.to_int z) as [d|d]; unfold NilZero.string_of_uint;
    destruct d; try reflexivity;
    cbn [Py.forall_chars NilEmpty.string_of_uint]; try rewrite plain_uint; reflexivity.
Qed.

Lemma plain_zeros (n : nat) : Py.forall_chars plain (zeros n) = true.
Proof. induction n; [reflexivity|]. cbn [zeros Py.forall_chars]. now rewrite IHn. Qed.

Lemma plain_pad (width : nat) (z : Z) : Py.forall_chars plain (pad width z) = true.
Proof. unfold pad. now rewrite forall_chars_app, plain_zeros, plain_str_of_Z. Qed.

Lemma strftime_no_slash (d : date) : Py.contains "/" (strftime_Ymd d) = false.
Proof.
  apply plain_no_slash. unfold strftime_Ymd.
  rewrite !forall_chars_app, !plain_pad. reflexivity.
Qed.

Lemma format_date_cases (v : PyVal) :
  format_date v = v \/ exists d, format_date v = VStr (strftime_Ymd d).
Proof.
  unfold format_date.
  destruct (val_truthy v && Py.contains "/" (str_of_val v)); [|now left].
  destruct v as [s|z]; [|now left].
  destruct (strptime_mdY s) as [d|]; [right; now exists d | now left].
Qed.

Lemma format_date_idempotent (v : PyVal) : format_date (format_date v) = format_date v.
Proof.
  destruct (format_date_cases v) as [E | [d E]]; rewrite E.
  - exact E.
  - apply format_date_no_slash, strftime_no_slash.
Qed.

Lemma lookup_in {V} (k : string) (table : list (string * V)) (v : V) :
  lookup k table = Some v -> In v (map snd table).
Proof.
  induction table as [|[k' v'] table IH]; [discriminate|]. cbn [lookup map snd].
  destruct (String.eqb k' k); [intros [= <-]; now left | right; now apply IH].
Qed.

Lemma map_status_idempotent (v : string) : map_status (map_status v) = map_status v.
Proof.
  unfold map_status at 2 3. unfold get_default.
  destruct (lookup (Py.lower v) status_mapping) as [x|] eqn:E.
  - apply lookup_in in E. cbn in E.
    repeat (destruct E as [<- | E]; [reflexivity|]). destruct E.
  - unfold map_status, get_default. now rewrite E.
Qed.

Lemma mem_in (x : string) (l : list string) : mem x l = true -> In x l.
Proof.
  unfold mem. intros H. apply existsb_exists in H as (y & Hy & E).
  apply String.eqb_eq in E. now subst.
Qed.

Lemma valid_state_is_mapped_to_itself (t : string) (states : list string) (s : string) :
  lookup t valid_states_by_type = Some states -> mem s states = true -> map_status s = s.
Proof.
  intros H Hm. apply mem_in in Hm.
  destruct (known_type t states H) as [[_ ->] | [_ ->]]; cbn in Hm;
    repeat (destruct Hm as [<- | Hm]; [reflexivity|]); destruct Hm.
Qed.

Lemma legalize_status_idempotent (wt : option string) (v : string) :
  legalize_status wt (legalize_status wt v) = legalize_status wt v.
Proof.
  destruct wt as [t|]; [|apply map_status_idempotent].
  destruct (lookup t valid_states_by_type) as [states|] eqn:E.
  - pose proof (legalize_status_valid t states v E) as Hv.
    rewrite (legalize_known t states (legalize_status (Some t) v) E).
    rewrite (valid_state_is_mapped_to_itself t states _ E Hv). now rewrite Hv.
  - unfold legalize_status. rewrite E.
    destruct (Py.truthy t); apply map_status_idempotent.
Qed.

End Renormalization.

(** X15 — The normalization of [update_work_item] is idempotent: the value
    it sends for a field, given back as the new value of the same field of a
    work item of the same type, is sent unchanged.  So a state that was made
    legal stays as it is, and a date that was rewritten to [YYYY-MM-DD] is
    not parsed a second time. *)
Theorem sent_value_is_stable :
  forall (wt : option string) (k : option string) (v v' : PyVal),
    Ado.field_value wt k v = Ok v' ->
    Ado.field_value wt k v' = Ok v'.
Proof.
  intros wt k v v'. unfold Ado.field_value.
  destruct (key_eqb k (Some "status")).
  - destruct v as [s|z]; [|discriminate]. intros [= <-].
    now rewrite legalize_status_idempotent.
  - destruct (Ado.is_date_field k); intros [= <-]; [|reflexivity].
    now rewrite format_date_idempotent.
Qed.

(** Witness of X15: the state sent for "resolved" on a Task, and a date. *)
Lemma sent_value_is_stable_witness :
  Ado.field_value (Some "TASK") (Some "status") (VStr "Active") = Ok (VStr "Active")
  /\ Ado.field_value None (Some "finish_date") (VStr "2025-08-11")
     = Ok (VStr "2025-08-11").
Proof.
  split.
  - apply (sent_value_is_stable (Some "TASK") (Some "status") (VStr "resolved")).
    vm_compute. reflexivity.
  - apply (sent_value_is_stable None (Some "finish_date") (VStr "08/11/2025")).
    vm_compute. reflexivity.
Defined.

(** ** The lines of a batch *)
Section BatchLines.
Import Nlp.

(** The update read from a line. *)
Let line_update (raw : string) (u : BatchUpdate) : Prop :=
  Re.search_group true batch_task_pattern (Py.strip raw) = Some (bu_task_id u)
  /\ bu_field_updates u = batch_line_fields (Py.strip raw).

Let non_blank (raw : string) : bool := Py.truthy (Py.strip raw).

Lemma batch_line_cases (i : nat) (raw : string) :
  (non_blank raw = false /\ batch_line i raw = Blank)
  \/ (invalid_line raw /\ exists entry, batch_line i raw = Invalid entry)
  \/ (non_blank raw = true /\ exists u, batch_line i raw = Update u /\ line_update raw u).
Proof.
  unfold batch_line, non_blank, invalid_line, line_update.
  destruct (Py.truthy (Py.strip raw)) eqn:Ht; cbn [negb]; [|now left].
  right.
  destruct (Re.search_group true batch_task_pattern (Py.strip raw)) as [tid|] eqn:Es.
  - destruct (Py.isdigit tid) eqn:Ed; cbn [negb].
    + destruct (batch_line_fields (Py.strip raw)) as [|f fs] eqn:Ef.
      * left. split; [|eexists; reflexivity]. auto.
      * right. split; [reflexivity|]. eexists. split; [reflexivity|]. split; reflexivity.
    + left. split; [|eexists; reflexivity]. split; [reflexivity|].
      right. left. exists tid. auto.
  - left. split; [|eexists; reflexivity]. auto.
Qed.

Lemma batch_loop_lines (lines : list string) :
  forall i ups inv,
  exists ups' inv',
    batch_loop i lines ups inv = ((ups ++ ups')%list, (inv ++ inv')%list)
    /\ (inv' = [] -> Forall2 line_update (filter non_blank lines) ups')
    /\ (inv' <> [] -> exists raw, In raw lines /\ invalid_line raw).
Proof.
  induction lines as [|raw more IH]; intros i ups inv; cbn [batch_loop filter].
  - exists [], []. rewrite !app_nil_r. split; [reflexivity|]. split; [constructor|congruence].
  - destruct (batch_line_cases i raw) as [[Hb ->] | [[Hi [entry ->]] | [Hb (u & -> & Hu)]]].
    + rewrite Hb. destruct (IH (S i) ups inv) as (ups' & inv' & -> & H1 & H2).
      exists ups', inv'. split; [reflexivity|]. split; [exact H1|].
      intros H. destruct (H2 H) as (r & Hr & Hv). exists r. split; [now right | exact Hv].
    + destruct (IH (S i) ups (inv ++ [entry])%list) as (ups' & inv' & -> & _ & _).
      exists ups', (entry :: inv'). rewrite <- app_assoc. split; [reflexivity|].
      split; [discriminate|]. intros _. exists raw. split; [now left | exact Hi].
    + rewrite Hb. destruct (IH (S i) (ups ++ [u])%list inv) as (ups' & inv' & -> & H1 & H2).
      exists (u :: ups'), inv'. rewrite <- app_assoc. split; [reflexivity|].
      split; [intros H; constructor; [exact Hu | exact (H1 H)]|].
      intros H. destruct (H2 H) as (r & Hr & Hv). exists r. split; [now right | exact Hv].
Qed.

End BatchLines.

(** X16 — [_extract_batch_updates] rejects a batch exactly when one of the
    lines after the header is invalid (it is not blank, and it has no item
    number before an arrow or no recognized field update).  When it accepts
    the batch, the updates are those of the non-blank lines, one per line and
    in the order of the lines: each carries the id found on its line and the
    field updates read from that line. *)
Theorem batch_items_follow_the_lines :
  forall (text : string),
    (Nlp._extract_batch_updates text = None
     <-> exists raw, In raw (tl (Py.split Py.newline text)) /\ invalid_line raw)
    /\ (forall ups,
           Nlp._extract_batch_updates text = Some ups ->
           Forall2 (fun raw u =>
                      Re.search_group true Nlp.batch_task_pattern (Py.strip raw)
                      = Some (bu_task_id u)
                      /\ bu_field_updates u = Nlp.batch_line_fields (Py.strip raw))
                   (filter (fun raw => Py.truthy (Py.strip raw))
                           (tl (Py.split Py.newline text)))
                   ups).
Proof.
  intros text.
  split.
  - split; [|apply extract_batch_invalid].
    unfold Nlp._extract_batch_updates.
    destruct (batch_loop_lines (tl (Py.split Py.newline text)) 1 [] [])
      as (ups' & inv' & -> & _ & H2). cbn [app].
    destruct inv'; [discriminate|]. intros _. apply H2. discriminate.
  - intros ups. unfold Nlp._extract_batch_updates.
    destruct (batch_loop_lines (tl (Py.split Py.newline text)) 1 [] [])
      as (ups' & inv' & -> & H1 & _). cbn [app].
    destruct inv'; [|discriminate]. intros [= <-]. exact (H1 eq_refl).
Qed.

(** Witness of X16: two items around a blank line. *)
Lemma batch_items_follow_the_lines_witness :
  Forall2 (fun raw u =>
             Re.search_group true Nlp.batch_task_pattern (Py.strip raw)
             = Some (bu_task_id u)
             /\ bu_field_updates u = Nlp.batch_line_fields (Py.strip raw))
          ["TASK 51311 -> Start Date -> 08/08/2025";
           "  task 51312 -> status -> Closed -> finish date -> 08/11/2025"]
          [mkBatchUpdate "51311" [(Some "start_date", VStr "08/08/2025")];
           mkBatchUpdate "51312" [(Some "finish_date", VStr "08/11/2025");
                                  (Some "status", VStr "closed")]].
Proof.
  apply (proj2 (batch_items_follow_the_lines
                  ("Update following individual tasks:" ++ Py.nl
                   ++ "TASK 51311 -> Start Date -> 08/08/2025" ++ Py.nl
                   ++ Py.nl
                   ++ "  task 51312 -> status -> Closed -> finish date -> 08/11/2025"))).
  vm_compute. reflexivity.
Defined.

(** ** The session of the Azure DevOps tool *)
Section Session.

(** A stage that, started with a session, keeps it and sets nothing up. *)
Let settled {A} (c : M A) : Prop :=
  forall w, session w = true ->
            session (snd (c w)) = true
            /\ setup_calls (log (snd (c w))) = setup_calls (log w).

Lemma setup_calls_emit (e : Event) (w : World) :
  is_setup e = false -> setup_calls (log (emit e w)) = setup_calls (log w).
Proof.
  intros H. unfold setup_calls, emit. cbn [log]. rewrite filter_app. cbn [filter].
  rewrite H. apply app_nil_r.
Qed.

Lemma settled_ret {A} (a : A) : settled (ret a).
Proof. intros w H. now split. Qed.

Lemma settled_raise {A} (e : string) : settled (@raise A e).
Proof. intros w H. now split. Qed.

Lemma settled_emit (e : Event) :
  is_setup e = false -> settled (fun w => ret tt (emit e w)).
Proof. intros He w H. split; [exact H | now apply setup_calls_emit]. Qed.

Lemma settled_bind {A B} (c : M A) (f : A -> M B) :
  settled c -> (forall a, settled (f a)) -> settled (bind c f).
Proof.
  intros Hc Hf w H. unfold bind. destruct (Hc w H) as [H1 H2].
  destruct (c w) as [[a|e] w0]; cbn [snd] in *; [|now split].
  destruct (Hf a w0 H1) as [H3 H4]. split; [exact H3 | congruence].
Qed.

Lemma settled_catch {A} (c : M A) (h : string -> M A) :
  settled c -> (forall e, settled (h e)) -> settled (catch c h).
Proof.
  intros Hc Hh w H. unfold catch. destruct (Hc w H) as [H1 H2].
  destruct (c w) as [[a|e] w0]; cbn [snd] in *; [now split|].
  destruct (Hh e w0 H1) as [H3 H4]. split; [exact H3 | congruence].
Qed.

Lemma settled_lookup_work_item_type (env : Env) (id : Z) (fu : FieldUpdates) :
  settled (Ado.lookup_work_item_type env id fu).
Proof.
  unfold Ado.lookup_work_item_type.
  destruct (dict_mem fu (Some "status")); [|apply settled_ret].
  intros w H. rewrite H.
  destruct (get_work_item env (log w) id) as [[[t|]|code]|e]; cbn [snd];
    (split; [exact H | now apply setup_calls_emit]).
Qed.

Lemma settled_send_patch (env : Env) (id : Z) (ops : list Operation) :
  settled (Ado.send_patch env id ops).
Proof.
  intros w H. unfold Ado.send_patch. rewrite H.
  destruct (patch_work_item env (log w) id ops) as [r|e];
    [destruct (Ado.is_success_status (patch_status r))|]; cbn [snd];
    (split; [exact H | now apply setup_calls_emit]).
Qed.

Lemma settled_update_work_item (env : Env) (id : Z) (fu : FieldUpdates) :
  settled (Ado.update_work_item env id fu).
Proof.
  unfold Ado.update_work_item.
  apply settled_bind; [now apply settled_emit|]. intros _.
  apply settled_bind; [apply settled_lookup_work_item_type|]. intros wt.
  destruct (Ado.build_operations wt fu); [apply settled_send_patch | apply settled_raise].
Qed.

Lemma settled_batch_dispatch (env : Env) (batch : list BatchUpdate) :
  forall results failed, settled (Orch.batch_dispatch env batch results failed).
Proof.
  induction batch as [|u more IH]; intros results failed; [apply settled_ret|].
  intros w H. cbn [Orch.batch_dispatch]. cbv zeta.
  destruct (Py.int (bu_task_id u)) as [id|].
  - destruct (settled_update_work_item env id (bu_field_updates u) w H) as [H1 H2].
    destruct (Ado.update_work_item env id (bu_field_updates u) w) as [[r|e] w0];
      cbn [snd] in H1, H2;
      match goal with
      | |- context [Orch.batch_dispatch env more ?rs ?fs w0] =>
          destruct (IH rs fs w0 H1) as [H3 H4]
      end; (split; [exact H3 | congruence]).
  - unfold raise. apply IH. exact H.
Qed.

Lemma settled_task_update_branch (env : Env) (ents : Entities) :
  settled (Orch.task_update_branch env ents).
Proof.
  assert (Hb : forall batch, settled (Orch._handle_batch_updates env batch)).
  { intros batch. unfold Orch._handle_batch_updates.
    destruct (filter _ _); [|apply settled_ret].
    apply settled_bind; [apply settled_batch_dispatch | intros; apply settled_ret]. }
  unfold Orch.task_update_branch.
  destruct (batch_update_error ents); [apply settled_ret|].
  destruct (batch_updates ents) as [[|u us]|]; try apply Hb;
    (destruct (task_id ents) as [tid|]; [|apply settled_ret];
     destruct (negb (Py.truthy tid)); [apply settled_ret|];
     destruct (negb (Py.isdigit tid)); [apply settled_ret|];
     destruct (Orch.plan_field_updates ents) as [[|f fs]|e];
     [apply settled_ret | | apply settled_raise];
     (apply settled_catch; [|intros; apply settled_ret]);
     destruct (Py.int tid); [|apply settled_raise];
     apply settled_bind; [apply settled_update_work_item | intros; apply settled_ret]).
Qed.

Lemma settled_execute_tool (env : Env) (tool : string) (nlp : Nlp.NlpResult) :
  settled (Orch._execute_tool env tool nlp).
Proof.
  unfold Orch._execute_tool.
  apply settled_catch; [|intros; apply settled_ret].
  destruct (String.eqb tool "azure_devops");
    [|repeat (destruct (String.eqb tool _); [apply settled_ret|]); apply settled_ret].
  unfold Orch._execute_azure_devops.
  apply settled_catch; [|intros; apply settled_ret].
  destruct (negb (tool_available env)); [apply settled_ret|].
  apply settled_bind.
  { intros w H. unfold Orch.ensure_session. rewrite H. now split. }
  intros [r|]; [apply settled_ret|].
  destruct (String.eqb _ "tasks").
  { intros w H. unfold Orch.tasks_branch.
    destruct (get_my_tasks env _ _ _); cbn [snd];
      (split; [exact H | now apply setup_calls_emit]). }
  destruct (String.eqb _ "pull_requests").
  { intros w H. unfold Orch.pull_requests_branch.
    destruct (get_my_pull_requests env _ _); cbn [snd];
      (split; [exact H | now apply setup_calls_emit]). }
  destruct (String.eqb _ "task_update");
    [apply settled_task_update_branch | apply settled_ret].
Qed.

Lemma settled_nlp_process_query (env : Env) (text : string) :
  settled (Nlp.process_query env text).
Proof.
  intros w H. unfold Nlp.process_query, bind.
  destruct (Nlp.has_update_keyword text) eqn:Hk.
  - rewrite classify_with_update_keyword by assumption. now split.
  - rewrite classify_without_update_keyword by assumption. cbn [snd ret].
    split; [exact H | now apply setup_calls_emit].
Qed.

Lemma settled_process_query (env : Env) (text : string) :
  settled (Orch.process_query env text).
Proof.
  intros w H.
  destruct (nlp_process_query_total env text w) as (nlp & w0 & H0 & _).
  destruct (execute_tool_total env (Orch._select_tool nlp) nlp w0) as (r & w1 & H1).
  destruct (process_query_stages env text w w0 w1 nlp r H0 H1) as (w2 & -> & Hl & Hs).
  destruct (settled_nlp_process_query env text w H) as [A1 A2]. rewrite H0 in A1, A2.
  destruct (settled_execute_tool env (Orch._select_tool nlp) nlp w0 A1) as [B1 B2].
  rewrite H1 in B1, B2. cbn [snd] in *. split; congruence.
Qed.

End Session.

(** X17 — The tool is set up only while it has no session.  Once the tool
    has a session, every later query keeps it and none of them calls [setup]
    again, whatever the queries are and whatever the services answer. *)
Theorem session_is_set_up_once :
  forall (env : Env) (texts : list string) (w : World),
    session w = true ->
    session (OrchState.run_queries env texts w) = true
    /\ setup_calls (log (OrchState.run_queries env texts w)) = setup_calls (log w).
Proof.
  intros env texts. induction texts as [|t more IH]; intros w H; [now split|].
  cbn [OrchState.run_queries].
  destruct (settled_process_query env t w H) as [H1 H2].
  destruct (IH _ H1) as [H3 H4]. split; [exact H3 | congruence].
Qed.

(** Witness of X17: three queries after the first set-up. *)
Lemma session_is_set_up_once_witness :
  setup_calls
    (log (OrchState.run_queries (stub_env (fun _ => false))
            ["show my tasks"; "Update task 42 status to Active"; "show my pull requests"]
            (mkWorld [EvSetup] true [])))
  = [EvSetup].
Proof.
  apply (session_is_set_up_once (stub_env (fun _ => false))
           ["show my tasks"; "Update task 42 status to Active"; "show my pull requests"]
           (mkWorld [EvSetup] true [])).
  reflexivity.
Defined.

(** X18 — When the external classifier cannot be used, a query without
    update verb is classified by keywords with an empty entity dict.  So a
    query that the keywords read as a task query asks for the tasks without
    any filter, also when its text names a sprint or a status, and one read
    as a pull-request query asks for the active pull requests. *)
Theorem keyword_fallback_drops_filters :
  forall (env : Env) (text : string) (w : World) (err : string),
    Nlp.has_update_keyword text = false ->
    call_openai env (log w) text = Raised err ->
    tool_available env = true ->
    session w = true ->
    exists e w',
      Orch.process_query env text w = (Ok e, w')
      /\ Orch.env_intent e = Some (name (Nlp._fallback_intent_classification text))
      /\ (name (Nlp._fallback_intent_classification text) = "tasks" ->
          Orch.env_entities e = Some no_entities
          /\ log w' = (log w ++ [EvOpenAI text; EvGetMyTasks None None])%list)
      /\ (name (Nlp._fallback_intent_classification text) = "pull_requests" ->
          Orch.env_entities e = Some no_entities
          /\ log w' = (log w ++ [EvOpenAI text; EvGetMyPullRequests "active"])%list).
Proof.
  intros env text w err Hk Ho Ha Hs.
  set (i := Nlp._fallback_intent_classification text).
  assert (H0 : Nlp.process_query env text w
               = (Ok (Nlp.mkNlpResult (name i) (confidence i) (entities i) text true),
                  emit (EvOpenAI text) w)).
  { unfold Nlp.process_query, bind.
    rewrite classify_without_update_keyword by assumption. now rewrite Ho. }
  set (nlp := Nlp.mkNlpResult (name i) (confidence i) (entities i) text true) in *.
  destruct (execute_tool_total env (Orch._select_tool nlp) nlp (emit (EvOpenAI text) w))
    as (r & w1 & H1).
  destruct (process_query_stages env text w _ w1 nlp r H0 H1) as (w2 & H2 & Hl & _).
  eexists _, w2. split; [exact H2|]. split; [reflexivity|].
  assert (He : name i <> "task_update" -> entities i = no_entities)
    by apply fallback_intent_names.
  split; intros Hn.
  - assert (Hne : entities i = no_entities) by (apply He; rewrite Hn; discriminate).
    cbn [Orch.env_entities Orch.envelope_of Nlp.nlp_entities nlp]. rewrite Hne.
    split; [reflexivity|]. rewrite Hl.
    revert H1. unfold Orch._select_tool, nlp. cbn [Nlp.nlp_intent]. rewrite Hn, Hne.
    cbn [Ado.get_default Ado.lookup Orch.tool_mapping String.eqb Ascii.eqb Bool.eqb].
    rewrite execute_tool_azure. cbn [Nlp.nlp_intent Nlp.nlp_entities].
    unfold Orch._execute_azure_devops, catch, bind, Orch.ensure_session.
    rewrite Ha. cbn [negb session emit]. rewrite Hs.
    cbn [String.eqb Ascii.eqb Bool.eqb]. unfold Orch.tasks_branch, emit.
    cbn [sprint status no_entities log session conversation_history].
    destruct (get_my_tasks env _ None None); unfold ret; intros [= _ <-];
      cbn [log]; now rewrite <- app_assoc.
  - assert (Hne : entities i = no_entities) by (apply He; rewrite Hn; discriminate).
    cbn [Orch.env_entities Orch.envelope_of Nlp.nlp_entities nlp]. rewrite Hne.
    split; [reflexivity|]. rewrite Hl.
    revert H1. unfold Orch._select_tool, nlp. cbn [Nlp.nlp_intent]. rewrite Hn, Hne.
    cbn [Ado.get_default Ado.lookup Orch.tool_mapping String.eqb Ascii.eqb Bool.eqb].
    rewrite execute_tool_azure. cbn [Nlp.nlp_intent Nlp.nlp_entities].
    unfold Orch._execute_azure_devops, catch, bind, Orch.ensure_session.
    rewrite Ha. cbn [negb session emit]. rewrite Hs.
    cbn [String.eqb Ascii.eqb Bool.eqb]. unfold Orch.pull_requests_branch, emit.
    cbn [sprint status no_entities log session conversation_history].
    destruct (get_my_pull_requests env _ "active"); unfold ret; intros [= _ <-];
      cbn [log]; now rewrite <- app_assoc.
Qed.

(** Witness of X18: the sprint and the status named in the text are not
    passed on. *)
Lemma keyword_fallback_drops_filters_witness :
  exists e w',
    Orch.process_query (stub_env (fun _ => false))
                       "show my active tasks of sprint 12" (mkWorld [] true [])
    = (Ok e, w')
    /\ log w' = [EvOpenAI "show my active tasks of sprint 12"; EvGetMyTasks None None]
    /\ sprint (Nlp._extract_entities "show my active tasks of sprint 12" "tasks")
       = Some "12".
Proof.
  destruct (keyword_fallback_drops_filters
              (stub_env (fun _ => false)) "show my active tasks of sprint 12"
              (mkWorld [] true []) "OpenAI Configuration Required"
              eq_refl eq_refl eq_refl eq_refl) as (e & w' & Hq & _ & Ht & _).
  exists e, w'. split; [exact Hq|]. split; [|vm_compute; reflexivity].
  apply Ht. vm_compute. reflexivity.
Defined.
